(** * Bus Schedule Reporter: a shallow embedding of [bus_schedule_reporter.py]

    The development follows the Python module top to bottom:
    - [PyStr]: the string operations the module uses ([strip], [lower],
      [upper], [in], [int()]), on ASCII text;
    - [Re]: the fragment of [re] the module's patterns are written in
      (literals, greedy [*] and [+] over a character class, capturing
      groups), with [re.match] and [re.search];
    - [PyFloat]: Python's [float], IEEE binary64, on top of the standard
      library's [SpecFloat]; [int / int], [int + float], [float(str)] and
      [round(x, 2)] with the exceptions they raise;
    - [PyDict]: insertion-ordered dictionaries;
    - the module itself: [data_fields], [parse_time_string],
      [extract_booking_code], [extract_data], [route_sort_key],
      [write_to_excel] and the upload loop.

    Modelling conventions.
    - Text is ASCII: a character is an [ascii], [\d] is [0-9], [\s] and
      [str.strip] use the ASCII white space of [str.isspace]
      (codes 9-13, 28-32), and [lower]/[upper] change the 26 letters only.
    - [int] is [Z].  [int()] refuses a string of more than 4300 digits with
      [ValueError] (the default [sys.int_info.default_max_str_digits] of
      CPython 3.11 and later, leading zeros counted): [parse_time_string]
      raises it and the numeric fields of [extract_data] store [0] for it.
      [route_sort_key] is total: it is the key that [int()] returns, and
      for a route number of more than 4300 digits the sort of
      [write_to_excel] raises instead of ordering the routes.
    - A raised exception is a value [Raise e] of the [result] type.
    - The worksheet of openpyxl is a total function from (row, column) to a
      cell, together with the list of merged ranges; only the value and the
      fill colour of a cell are kept (fonts and alignments are dropped).
    - The iteration order of a Python [set] is not determined by its
      contents; [write_to_excel] therefore takes the order in which the set
      of route identifiers is enumerated as an argument, and the theorems
      hold for every enumeration. *)

From Stdlib Require Import ZArith Ascii String Bool Lia.
From Stdlib Require Import Floats.SpecFloat.
From stdpp Require Import base option list sorting gmap strings.

Local Open Scope string_scope.
Local Open Scope Z_scope.

(** String concatenation unfolds on a constructor. *)
#[local] Arguments String.append !s1 s2 : simpl nomatch.

(* ===================================================================== *)
(** * Exceptions *)
(* ===================================================================== *)

Inductive exn : Set :=
| OverflowError
| ZeroDivisionError
| KeyError
| ValueError.

Inductive result (A : Type) : Type :=
| Ok (a : A)
| Raise (e : exn).
Arguments Ok {A} a.
Arguments Raise {A} e.

#[global] Instance result_ret : MRet result := @Ok.
#[global] Instance result_bind : MBind result := fun A B f r =>
  match r with
  | Ok a => f a
  | Raise e => Raise e
  end.

(** A [for] loop whose body may raise: the first exception ends the loop. *)
Fixpoint for_each {S A : Type} (body : S -> A -> result S) (xs : list A) (s : S)
  : result S :=
  match xs with
  | [] => Ok s
  | x :: xs' =>
      match body s x with
      | Ok s' => for_each body xs' s'
      | Raise e => Raise e
      end
  end.

(* ===================================================================== *)
(** * Strings *)
(* ===================================================================== *)

Module PyStr.

Definition code (c : ascii) : Z := Z.of_N (N_of_ascii c).

Definition in_range (lo hi : Z) (c : ascii) : bool :=
  (lo <=? code c) && (code c <=? hi).

(** [\d] *)
Definition is_digit (c : ascii) : bool := in_range 48 57 c.

(** [\s], [str.isspace]: TAB LF VT FF CR, FS GS RS US, SPACE. *)
Definition is_space (c : ascii) : bool := in_range 9 13 c || in_range 28 32 c.

(** [\S] *)
Definition is_nonspace (c : ascii) : bool := negb (is_space c).

(** [.] (without DOTALL): anything but a line feed. *)
Definition is_dot (c : ascii) : bool := negb (code c =? 10).

(** [[\dhm]] *)
Definition is_dhm (c : ascii) : bool :=
  is_digit c || (code c =? 104) || (code c =? 109).

(** [[\d\.]] *)
Definition is_digit_or_point (c : ascii) : bool := is_digit c || (code c =? 46).

Definition lower_char (c : ascii) : ascii :=
  if in_range 65 90 c then ascii_of_N (N_of_ascii c + 32) else c.

Definition upper_char (c : ascii) : ascii :=
  if in_range 97 122 c then ascii_of_N (N_of_ascii c - 32) else c.

Fixpoint map_chars (f : ascii -> ascii) (s : string) : string :=
  match s with
  | EmptyString => EmptyString
  | String c s' => String (f c) (map_chars f s')
  end.

Definition lower : string -> string := map_chars lower_char.
Definition upper : string -> string := map_chars upper_char.

Fixpoint lstrip (s : string) : string :=
  match s with
  | String c s' => if is_space c then lstrip s' else s
  | EmptyString => EmptyString
  end.

Fixpoint rstrip (s : string) : string :=
  match s with
  | EmptyString => EmptyString
  | String c s' =>
      match rstrip s' with
      | EmptyString => if is_space c then EmptyString else String c EmptyString
      | t => String c t
      end
  end.

Definition strip (s : string) : string := rstrip (lstrip s).

(** [sub in s] *)
Fixpoint contains (sub s : string) : bool :=
  String.prefix sub s ||
  match s with
  | EmptyString => false
  | String _ s' => contains sub s'
  end.

Fixpoint all_chars (p : ascii -> bool) (s : string) : bool :=
  match s with
  | EmptyString => true
  | String c s' => p c && all_chars p s'
  end.

Fixpoint count_chars (p : ascii -> bool) (s : string) : nat :=
  match s with
  | EmptyString => O
  | String c s' => ((if p c then 1 else 0) + count_chars p s')%nat
  end.

Fixpoint filter_chars (p : ascii -> bool) (s : string) : string :=
  match s with
  | EmptyString => EmptyString
  | String c s' => if p c then String c (filter_chars p s') else filter_chars p s'
  end.

(** The part of [s] after its first character satisfying [p]. *)
Fixpoint after_first (p : ascii -> bool) (s : string) : string :=
  match s with
  | EmptyString => EmptyString
  | String c s' => if p c then s' else after_first p s'
  end.

(** The number written by a string of decimal digits, most significant
    digit first. *)
Fixpoint digits_value (acc : Z) (s : string) : Z :=
  match s with
  | EmptyString => acc
  | String c s' => digits_value (10 * acc + (code c - 48)) s'
  end.

Definition is_number (s : string) : bool :=
  negb (String.eqb s "") && all_chars is_digit s.

(** The limit of [int()] on the number of digits of its argument:
    [sys.int_info.default_max_str_digits]. *)
Definition max_str_digits : Z := 4300.

Definition within_int_limit (s : string) : bool :=
  Z.of_nat (String.length s) <=? max_str_digits.

(** [int(s)] for a string of digits and points: [None] stands for
    [ValueError], which a string that is not a number or has more than
    [max_str_digits] digits raises. *)
Definition int_of_string (s : string) : option Z :=
  if is_number s && within_int_limit s then Some (digits_value 0 s) else None.

(** [s.split()[0]] for a string that contains a word. *)
Fixpoint first_word_aux (s : string) : string :=
  match s with
  | EmptyString => EmptyString
  | String c s' => if is_space c then EmptyString else String c (first_word_aux s')
  end.
Definition first_word (s : string) : string := first_word_aux (lstrip s).

End PyStr.

(* ===================================================================== *)
(** * Regular expressions *)
(* ===================================================================== *)

Module Re.

(** The patterns of the module are sequences of literals and of greedy
    repetitions of one character class; every capturing group encloses
    exactly one repetition. *)
Inductive item : Type :=
| Lit (s : string)
| Rep (cls : ascii -> bool) (at_least_one : bool) (capture : bool).

Definition pattern : Type := list item.

(** [cls*] *)
Definition star (cls : ascii -> bool) : item := Rep cls false false.
(** [cls+] *)
Definition plus (cls : ascii -> bool) : item := Rep cls true false.
(** a capturing group around [cls*] *)
Definition group_star (cls : ascii -> bool) : item := Rep cls false true.
(** a capturing group around [cls+] *)
Definition group_plus (cls : ascii -> bool) : item := Rep cls true true.

Fixpoint strip_prefix (l s : string) : option string :=
  match l with
  | EmptyString => Some s
  | String a l' =>
      match s with
      | String b s' => if Ascii.eqb a b then strip_prefix l' s' else None
      | EmptyString => None
      end
  end.

(** Greedy repetition with backtracking: consume as many characters of
    the class as possible, and give characters back one at a time until
    the rest of the pattern, [k], matches.  The result is the text
    consumed and what [k] returned. *)
Fixpoint rep {A : Type} (cls : ascii -> bool) (k : string -> option A)
    (s : string) : option (string * A) :=
  let stop := match k s with Some a => Some (EmptyString, a) | None => None end in
  match s with
  | String c s' =>
      if cls c then
        match rep cls k s' with
        | Some (t, a) => Some (String c t, a)
        | None => stop
        end
      else stop
  | EmptyString => stop
  end.

(** Match the pattern at the start of [s]; on success return the texts of
    the capturing groups, in order. *)
Fixpoint match_here (p : pattern) (s : string) : option (list string) :=
  match p with
  | [] => Some []
  | Lit l :: p' =>
      match strip_prefix l s with
      | Some s' => match_here p' s'
      | None => None
      end
  | Rep cls one cap :: p' =>
      match rep cls (match_here p') s with
      | Some (t, gs) =>
          if one && String.eqb t "" then None
          else Some (if cap then t :: gs else gs)
      | None => None
      end
  end.

(** [re.match] *)
Definition match_ (p : pattern) (s : string) : option (list string) :=
  match_here p s.

(** [re.search]: the match at the leftmost position that has one. *)
Fixpoint search (p : pattern) (s : string) : option (list string) :=
  match match_here p s with
  | Some gs => Some gs
  | None =>
      match s with
      | String _ s' => search p s'
      | EmptyString => None
      end
  end.

(** [m.group(n)], [n >= 1] *)
Definition group (n : nat) (gs : list string) : string :=
  nth (pred n) gs EmptyString.

End Re.

(* ===================================================================== *)
(** * Floats *)
(* ===================================================================== *)

Module PyFloat.

Definition prec : Z := 53.
Definition emax : Z := 1024.

Definition float : Type := spec_float.

Definition zero : float := S754_zero false.

Definition add : float -> float -> float := SFadd prec emax.
Definition div : float -> float -> float := SFdiv prec emax.

(** The binary64 nearest to the rational [n / d], ties to even, for
    [0 <= n] and [0 < d]; an infinity when the quotient is too large. *)
Definition nearest (n d : Z) : float :=
  match n, d with
  | Zpos pn, Zpos pd => div (S754_finite false pn 0) (S754_finite false pd 0)
  | _, _ => zero
  end.

Definition is_infinite (x : float) : bool :=
  match x with
  | S754_infinity _ => true
  | _ => false
  end.

(** [float(n)] and the conversion of the [int] operand of [n + x] and
    [x / n], for [0 <= n]. *)
Definition of_int (n : Z) : result float :=
  let x := nearest n 1 in
  if is_infinite x then Raise OverflowError else Ok x.

(** [a / b] on two [int]s, for [0 <= a] and [0 <= b]: the correctly
    rounded quotient. *)
Definition int_truediv (a b : Z) : result float :=
  if b =? 0 then Raise ZeroDivisionError
  else
    let x := nearest a b in
    if is_infinite x then Raise OverflowError else Ok x.

(** [x / n] for a float [x] and an [int] [n], [0 <= n]. *)
Definition truediv_int (x : float) (n : Z) : result float :=
  match of_int n with
  | Raise e => Raise e
  | Ok y => if n =? 0 then Raise ZeroDivisionError else Ok (div x y)
  end.

(** [n / d] rounded to an integer, ties to even ([0 <= n], [0 < d]). *)
Definition div_half_even (n d : Z) : Z :=
  let q := n / d in
  match (2 * (n mod d)) ?= d with
  | Lt => q
  | Gt => q + 1
  | Eq => if Z.even q then q else q + 1
  end.

(** The integer nearest to [100 * m * 2^e], ties to even. *)
Definition hundredths (m : positive) (e : Z) : Z :=
  if 0 <=? e then Zpos m * 2 ^ e * 100
  else div_half_even (Zpos m * 100) (2 ^ (- e)).

(** [round(x, 2)]: the exact value of [x] is rounded to two decimals,
    ties to even, and the decimal obtained is converted back to the
    nearest float.  Infinities, NaN and zeros round to themselves. *)
Definition round2 (x : float) : float :=
  match x with
  | S754_finite s m e =>
      match hundredths m e with
      | Zpos h => div (S754_finite s h 0) (S754_finite false 100 0)
      | _ => S754_zero s
      end
  | _ => x
  end.

(** [float(s)] for a string of digits and points: one point and at least
    one digit are required ([None] stands for [ValueError]); too large a
    number gives [inf]. *)
Definition of_string (s : string) : option float :=
  let ds := PyStr.filter_chars PyStr.is_digit s in
  if (PyStr.count_chars (fun c => negb (PyStr.is_digit c)) s =? 1)%nat
     && PyStr.contains "." s && negb (String.eqb ds "")
  then
    let frac := PyStr.after_first (fun c => PyStr.code c =? 46) s in
    Some (nearest (PyStr.digits_value 0 ds) (10 ^ Z.of_nat (String.length frac)))
  else None.

End PyFloat.

(* ===================================================================== *)
(** * Dictionaries *)
(* ===================================================================== *)

Module PyDict.

(** A Python [dict]: the keys are distinct and kept in insertion order. *)
Definition dict (K V : Type) : Type := list (K * V).

Section Ops.
Context {K V : Type} `{EqDecision K}.

(** [d.get(k)] *)
Fixpoint get (k : K) (d : dict K V) : option V :=
  match d with
  | [] => None
  | (k', v) :: d' => if decide (k = k') then Some v else get k d'
  end.

(** [k in d] *)
Definition mem (k : K) (d : dict K V) : bool :=
  match get k d with
  | Some _ => true
  | None => false
  end.

(** [d[k] = v]: an existing key keeps its place. *)
Fixpoint set (k : K) (v : V) (d : dict K V) : dict K V :=
  match d with
  | [] => [(k, v)]
  | (k', v') :: d' => if decide (k = k') then (k, v) :: d' else (k', v') :: set k v d'
  end.

(** [d.keys()] *)
Definition keys (d : dict K V) : list K := map fst d.

(** [d.values()] *)
Definition values (d : dict K V) : list V := map snd d.

(** [for k in d: d[k] = f(k, d[k])], where [f] may raise. *)
Fixpoint update_all (f : K -> V -> result V) (d : dict K V) : result (dict K V) :=
  match d with
  | [] => Ok []
  | (k, v) :: d' =>
      match f k v with
      | Raise e => Raise e
      | Ok v' =>
          match update_all f d' with
          | Raise e => Raise e
          | Ok d'' => Ok ((k, v') :: d'')
          end
      end
  end.

End Ops.

End PyDict.

Import PyDict.

(* ===================================================================== *)
(** * The module *)
(* ===================================================================== *)

(** The numbers stored in a record: an [int] or a [float]. *)
Inductive value : Type :=
| VInt (n : Z)
| VFloat (x : PyFloat.float).

Section Patterns.
Import Re PyStr.

(** The pattern "\s*:\s*" *)
Definition colon : pattern := [star is_space; Lit ":"; star is_space].

(** === Data fields === *)
Definition data_fields : list (string * option pattern) :=
  [ ("Blocks", Some (Lit "Number of blocks" :: colon ++ [group_plus is_digit]));
    ("Trips", Some (Lit "Number of in-service trips" :: colon ++ [group_plus is_digit]));
    ("Off Service Duration", Some (Lit "Off-service duration" :: colon ++ [group_plus is_dhm]));
    ("In Service Duration", Some (Lit "In-service duration" :: colon ++ [group_plus is_dhm]));
    ("Loading Duration", Some (Lit "Loading duration" :: colon ++ [group_plus is_dhm]));
    ("Layover Duration", Some (Lit "Layover duration" :: colon ++ [group_plus is_dhm]));
    ("Platform Hours", Some (Lit "Total duration" :: colon ++ [group_plus is_dhm]));
    ("In-service Distance (KM)",
       Some (Lit "In-service distance" :: colon ++ [group_plus is_digit_or_point]));
    ("Revenue Hours", None) (* Computed *) ].

(** The pattern "(\d+)h(\d+)" *)
Definition time_re : pattern := [group_plus is_digit; Lit "h"; group_plus is_digit].

(** The pattern "Booking:\s*(\d+)" *)
Definition booking_re : pattern := [Lit "Booking:"; star is_space; group_plus is_digit].

(** The pattern "\s*Route\s+(\S+)\s+(G)" in which G is ".*" *)
Definition route_re : pattern :=
  [star is_space; Lit "Route"; plus is_space; group_plus is_nonspace; plus is_space;
   group_star is_dot].

(** The pattern "(\d+)" *)
Definition leading_digits_re : pattern := [group_plus is_digit].

End Patterns.

(** Desired order *)
Definition file_order : list string := ["WDY Stats.prt"; "SAT Stats.prt"; "SUN Stats.prt"].

(** Excel colors *)
Definition color_map : dict string string :=
  [ ("WDY Stats.prt", "0070C0"); ("SAT Stats.prt", "FF0000"); ("SUN Stats.prt", "000000") ].
Definition beige_fill : string := "F5F5DC".
Definition revenue_fill : string := "FFFF99".

(** === Utils === *)

(** [int(match.group(n))] for a group captured by [(\d+)]: [ValueError]
    when the group has more than [max_str_digits] digits. *)
Definition int_of_group (n : nat) (gs : list string) : result Z :=
  let s := Re.group n gs in
  if PyStr.within_int_limit s then Ok (PyStr.digits_value 0 s) else Raise ValueError.

Definition parse_time_string (time_str : string) : result PyFloat.float :=
  match Re.match_ time_re time_str with
  | Some gs =>
      hours ← int_of_group 1 gs;
      minutes ← int_of_group 2 gs;
      q ← PyFloat.int_truediv minutes 60;
      h ← PyFloat.of_int hours;
      Ok (PyFloat.round2 (PyFloat.add h q))
  | None => Ok PyFloat.zero
  end.

Fixpoint extract_booking_code (lines : list string) : string :=
  match lines with
  | [] => "unknown"
  | line :: lines' =>
      match Re.search booking_re line with
      | Some gs => Re.group 1 gs
      | None => extract_booking_code lines'
      end
  end.

Definition record : Type := dict string value.

(** [{field[0]: 0 if field[0] != 'Revenue Hours' else 0.0 for field in data_fields}] *)
Definition new_record : record :=
  fold_left
    (fun d field =>
       set (fst field)
           (if String.eqb (fst field) "Revenue Hours" then VFloat PyFloat.zero else VInt 0) d)
    data_fields [].

(** The [try] ... [except] of the field loop:
    [float(val) if '.' in val else int(val)], and [0] when that raises. *)
Definition parse_number (val : string) : value :=
  if PyStr.contains "." val then
    match PyFloat.of_string val with
    | Some x => VFloat x
    | None => VInt 0
    end
  else
    match PyStr.int_of_string val with
    | Some n => VInt n
    | None => VInt 0
    end.

Definition is_duration_field (field_name : string) : bool :=
  PyStr.contains "Duration" field_name || String.eqb field_name "Platform Hours".

(** The state of the line loop of [extract_data]. *)
Record scan_state : Type := {
  data : dict string record;
  current_route : option string
}.

(** One iteration of [for field_name, regex in data_fields], for the line
    [line] below the header of [route]. *)
Definition scan_field (line route : string) (d : dict string record)
    (field : string * option Re.pattern) : result (dict string record) :=
  let '(field_name, regex) := field in
  match regex with
  | None => Ok d
  | Some re =>
      match Re.search re line with
      | None => Ok d
      | Some gs =>
          let val := PyStr.strip (Re.group 1 gs) in
          v ← (if is_duration_field field_name
               then x ← parse_time_string val; Ok (VFloat x)
               else Ok (parse_number val));
          match get route d with
          | Some r => Ok (set route (set field_name v r) d)
          | None => Raise KeyError
          end
      end
  end.

(** One iteration of [for line in lines]. *)
Definition scan_line (st : scan_state) (line : string) : result scan_state :=
  match Re.match_ route_re line with
  | Some gs =>
      let route_num := Re.group 1 gs in
      let route_name := PyStr.strip (Re.group 2 gs) in
      let route := route_num ++ " " ++ route_name in
      Ok {| data := set route new_record (data st); current_route := Some route |}
  | None =>
      match current_route st with
      | None => Ok st
      | Some route =>
          if String.eqb route "" then Ok st
          else
            d ← for_each (scan_field line route) data_fields (data st);
            Ok {| data := d; current_route := Some route |}
      end
  end.

(** [float(v)] *)
Definition to_float (v : value) : result PyFloat.float :=
  match v with
  | VInt n => PyFloat.of_int n
  | VFloat x => Ok x
  end.

(** [v / n] for an [int] [n] *)
Definition truediv (v : value) (n : Z) : result PyFloat.float :=
  match v with
  | VInt a => PyFloat.int_truediv a n
  | VFloat x => PyFloat.truediv_int x n
  end.

(** [round(v / 2, 2)] *)
Definition halve (v : value) : result value :=
  q ← truediv v 2; Ok (VFloat (PyFloat.round2 q)).

Definition is_senior_shopper (route : string) : bool :=
  String.eqb (PyStr.lower (PyStr.strip route)) "65 senior shopper".

(** The lines under [# Compute Revenue Hours], up to the halving. *)
Definition set_revenue_hours (r : record) : result record :=
  in_service ← to_float (default (VInt 0) (get "In Service Duration" r));
  layover ← to_float (default (VInt 0) (get "Layover Duration" r));
  let revenue_hours := PyFloat.round2 (PyFloat.add in_service layover) in
  Ok (set "Revenue Hours" (VFloat revenue_hours) r).

(** The body of [for route in data]. *)
Definition finish_route (route : string) (r : record) : result record :=
  r1 ← set_revenue_hours r;
  if is_senior_shopper route then update_all (fun _ v => halve v) r1 else Ok r1.

(** [extract_data], from the lines read from the file: the body of the
    function below [lines = f.readlines()]. *)
Definition extract_data (lines : list string) : result (string * dict string record) :=
  let booking_code := extract_booking_code lines in
  st ← for_each scan_line lines {| data := []; current_route := None |};
  d ← update_all finish_route (data st);
  Ok (booking_code, d).

(** The exceptions of the conversions of [extract_data]: [OverflowError]
    from a number too large for a float, [ValueError] from [int()] of more
    than [max_str_digits] digits. *)
Definition conversion_error (e : exn) : Prop :=
  e = OverflowError \/ e = ValueError.

(** ** Route order *)

(** The value of [route_sort_key]: an [int] or [float('inf')]. *)
Inductive sort_key : Type :=
| KInt (n : Z)
| KInf.

(** [int(match.group(1)) if match else float('inf')]: the key is the number
    written by the leading digits.  The function is total: it gives that
    number also for more than [max_str_digits] leading digits, where
    [int()] raises [ValueError] and the sort with it. *)
Definition route_sort_key (route : string) : sort_key :=
  match Re.match_ leading_digits_re route with
  | Some gs => KInt (PyStr.digits_value 0 (Re.group 1 gs))
  | None => KInf
  end.

(** [a < b] on keys; an [int] is below [inf], and [inf < inf] is false. *)
Definition key_lt (a b : sort_key) : bool :=
  match a, b with
  | KInt x, KInt y => x <? y
  | KInt _, KInf => true
  | KInf, _ => false
  end.

(** [sorted(l, key=key)]: Python's sort is stable, so its result is the one
    of any stable sort; this one inserts from the right, each element in
    front of the first element that is not below it. *)
Fixpoint insert_by {A : Type} (key : A -> sort_key) (x : A) (l : list A) : list A :=
  match l with
  | [] => [x]
  | y :: l' => if key_lt (key y) (key x) then y :: insert_by key x l' else x :: l
  end.

Fixpoint sorted {A : Type} (key : A -> sort_key) (l : list A) : list A :=
  match l with
  | [] => []
  | x :: l' => insert_by key x (sorted key l')
  end.

(** ** The worksheet *)

Inductive cell_value : Type :=
| Blank                                   (* no value *)
| Text (s : string)
| Number (v : value)
| SumFormula (column first_row last_row : Z).
    (* the text "=SUM(<L><first_row>:<L><last_row>)", <L> the letter of [column] *)

Record cell : Type := {
  cell_val : cell_value;
  cell_fill : option string
}.

Definition empty_cell : cell := {| cell_val := Blank; cell_fill := None |}.

Record worksheet : Type := {
  cells : Z -> Z -> cell;
  merged : list (Z * Z * Z * Z)
}.

Definition new_worksheet : worksheet :=
  {| cells := fun _ _ => empty_cell; merged := [] |}.

Definition update_cell (f : cell -> cell) (row col : Z) (ws : worksheet) : worksheet :=
  {| cells := fun r c => if (r =? row) && (c =? col) then f (cells ws r c) else cells ws r c;
     merged := merged ws |}.

(** [ws.cell(row=row, column=col, value=v)] *)
Definition set_value (row col : Z) (v : cell_value) : worksheet -> worksheet :=
  update_cell (fun c => {| cell_val := v; cell_fill := cell_fill c |}) row col.

(** [ws.cell(row=row, column=col).fill = PatternFill(start_color=color, ...)] *)
Definition set_fill (row col : Z) (color : string) : worksheet -> worksheet :=
  update_cell (fun c => {| cell_val := cell_val c; cell_fill := Some color |}) row col.

(** [ws.merge_cells(...)]: the range is recorded and every cell of it but
    the top-left one is emptied. *)
Definition merge_cells (start_row start_column end_row end_column : Z)
    (ws : worksheet) : worksheet :=
  {| cells := fun r c =>
       if (start_row <=? r) && (r <=? end_row) && (start_column <=? c) && (c <=? end_column)
          && negb ((r =? start_row) && (c =? start_column))
       then empty_cell else cells ws r c;
     merged := (merged ws ++ [(start_row, start_column, end_row, end_column)])%list |}.

(** [ws.delete_rows(idx)]: row [idx] goes and the rows below move up. *)
Definition delete_rows (idx : Z) (ws : worksheet) : worksheet :=
  {| cells := fun r c => if r <? idx then cells ws r c else cells ws (r + 1) c;
     merged := merged ws |}.

(** [enumerate(l, start)] *)
Fixpoint enumerate {A : Type} (start : Z) (l : list A) : list (Z * A) :=
  match l with
  | [] => []
  | x :: l' => (start, x) :: enumerate (start + 1) l'
  end.

(** ** [write_to_excel] *)

Definition dataset : Type := dict string (dict string record).

(** [len(data_fields)] *)
Definition n_fields : Z := Z.of_nat (length data_fields).

(** # Build headers *)
Definition build_headers (all_data : dataset) : list string :=
  fold_left
    (fun headers f =>
       if mem f all_data
       then fold_left (fun headers field => (headers ++ [fst field])%list) data_fields headers
       else headers)
    file_order ["Route number"].

Definition write_headers (headers : list string) (ws : worksheet) : worksheet :=
  fold_left
    (fun ws '(col_idx, header) => set_fill 2 col_idx beige_fill (set_value 2 col_idx (Text header) ws))
    (enumerate 1 headers) ws.

(** The body of the second [for f in file_order]: the label of a file
    present is written at [start_col], over a merged range of
    [len(data_fields)] columns, and [start_col] moves past it. *)
Definition label_step (all_data : dataset) (st : worksheet * Z) (f : string)
    : worksheet * Z :=
  let '(ws, start_col) := st in
  if mem f all_data then
    let color := default "FFFFFF" (get f color_map) in
    let ws := merge_cells 1 start_col 1 (start_col + n_fields - 1) ws in
    let ws := set_value 1 start_col (Text (PyStr.first_word f)) ws in
    let ws := set_fill 1 start_col color ws in
    (ws, start_col + n_fields)
  else (ws, start_col).

(** The loop that writes the day-type labels of row 1. *)
Definition write_labels (all_data : dataset) (ws : worksheet) : worksheet :=
  fst (fold_left (label_step all_data) file_order (ws, 2)).

(** [route_data.get(field_name, "")] with [route_data = data.get(route, {})] *)
Definition lookup_value (d : dict string record) (route field_name : string) : cell_value :=
  match get route d with
  | Some route_data =>
      match get field_name route_data with
      | Some v => Number v
      | None => Text ""
      end
  | None => Text ""
  end.

(** The body of [for field_idx, (field_name, _) in enumerate(data_fields)]. *)
Definition block_step (d : dict string record) (route : string) (row_idx col_offset : Z)
    (ws : worksheet) (x : Z * (string * option Re.pattern)) : worksheet :=
  let '(field_idx, field) := x in
  let field_name := fst field in
  let ws := set_value row_idx (col_offset + field_idx) (lookup_value d route field_name) ws in
  if String.eqb field_name "Revenue Hours"
  then set_fill row_idx (col_offset + field_idx) revenue_fill ws
  else ws.

(** The loop over [enumerate(data_fields)] of a body row. *)
Definition write_block (d : dict string record) (route : string) (row_idx col_offset : Z)
    (ws : worksheet) : worksheet :=
  fold_left (block_step d route row_idx col_offset) (enumerate 0 data_fields) ws.

(** The body of [for file_idx, f in enumerate(file_order)]. *)
Definition file_step (all_data : dataset) (route : string) (row_idx : Z)
    (ws : worksheet) (x : Z * string) : worksheet :=
  let '(file_idx, f) := x in
  match get f all_data with
  | None => ws                                      (* continue *)
  | Some d => write_block d route row_idx (2 + file_idx * n_fields) ws
  end.

(** The body of [for route in all_routes]. *)
Definition write_route (all_data : dataset) (ws : worksheet) (row_idx : Z) (route : string)
    : worksheet :=
  let ws := set_value row_idx 1 (Text route) ws in
  fold_left (file_step all_data route row_idx) (enumerate 0 file_order) ws.

(** [for route in all_routes]: the row is written and [row_idx] moves on. *)
Definition route_step (all_data : dataset) (st : worksheet * Z) (route : string)
    : worksheet * Z :=
  let '(ws, row_idx) := st in
  (write_route all_data ws row_idx route, row_idx + 1).

Definition write_routes (all_data : dataset) (all_routes : list string) (ws : worksheet)
    : worksheet * Z :=
  fold_left (route_step all_data) all_routes (ws, 3).

(** [val and "TAXI" in str(val).upper()], for the value of a cell of the
    first column; the text of a number has no letter of "TAXI". *)
Definition is_taxi (v : cell_value) : bool :=
  match v with
  | Text s => negb (String.eqb s "") && PyStr.contains "TAXI" (PyStr.upper s)
  | _ => false
  end.

(** === Remove TAXI row(s) === *)
Definition remove_taxi (st : worksheet * Z) : worksheet * Z :=
  let '(ws, row_idx) := st in
  match find (fun row => is_taxi (cell_val (cells ws row 1))) (seqZ 3 (row_idx - 3)) with
  | Some row => (delete_rows row ws, row_idx - 1)   (* remove first TAXI found *)
  | None => (ws, row_idx)
  end.

(** # Totals row with formulas *)
Definition write_totals (all_data : dataset) (total_row_idx : Z) (ws : worksheet) : worksheet :=
  let ws := set_value total_row_idx 1 (Text "Total") ws in
  fold_left
    (fun ws '(file_idx, f) =>
       if mem f all_data then
         let col_offset := 2 + file_idx * n_fields in
         fold_left
           (fun ws '(field_idx, _) =>
              set_value total_row_idx (col_offset + field_idx)
                (SumFormula (col_offset + field_idx) 3 (total_row_idx - 1)) ws)
           (enumerate 0 data_fields) ws
       else ws)
    (enumerate 0 file_order) ws.

Definition safe_booking_code (booking_code : string) : string :=
  if String.eqb (PyStr.lower booking_code) "unknown" then "Unknown" else booking_code.

(** [{r for d in all_data.values() for r in d.keys()}] *)
Definition route_universe (all_data : dataset) : gset string :=
  ⋃ (map (fun d => list_to_set (keys d)) (values all_data)).

(** [order] is an order in which the set [s] can be iterated. *)
Definition iterates (order : list string) (s : gset string) : Prop :=
  order ≡ₚ elements s.

(** The routes of the body rows: [all_routes]. *)
Definition all_routes (route_set_order : list string) : list string :=
  sorted route_sort_key route_set_order.

(** The worksheet up to the totals row, and the index of that row. *)
Definition write_body (route_set_order : list string) (all_data : dataset) : worksheet * Z :=
  let ws := new_worksheet in
  let ws := write_headers (build_headers all_data) ws in
  let ws := merge_cells 1 1 2 1 ws in
  let ws := set_fill 1 1 beige_fill (set_value 1 1 (Text "Route number") ws) in
  let ws := write_labels all_data ws in
  remove_taxi (write_routes all_data (all_routes route_set_order) ws).

(** [write_to_excel]; [route_set_order] is the order in which the set of
    route identifiers is iterated.  The result is the worksheet that is
    saved and the suggested file name. *)
Definition write_to_excel (route_set_order : list string) (all_data : dataset)
    (booking_code : string) : worksheet * string :=
  let '(ws, total_row_idx) := write_body route_set_order all_data in
  (write_totals all_data total_row_idx ws,
   safe_booking_code booking_code ++ " - Vehicle Schedule Overview.xlsx").

(** The index of the totals row. *)
Definition total_row (route_set_order : list string) (all_data : dataset) : Z :=
  snd (write_body route_set_order all_data).

(** ** The upload loop *)

(** One iteration of [for uploaded_file in uploaded_files], for a file
    given by its name and its lines. *)
Definition ingest (st : dataset * string) (file : string * list string)
    : result (dataset * string) :=
  let '(all_data, booking_code) := st in
  let '(name, lines) := file in
  '(bc, d) ← extract_data lines;
  let all_data := set name d all_data in
  if negb (String.eqb (PyStr.lower bc) "unknown") && String.eqb booking_code "unknown"
  then Ok (all_data, bc)
  else Ok (all_data, booking_code).

Definition process_uploads (uploaded_files : list (string * list string))
    : result (dataset * string) :=
  for_each ingest uploaded_files ([], "unknown").

(* ===================================================================== *)
(** * Notions used to state the properties *)
(* ===================================================================== *)

(** A line of a report, as [readlines] returns it. *)
Definition nl : string := String (ascii_of_nat 10) EmptyString.
Definition line (s : string) : string := s ++ nl.

(** [n] copies of a character. *)
Fixpoint replicate_char (n : nat) (c : ascii) : string :=
  match n with
  | O => EmptyString
  | S n' => String c (replicate_char n' c)
  end.

(** The first character of [s], if any, satisfies [p]. *)
Definition starts_with (p : ascii -> bool) (s : string) : bool :=
  match s with
  | String c _ => p c
  | EmptyString => false
  end.

(** The float written [n / 10^k] in decimal, as [float] reads a literal. *)
Definition decimal (n : Z) (k : nat) : PyFloat.float := PyFloat.nearest n (10 ^ Z.of_nat k).

(** "Revenue Hours equals round(In Service Duration + Layover Duration, 2)"
    on the values stored in the record [r]. *)
Definition revenue_invariant (r : record) : Prop :=
  exists in_service layover,
    to_float (default (VInt 0) (get "In Service Duration" r)) = Ok in_service /\
    to_float (default (VInt 0) (get "Layover Duration" r)) = Ok layover /\
    get "Revenue Hours" r = Some (VFloat (PyFloat.round2 (PyFloat.add in_service layover))).

(** [r] holds, field by field, the halves of the values of [r0], rounded
    to two decimals. *)
Definition halved (r0 r : record) : Prop :=
  keys r = keys r0 /\
  forall field v0, get field r0 = Some v0 ->
    exists q, truediv v0 2 = Ok q /\ get field r = Some (VFloat (PyFloat.round2 q)).

(** [extract_data] without the rule for route 65: the same lines, the
    same scan, Revenue Hours computed, and no halving. *)
Definition extract_data_without_rule (lines : list string)
    : result (string * dict string record) :=
  let booking_code := extract_booking_code lines in
  st ← for_each scan_line lines {| data := []; current_route := None |};
  d ← update_all (fun _ r => set_revenue_hours r) (data st);
  Ok (booking_code, d).

(** A string made of a number, an h and a number, and nothing else. *)
Definition time_shape (s : string) : Prop :=
  exists h m, PyStr.is_number h = true /\ PyStr.is_number m = true /\ s = h ++ "h" ++ m.

(** A string that begins with a number, an h and a number. *)
Definition time_prefix (s : string) : Prop :=
  exists h m rest,
    PyStr.is_number h = true /\ PyStr.is_number m = true /\ s = h ++ "h" ++ m ++ rest.


(** The list without its first element satisfying [p]. *)
Fixpoint remove_first {A : Type} (p : A -> bool) (l : list A) : list A :=
  match l with
  | [] => []
  | x :: l' => if p x then l' else x :: remove_first p l'
  end.

(** The identifier of a route contains TAXI, in any case. *)
Definition taxi_route (route : string) : bool := PyStr.contains "TAXI" (PyStr.upper route).

(** The routes of the body rows once the TAXI row is gone. *)
Definition kept_routes (route_set_order : list string) : list string :=
  remove_first taxi_route (all_routes route_set_order).

(** The first booking identifier that is not "unknown". *)
Fixpoint first_known (codes : list string) : string :=
  match codes with
  | [] => "unknown"
  | c :: codes' => if String.eqb c "unknown" then first_known codes' else c
  end.

(** The column of field number [j] in the block written for the file at
    position [k] of [file_order]. *)
Definition body_column (k j : nat) : Z := 2 + Z.of_nat k * n_fields + Z.of_nat j.

(** The names of the nine fields, in column order. *)
Definition field_names : list string := map fst data_fields.



(** A report in which route 65 has three minutes in service and three
    minutes of layover. *)
Definition three_minutes_lines : list string :=
  [ line "Route 65 Senior Shopper";
    line "In-service duration: 0h03";
    line "Layover duration: 0h03" ].

(** The report of the spec's end-to-end example, and the record expected
    for its route. *)
Definition end_to_end_lines : list string :=
  [ line "Booking: 4821";
    line "Route 65 Senior Shopper";
    line "Number of blocks: 4";
    line "In-service duration: 2h00";
    line "Layover duration: 1h00" ].

Definition end_to_end_record : record :=
  [ ("Blocks", VFloat (decimal 2 0));
    ("Trips", VFloat PyFloat.zero);
    ("Off Service Duration", VFloat PyFloat.zero);
    ("In Service Duration", VFloat (decimal 1 0));
    ("Loading Duration", VFloat PyFloat.zero);
    ("Layover Duration", VFloat (decimal 5 1));
    ("Platform Hours", VFloat PyFloat.zero);
    ("In-service Distance (KM)", VFloat PyFloat.zero);
    ("Revenue Hours", VFloat (decimal 15 1)) ].

(** A report whose in-service duration has 310 digits of hours. *)
Definition long_duration_lines : list string :=
  [ line "Route 1 A";
    line ("In-service duration: 1" ++ replicate_char 309 "0" ++ "h00") ].

(** The booking identifiers of the uploaded files, in input order. *)
Definition booking_codes (uploaded_files : list (string * list string)) : list string :=
  map (fun file => extract_booking_code (snd file)) uploaded_files.

(** No match of "Booking:\s*(\d+)" in the line. *)
Definition no_booking (l : string) : Prop := Re.search booking_re l = None.

(** Two uploads: the first has no booking line, the second has one. *)
Definition two_uploads : list (string * list string) :=
  [ ("WDY Stats.prt", [line "Route 1 A"; line "Number of blocks: 2"]);
    ("SAT Stats.prt", [line "Booking: 77"; line "Route 1 A"]) ].

(** Row [row] of the worksheet is the body row of [route]: its first cell
    holds the identifier, and the cell of every field in the block of
    every file present holds what [lookup_value] found. *)
Definition row_of (all_data : dataset) (ws : worksheet) (row : Z) (route : string) : Prop :=
  cell_val (cells ws row 1) = Text route /\
  forall (k : nat) f d (j : nat) field,
    file_order !! k = Some f -> get f all_data = Some d ->
    field_names !! j = Some field ->
    cell_val (cells ws row (body_column k j)) = lookup_value d route field.

(** A record with three blocks. *)
Definition three_blocks : record := set "Blocks" (VInt 3) new_record.

(** A Saturday file alone. *)
Definition saturday_only : dataset := [("SAT Stats.prt", [("1 A", three_blocks)])].

(** A weekday file alone. *)
Definition weekday_only : dataset := [("WDY Stats.prt", [("1 A", three_blocks)])].

(** A weekday file and a file with another name. *)
Definition weekday_and_other : dataset :=
  [("WDY Stats.prt", [("1 A", three_blocks)]); ("Other.prt", [("2 B", three_blocks)])].

(** Route 2 is in the weekday file only. *)
Definition weekday_and_saturday : dataset :=
  [("WDY Stats.prt", [("1 A", three_blocks); ("2 B", three_blocks)]);
   ("SAT Stats.prt", [("1 A", three_blocks)])].

(** The values of the first [n_cols] cells of row [row]. *)
Definition row_values (ws : worksheet) (row n_cols : Z) : list cell_value :=
  map (fun c => cell_val (cells ws row c)) (seqZ 1 n_cols).

(* ===================================================================== *)
(** * Further notions *)
(* ===================================================================== *)

(** The line is not a route header. *)
Definition no_route_header (l : string) : Prop := Re.match_ route_re l = None.

(** A report with a line before the first route header. *)
Definition preamble_lines : list string :=
  [ line "Number of blocks: 9"; line "Booking: 12" ].

Definition one_route_lines : list string :=
  [ line "Route 7 Elm St"; line "Number of blocks: 4"; line "In-service distance: 12.5" ].

(** A report in which route 7 has two blocks. *)
Definition two_blocks_lines : list string :=
  [ line "Route 7 Elm St"; line "Number of blocks: 4"; line "Number of in-service trips: 8";
    line "Route 3 Oak"; line "Number of blocks: 1" ].

(** The record has the nine fields, in the order of [data_fields]. *)
Definition complete (r : record) : Prop := keys r = field_names.

(** The state of the line loop is sound: the route being scanned has a
    record, and every record is complete. *)
Definition scan_sound (st : scan_state) : Prop :=
  match current_route st with
  | Some route => exists r, get route (data st) = Some r
  | None => True
  end /\
  Forall (fun kv => complete (snd kv)) (data st).

(** The field loop on the record of the current route alone: what
    [scan_field] does to that record. *)
Definition record_field (l : string) (r : record) (field : string * option Re.pattern)
    : result record :=
  let '(field_name, regex) := field in
  match regex with
  | None => Ok r
  | Some re =>
      match Re.search re l with
      | None => Ok r
      | Some gs =>
          let val := PyStr.strip (Re.group 1 gs) in
          v ← (if is_duration_field field_name
               then x ← parse_time_string val; Ok (VFloat x)
               else Ok (parse_number val));
          Ok (set field_name v r)
      end
  end.

(** The lines of a route block, below its header, applied to a record. *)
Definition record_line (r : record) (l : string) : result record :=
  for_each (record_field l) data_fields r.

(** The route identifier of a header line, from the groups of its match. *)
Definition route_of_groups (gs : list string) : string :=
  Re.group 1 gs ++ " " ++ PyStr.strip (Re.group 2 gs).

(** The decimal point. *)
Definition is_point (c : ascii) : bool := PyStr.code c =? 46.

(** The data extracted from the two uploads of [two_uploads]. *)
Definition two_uploads_data : dataset :=
  [("WDY Stats.prt", [("1 A", set "Blocks" (VInt 2) new_record)]);
   ("SAT Stats.prt", [("1 A", new_record)])].

(** A booking identifier is "unknown" or a string of digits. *)
Definition booking_code_shape (c : string) : Prop :=
  c = "unknown" \/ PyStr.is_number c = true.

(** The records of every file are complete. *)
Definition dataset_complete (all_data : dataset) : Prop :=
  Forall (fun kv => Forall (fun kr => complete (snd kr)) (snd kv)) all_data.

(** A cell with a value and a fill. *)
Definition mk_cell (v : cell_value) (color : option string) : cell :=
  {| cell_val := v; cell_fill := color |}.

(** The last column a block can occupy. *)
Definition last_column : Z := 1 + Z.of_nat (length file_order) * n_fields.

(** The fill of the body cell of a field: Revenue Hours is highlighted. *)
Definition body_fill (field : string) : option string :=
  if String.eqb field "Revenue Hours" then Some revenue_fill else None.

(** Row [row] of the worksheet is exactly the body row of [route]: the
    identifier, the value and fill of every field in the block of every
    file present, and nothing anywhere else. *)
Definition full_row_of (all_data : dataset) (ws : worksheet) (row : Z) (route : string) : Prop :=
  cells ws row 1 = mk_cell (Text route) None /\
  (forall (k : nat) f d (j : nat) field,
     file_order !! k = Some f -> get f all_data = Some d ->
     field_names !! j = Some field ->
     cells ws row (body_column k j) = mk_cell (lookup_value d route field) (body_fill field)) /\
  (forall (k : nat) f (j : nat),
     file_order !! k = Some f -> get f all_data = None -> Z.of_nat j < n_fields ->
     cells ws row (body_column k j) = empty_cell) /\
  (forall c, c < 1 \/ last_column < c -> cells ws row c = empty_cell).

(** The worksheet once the two header rows are written. *)
Definition header_sheet (all_data : dataset) : worksheet :=
  write_labels all_data
    (set_fill 1 1 beige_fill
       (set_value 1 1 (Text "Route number")
          (merge_cells 1 1 2 1 (write_headers (build_headers all_data) new_worksheet)))).

(** The files of [file_order] that are in the dataset, in that order. *)
Definition present_files (all_data : dataset) : list string :=
  List.filter (fun f => mem f all_data) file_order.

(** The first column of the header block of the [p]-th file present. *)
Definition header_column (p : nat) : Z := 2 + Z.of_nat p * n_fields.

(** Every cell from row [row] down is empty. *)
Definition empty_from (ws : worksheet) (row : Z) : Prop :=
  forall r c, row <= r -> cells ws r c = empty_cell.

(** The body of [for col_idx, header in enumerate(headers, 1)]. *)
Definition header_step (ws : worksheet) (x : Z * string) : worksheet :=
  let '(col_idx, header) := x in
  set_fill 2 col_idx beige_fill (set_value 2 col_idx (Text header) ws).

(** The bodies of the two loops of the totals row. *)
Definition totals_field_step (total_row_idx col_offset : Z) (ws : worksheet)
    (x : Z * (string * option Re.pattern)) : worksheet :=
  let '(field_idx, _) := x in
  set_value total_row_idx (col_offset + field_idx)
    (SumFormula (col_offset + field_idx) 3 (total_row_idx - 1)) ws.

Definition totals_file_step (all_data : dataset) (total_row_idx : Z) (ws : worksheet)
    (x : Z * string) : worksheet :=
  let '(file_idx, f) := x in
  if mem f all_data then
    fold_left (totals_field_step total_row_idx (2 + file_idx * n_fields))
      (enumerate 0 data_fields) ws
  else ws.

(** The merged range of the header block of the [p]-th file present. *)
Definition header_range (p : nat) : Z * Z * Z * Z :=
  (1, header_column p, 1, header_column p + n_fields - 1).

(** The colour of the label of a file. *)
Definition label_color (f : string) : string := default "FFFFFF" (get f color_map).

(** Row [row] of the worksheet is exactly the totals row. *)
Definition totals_row_of (all_data : dataset) (ws : worksheet) (row : Z) : Prop :=
  cells ws row 1 = mk_cell (Text "Total") None /\
  (forall (k : nat) f (j : nat),
     file_order !! k = Some f -> mem f all_data = true -> Z.of_nat j < n_fields ->
     cells ws row (body_column k j) = mk_cell (SumFormula (body_column k j) 3 (row - 1)) None) /\
  (forall (k : nat) f (j : nat),
     file_order !! k = Some f -> mem f all_data = false -> Z.of_nat j < n_fields ->
     cells ws row (body_column k j) = empty_cell) /\
  (forall c, c < 1 \/ last_column < c -> cells ws row c = empty_cell).

(** Equality of sort keys. *)
Definition key_eqb (a b : sort_key) : bool :=
  match a, b with
  | KInt x, KInt y => x =? y
  | KInf, KInf => true
  | _, _ => false
  end.

(** The routes of a list whose sort key is [k], in the order of the list. *)
Definition with_key (k : sort_key) (routes : list string) : list string :=
  List.filter (fun r => key_eqb (route_sort_key r) k) routes.

(** The number of files present among the first [k] of [file_order]. *)
Definition present_before (all_data : dataset) (k : nat) : nat :=
  length (List.filter (fun f => mem f all_data) (take k file_order)).

(** The line is the header of [route]. *)
Definition header_of (route : string) (l : string) : Prop :=
  exists gs, Re.match_ route_re l = Some gs /\ route = route_of_groups gs.

(** No field pattern is found in the line. *)
Definition no_field (l : string) : Prop :=
  forall field_name re, In (field_name, Some re) data_fields -> Re.search re l = None.

(** A report with a line that matches nothing. *)
Definition remark_line : string := line "  (end of block)".

(* ===================================================================== *)
(** * Strings and patterns: basic facts *)
(* ===================================================================== *)

Section StringFacts.
Import PyStr.

Lemma append_assoc (a b c : string) : (a ++ b) ++ c = a ++ (b ++ c).
Proof. induction a as [|x a IH]; simpl; [reflexivity | now rewrite IH]. Qed.

Lemma append_empty_r (a : string) : a ++ "" = a.
Proof. induction a as [|x a IH]; simpl; [reflexivity | now rewrite IH]. Qed.

Lemma all_chars_app p (a b : string) :
  all_chars p (a ++ b) = all_chars p a && all_chars p b.
Proof.
  induction a as [|x a IH]; simpl; [reflexivity|].
  rewrite IH. now rewrite andb_assoc.
Qed.

Lemma is_number_spec (s : string) :
  is_number s = true <-> s <> "" /\ all_chars is_digit s = true.
Proof.
  unfold is_number. rewrite andb_true_iff, negb_true_iff, String.eqb_neq. tauto.
Qed.

Lemma is_number_cons (s : string) :
  is_number s = true ->
  exists c s', s = String c s' /\ is_digit c = true /\ all_chars is_digit s' = true.
Proof.
  intros [Hne Hall]%is_number_spec. destruct s as [|c s']; [congruence|].
  simpl in Hall. apply andb_true_iff in Hall as [? ?]. eauto.
Qed.

(** A string splits into its longest prefix in a class and the rest. *)
Lemma longest_prefix p (s : string) :
  exists t s', s = t ++ s' /\ all_chars p t = true /\ starts_with p s' = false.
Proof.
  induction s as [|c s IH].
  - exists "", "". auto.
  - destruct (p c) eqn:Hc.
    + destruct IH as (t & s' & -> & Ht & Hs').
      exists (String c t), s'. simpl. rewrite Hc, Ht. auto.
    + exists "", (String c s). simpl. auto.
Qed.

Lemma lower_digits (s : string) : all_chars is_digit s = true -> lower s = s.
Proof.
  unfold lower. induction s as [|c s IH]; simpl; [reflexivity|].
  intros [Hc Hs]%andb_true_iff. rewrite (IH Hs). f_equal.
  unfold lower_char. unfold is_digit, in_range in *.
  destruct (65 <=? code c) eqn:E; simpl; [|reflexivity].
  apply andb_true_iff in Hc as [_ H]. apply Z.leb_le in E, H. lia.
Qed.

End StringFacts.

Section PatternFacts.
Import PyStr Re.

Lemma strip_prefix_sound (l s s' : string) : strip_prefix l s = Some s' -> s = l ++ s'.
Proof.
  revert s. induction l as [|a l IH]; simpl; intros s H.
  - congruence.
  - destruct s as [|b s]; [discriminate|].
    destruct (Ascii.eqb_spec a b) as [->|]; [|discriminate].
    apply IH in H. now subst.
Qed.

Lemma strip_prefix_app (l s : string) : strip_prefix l (l ++ s) = Some s.
Proof.
  induction l as [|a l IH]; simpl; [reflexivity|]. now rewrite Ascii.eqb_refl.
Qed.

(** What a repetition consumed is in the class, and the rest of the
    pattern matched what follows. *)
Lemma rep_sound {A} cls (k : string -> option A) (s t : string) (a : A) :
  rep cls k s = Some (t, a) ->
  exists s', s = t ++ s' /\ all_chars cls t = true /\ k s' = Some a.
Proof.
  revert t. induction s as [|c s IH]; simpl; intros t H.
  - destruct (k "") eqn:Hk; [|discriminate]. injection H as <- <-. exists "". auto.
  - assert (Hstop : match k (String c s) with Some a0 => Some ("", a0) | None => None end
                    = Some (t, a) ->
                    exists s', String c s = t ++ s' /\ all_chars cls t = true /\ k s' = Some a).
    { destruct (k (String c s)) eqn:Hk; [|discriminate].
      intros [= <- <-]. exists (String c s). auto. }
    destruct (cls c) eqn:Hc; [|auto].
    destruct (rep cls k s) as [[t' a']|] eqn:Hr; [|auto].
    injection H as <- <-. destruct (IH _ eq_refl) as (s' & -> & Ht & Hk).
    exists s'. simpl. rewrite Hc, Ht. auto.
Qed.

(** A repetition takes the longest run of the class when the rest of the
    pattern matches after it. *)
Lemma rep_longest {A} cls (k : string -> option A) (t s' : string) (a : A) :
  all_chars cls t = true -> starts_with cls s' = false -> k s' = Some a ->
  rep cls k (t ++ s') = Some (t, a).
Proof.
  intros Ht Hs' Hk. induction t as [|c t IH]; simpl in *.
  - destruct s' as [|c s']; simpl in *; rewrite Hk; [reflexivity|].
    now rewrite Hs'.
  - apply andb_true_iff in Ht as [Hc Ht]. rewrite Hc, (IH Ht). reflexivity.
Qed.

Lemma match_here_lit_inv l p s gs :
  match_here (Lit l :: p) s = Some gs ->
  exists s', s = l ++ s' /\ match_here p s' = Some gs.
Proof.
  simpl. destruct (strip_prefix l s) as [s'|] eqn:H; [|discriminate].
  apply strip_prefix_sound in H. eauto.
Qed.

Lemma match_here_rep_inv cls one cap p s gs :
  match_here (Rep cls one cap :: p) s = Some gs ->
  exists t s' gs',
    s = t ++ s' /\ all_chars cls t = true /\ match_here p s' = Some gs' /\
    (one = true -> t <> "") /\ gs = (if cap then t :: gs' else gs').
Proof.
  simpl. destruct (rep cls (match_here p) s) as [[t gs']|] eqn:H; [|discriminate].
  apply rep_sound in H as (s' & -> & Ht & Hk).
  destruct (one && String.eqb t "") eqn:E; [discriminate|].
  intros [= <-]. exists t, s', gs'. repeat split; auto.
  intros -> ->. simpl in E. discriminate.
Qed.

Lemma match_here_lit_app l p s : match_here (Lit l :: p) (l ++ s) = match_here p s.
Proof. simpl. now rewrite strip_prefix_app. Qed.

Lemma match_here_rep_app cls one cap p (t s' : string) gs' :
  all_chars cls t = true -> starts_with cls s' = false ->
  match_here p s' = Some gs' -> (one = true -> t <> "") ->
  match_here (Rep cls one cap :: p) (t ++ s') = Some (if cap then t :: gs' else gs').
Proof.
  intros Ht Hs' Hk Hne. simpl. rewrite (rep_longest _ _ _ _ _ Ht Hs' Hk).
  destruct one; simpl; [|reflexivity].
  destruct (String.eqb_spec t ""); [now destruct Hne|reflexivity].
Qed.

(** The groups of "(\d+)h(\d+)": the digits before the h and those after. *)
Lemma time_re_match (h m rest : string) :
  is_number h = true -> is_number m = true -> starts_with is_digit rest = false ->
  match_ time_re (h ++ "h" ++ m ++ rest) = Some [h; m].
Proof.
  intros [Hh1 Hh2]%is_number_spec [Hm1 Hm2]%is_number_spec Hrest.
  unfold match_, time_re, group_plus.
  apply (match_here_rep_app is_digit true true); auto.
  change ("h" ++ m ++ rest) with (String "h" (m ++ rest)).
  change (String "h" (m ++ rest)) with ("h" ++ (m ++ rest)).
  rewrite match_here_lit_app.
  apply (match_here_rep_app is_digit true true _ m rest []); auto.
Qed.

Lemma time_re_match_inv (s : string) gs :
  match_ time_re s = Some gs -> time_prefix s.
Proof.
  unfold match_, time_re, group_plus. intros H.
  apply match_here_rep_inv in H as (h & s1 & gs1 & -> & Hh & H & Hne1 & _).
  apply match_here_lit_inv in H as (s2 & -> & H).
  apply match_here_rep_inv in H as (m & rest & gs2 & -> & Hm & _ & Hne2 & _).
  exists h, m, rest. rewrite !is_number_spec. auto.
Qed.

(** A string with a time prefix is matched. *)
Lemma time_prefix_match (s : string) :
  time_prefix s -> exists gs, match_ time_re s = Some gs.
Proof.
  intros (h & m & rest & Hh & Hm & ->).
  destruct (longest_prefix is_digit rest) as (t & rest' & -> & Ht & Hrest').
  rewrite <- (append_assoc m t rest').
  exists [h; m ++ t]. apply time_re_match; auto.
  apply is_number_spec in Hm as [Hne Hall]. apply is_number_spec.
  rewrite all_chars_app, Hall, Ht. split; [|reflexivity].
  destruct m; [congruence|discriminate].
Qed.

End PatternFacts.

(* ===================================================================== *)
(** * Durations *)
(* ===================================================================== *)

Section Durations.
Import PyStr.

Lemma int_of_group_within (n : nat) (gs : list string) :
  Z.of_nat (String.length (Re.group n gs)) <= max_str_digits ->
  int_of_group n gs = Ok (digits_value 0 (Re.group n gs)).
Proof.
  intros H. unfold int_of_group, within_int_limit.
  destruct (Z.leb_spec (Z.of_nat (String.length (Re.group n gs))) max_str_digits);
    [reflexivity | lia].
Qed.

Lemma int_of_group_beyond (n : nat) (gs : list string) :
  max_str_digits < Z.of_nat (String.length (Re.group n gs)) ->
  int_of_group n gs = Raise ValueError.
Proof.
  intros H. unfold int_of_group, within_int_limit.
  destruct (Z.leb_spec (Z.of_nat (String.length (Re.group n gs))) max_str_digits);
    [lia | reflexivity].
Qed.

(** C4, as amended.  A captured string that begins with a number, an h and
    a number is converted to hours + minutes / 60 rounded to two decimals,
    whatever follows the minutes, as long as the hours and the minutes have
    at most 4300 digits each and the hours and minutes / 60 fit in a float;
    with more than 4300 digits in the hours or in the minutes the
    conversion raises ValueError; a captured string that does not begin
    with a number, an h and a number yields 0.0. *)
Theorem parse_time_string_prefix :
  (forall (h m rest : string) (hf q : PyFloat.float),
      is_number h = true -> is_number m = true -> starts_with is_digit rest = false ->
      Z.of_nat (String.length h) <= max_str_digits ->
      Z.of_nat (String.length m) <= max_str_digits ->
      PyFloat.of_int (digits_value 0 h) = Ok hf ->
      PyFloat.int_truediv (digits_value 0 m) 60 = Ok q ->
      parse_time_string (h ++ "h" ++ m ++ rest) = Ok (PyFloat.round2 (PyFloat.add hf q)))
  /\ (forall (h m rest : string),
      is_number h = true -> is_number m = true -> starts_with is_digit rest = false ->
      max_str_digits < Z.of_nat (String.length h) \/
      max_str_digits < Z.of_nat (String.length m) ->
      parse_time_string (h ++ "h" ++ m ++ rest) = Raise ValueError)
  /\ (forall s : string, ~ time_prefix s -> parse_time_string s = Ok PyFloat.zero).
Proof.
  split; [|split].
  - intros h m rest hf q Hh Hm Hrest Hlh Hlm Hhf Hq. unfold parse_time_string.
    rewrite (time_re_match h m rest Hh Hm Hrest).
    rewrite !int_of_group_within by exact Hlh || exact Hlm.
    unfold Re.group. simpl nth. simpl. rewrite Hq. simpl. rewrite Hhf. reflexivity.
  - intros h m rest Hh Hm Hrest Hl. unfold parse_time_string.
    rewrite (time_re_match h m rest Hh Hm Hrest).
    destruct (Z.le_gt_cases (Z.of_nat (String.length h)) max_str_digits) as [Hlh|Hlh].
    + destruct Hl as [Hl|Hl]; [lia|].
      rewrite (int_of_group_within 1) by exact Hlh.
      rewrite (int_of_group_beyond 2) by exact Hl. reflexivity.
    + rewrite (int_of_group_beyond 1) by exact Hlh. reflexivity.
  - intros s Hs. unfold parse_time_string.
    destruct (Re.match_ time_re s) as [gs|] eqn:E; [|reflexivity].
    destruct Hs. eapply time_re_match_inv, E.
Qed.

(** "3h45" yields 3.75. *)
Lemma parse_time_string_3h45 : parse_time_string "3h45" = Ok (decimal 375 2).
Proof.
  apply (proj1 parse_time_string_prefix "3" "45" "" (PyFloat.nearest 3 1) (PyFloat.nearest 45 60));
    vm_compute; (reflexivity || discriminate).
Defined.

(** The limit of [int()] at work: 4300 zeros before "3h45" make 4301 digits
    of hours, which are refused; 4299 zeros make 4300 digits, which are
    read as 3. *)
Lemma parse_time_string_at_limit :
  parse_time_string (replicate_char 4300 "0" ++ "3h45") = Raise ValueError /\
  parse_time_string ("3h" ++ replicate_char 4300 "0" ++ "45") = Raise ValueError /\
  parse_time_string (replicate_char 4299 "0" ++ "3h45") = Ok (decimal 375 2).
Proof. repeat split; vm_compute; reflexivity. Qed.

(** C4 as stated fails: "3h45m" is not a number, an h and a number, and it
    does not yield 0.0 but 3.75. *)
Lemma parse_time_string_trailing_text :
  ~ time_shape "3h45m" /\
  parse_time_string "3h45m" = Ok (decimal 375 2) /\
  parse_time_string "3h45m" <> Ok PyFloat.zero.
Proof.
  split; [|split; [vm_compute; reflexivity | vm_compute; discriminate]].
  intros (h & m & Hh & Hm & E).
  destruct h as [|c1 h]; [discriminate|]. simpl in E. injection E as <- E.
  destruct h as [|c2 h]; simpl in E.
  - injection E as <-. vm_compute in Hm. discriminate.
  - injection E as <- _. vm_compute in Hh. discriminate.
Qed.

End Durations.

(* ===================================================================== *)
(** * Route order *)
(* ===================================================================== *)

Section RouteOrder.
Import PyStr.






Context {A : Type} (key : A -> sort_key).

Lemma insert_by_perm x l : insert_by key x l ≡ₚ x :: l.
Proof.
  induction l as [|y l IH]; simpl; [done|].
  destruct (key_lt (key y) (key x)); [|done].
  rewrite IH. apply Permutation_swap.
Qed.

Lemma sorted_perm l : sorted key l ≡ₚ l.
Proof.
  induction l as [|x l IH]; simpl; [done|]. now rewrite insert_by_perm, IH.
Qed.



End RouteOrder.

(** The routes of the spec's example come out as 3, 12, Shuttle whatever
    the order in which the set is iterated. *)
Lemma all_routes_example (order : list string) :
  order ≡ₚ ["12 Main St"; "3 Elm Ave"; "Shuttle"] ->
  all_routes order = ["3 Elm Ave"; "12 Main St"; "Shuttle"].
Proof.
  intros H. symmetry in H. apply permutations_Permutation in H.
  vm_compute in H. repeat (apply elem_of_cons in H as [-> | H]; [vm_compute; reflexivity|]).
  now apply elem_of_nil in H.
Qed.

Lemma elem_of_route_universe (all_data : dataset) (route : string) :
  route ∈ route_universe all_data <->
  exists d, In d (values all_data) /\ In route (keys d).
Proof.
  unfold route_universe. rewrite elem_of_union_list. split.
  - intros (X & HX & Hr). apply list_elem_of_In, in_map_iff in HX as (d & <- & Hd).
    apply elem_of_list_to_set, list_elem_of_In in Hr. eauto.
  - intros (d & Hd & Hr). exists (list_to_set (keys d)). split.
    + apply list_elem_of_In, in_map_iff. eauto.
    + apply elem_of_list_to_set, list_elem_of_In, Hr.
Qed.

Lemma In_all_routes (all_data : dataset) (order : list string) (route : string) :
  iterates order (route_universe all_data) ->
  In route (all_routes order) <-> exists d, In d (values all_data) /\ In route (keys d).
Proof.
  unfold iterates, all_routes. intros Horder.
  assert (Hperm : sorted route_sort_key order ≡ₚ elements (route_universe all_data))
    by now rewrite sorted_perm.
  rewrite <- elem_of_route_universe, <- elem_of_elements, <- Hperm.
  symmetry. apply list_elem_of_In.
Qed.



(* ===================================================================== *)
(** * Dictionaries: basic facts *)
(* ===================================================================== *)

Section DictFacts.
Context {K V : Type} `{EqDecision K}.
Implicit Types (d : dict K V) (k : K) (v : V).

Lemma get_set_eq k v d : get k (set k v d) = Some v.
Proof.
  induction d as [|[k' v'] d IH]; simpl.
  - now rewrite decide_True.
  - destruct (decide (k = k')) as [->|Hne]; simpl.
    + now rewrite decide_True.
    + now rewrite decide_False.
Qed.

Lemma get_set_ne k k' v d : k <> k' -> get k' (set k v d) = get k' d.
Proof.
  intros Hne. induction d as [|[k0 v0] d IH]; simpl.
  - rewrite decide_False; [reflexivity | congruence].
  - destruct (decide (k = k0)) as [->|Hne0]; simpl.
    + rewrite !decide_False; [reflexivity | congruence | congruence].
    + destruct (decide (k' = k0)); [reflexivity | exact IH].
Qed.

Lemma update_all_keys f d d' : update_all f d = Ok d' -> keys d' = keys d.
Proof.
  revert d'. induction d as [|[k v] d IH]; simpl; intros d' H.
  - now injection H as <-.
  - destruct (f k v); [|discriminate].
    destruct (update_all f d); [|discriminate].
    injection H as <-. simpl. f_equal. now apply IH.
Qed.

(** After [update_all f], a key holds the image by [f] of what it held. *)
Lemma update_all_get f d d' k v' :
  update_all f d = Ok d' -> get k d' = Some v' ->
  exists v, get k d = Some v /\ f k v = Ok v'.
Proof.
  revert d'. induction d as [|[k0 v0] d IH]; simpl; intros d' H Hget.
  - injection H as <-. discriminate.
  - destruct (f k0 v0) as [v1|] eqn:Hf; [|discriminate].
    destruct (update_all f d) as [d1|]; [|discriminate].
    injection H as <-. simpl in Hget.
    destruct (decide (k = k0)) as [->|Hne]; [|now apply (IH d1)].
    injection Hget as <-. eauto.
Qed.

Lemma update_all_get_ok f d d' k v :
  update_all f d = Ok d' -> get k d = Some v ->
  exists v', f k v = Ok v' /\ get k d' = Some v'.
Proof.
  revert d'. induction d as [|[k0 v0] d IH]; simpl; intros d' H Hget; [discriminate|].
  destruct (f k0 v0) as [v1|] eqn:Hf; [|discriminate].
  destruct (update_all f d) as [d1|]; [|discriminate].
  injection H as <-. simpl.
  destruct (decide (k = k0)) as [->|Hne]; [|now apply IH].
  injection Hget as <-. eauto.
Qed.

End DictFacts.

(* ===================================================================== *)
(** * Extraction *)
(* ===================================================================== *)

Lemma set_revenue_hours_invariant (r r1 : record) :
  set_revenue_hours r = Ok r1 -> revenue_invariant r1.
Proof.
  unfold set_revenue_hours, revenue_invariant.
  destruct (to_float (default (VInt 0) (get "In Service Duration" r))) as [a|] eqn:Ha;
    [|discriminate].
  destruct (to_float (default (VInt 0) (get "Layover Duration" r))) as [b|] eqn:Hb;
    [|discriminate].
  simpl. intros [= <-]. exists a, b.
  rewrite !get_set_ne by discriminate. rewrite get_set_eq. auto.
Qed.

Lemma halve_all_halved (r1 r : record) :
  update_all (fun _ v => halve v) r1 = Ok r -> halved r1 r.
Proof.
  intros H. split; [eapply update_all_keys, H|].
  intros field v0 Hget.
  destruct (update_all_get_ok _ _ _ _ _ H Hget) as (v' & Hv' & Hr).
  unfold halve in Hv'. destruct (truediv v0 2) as [q|]; [|discriminate].
  injection Hv' as <-. eauto.
Qed.

(** What [finish_route] returns: Revenue Hours is computed first, and the
    record of route 65 is halved afterwards. *)
Lemma finish_route_ok (route : string) (r0 r : record) :
  finish_route route r0 = Ok r ->
  exists r1, set_revenue_hours r0 = Ok r1 /\
             if is_senior_shopper route then halved r1 r else r = r1.
Proof.
  unfold finish_route. destruct (set_revenue_hours r0) as [r1|]; [|discriminate].
  simpl. intros H. exists r1. split; [reflexivity|].
  destruct (is_senior_shopper route).
  - now apply halve_all_halved.
  - now injection H as <-.
Qed.

(** C1, as amended.  In a record produced by [extract_data] for a route
    other than "65 senior shopper", Revenue Hours is the sum of the stored
    In Service Duration and Layover Duration rounded to two decimals.  The
    record of "65 senior shopper" holds the halves, rounded to two
    decimals, of the fields of a record in which that equation holds: its
    Revenue Hours is half the Revenue Hours computed from the durations
    before they were halved. *)
Theorem revenue_hours_stored (lines : list string) bc (d : dict string record)
    (route : string) (r : record) :
  extract_data lines = Ok (bc, d) -> get route d = Some r ->
  if is_senior_shopper route
  then exists r1, revenue_invariant r1 /\ halved r1 r
  else revenue_invariant r.
Proof.
  unfold extract_data. intros H Hget.
  destruct (for_each scan_line lines _) as [st|]; [|discriminate]. simpl in H.
  destruct (update_all finish_route (data st)) as [d'|] eqn:Hd; [|discriminate].
  injection H as _ <-.
  destruct (update_all_get _ _ _ _ _ Hd Hget) as (r0 & _ & Hfin).
  apply finish_route_ok in Hfin as (r1 & Hr1 & Hr).
  apply set_revenue_hours_invariant in Hr1.
  destruct (is_senior_shopper route); [eauto | now subst].
Qed.

Lemma revenue_hours_stored_end_to_end :
  exists r1, revenue_invariant r1 /\ halved r1 end_to_end_record.
Proof.
  apply (revenue_hours_stored end_to_end_lines "4821"
           [("65 Senior Shopper", end_to_end_record)] "65 Senior Shopper");
    vm_compute; reflexivity.
Defined.

(** C1 as stated fails for route 65: with three minutes in service and
    three minutes of layover the stored durations are 0.03 and 0.03, and the
    stored Revenue Hours is 0.05, not 0.06. *)
Lemma revenue_hours_after_halving :
  exists bc d r,
    extract_data three_minutes_lines = Ok (bc, d) /\
    get "65 Senior Shopper" d = Some r /\
    get "In Service Duration" r = Some (VFloat (decimal 3 2)) /\
    get "Layover Duration" r = Some (VFloat (decimal 3 2)) /\
    get "Revenue Hours" r = Some (VFloat (decimal 5 2)) /\
    ~ revenue_invariant r.
Proof.
  eexists _, _, _. split; [vm_compute; reflexivity|].
  split; [vm_compute; reflexivity|].
  repeat (split; [vm_compute; reflexivity|]).
  intros (a & b & Ha & Hb & Hr). vm_compute in Ha, Hb.
  injection Ha as <-. injection Hb as <-. vm_compute in Hr. discriminate.
Qed.

Lemma update_all_without_rule (dd d : dict string record) :
  update_all finish_route dd = Ok d ->
  exists d0,
    update_all (fun _ r => set_revenue_hours r) dd = Ok d0 /\
    keys d = keys d0 /\
    forall route r0, get route d0 = Some r0 ->
      exists r, get route d = Some r /\
                if is_senior_shopper route then halved r0 r else r = r0.
Proof.
  revert d. induction dd as [|[k v] dd IH]; simpl; intros d H.
  - injection H as <-. exists []. repeat split; auto. discriminate.
  - destruct (finish_route k v) as [v'|] eqn:Hfin; [|discriminate].
    destruct (update_all finish_route dd) as [d'|]; [|discriminate].
    injection H as <-.
    apply finish_route_ok in Hfin as (r1 & -> & Hr).
    destruct (IH _ eq_refl) as (d0 & -> & Hkeys & Hget).
    exists ((k, r1) :: d0). split; [reflexivity|]. split; [simpl; now f_equal|].
    intros route r0. simpl. destruct (decide (route = k)) as [->|Hne]; [|apply Hget].
    intros [= <-]. eauto.
Qed.

(** C3.  Take the records of [extract_data] and those obtained from the
    same lines without the halving rule.  The routes are the same; the
    record of a route whose identifier, trimmed and in lower case, is
    "65 senior shopper" holds for every field, Revenue Hours included,
    half the value it has without the rule, rounded to two decimals; the
    record of any other route is the one obtained without the rule. *)
Theorem senior_shopper_halved (lines : list string) bc (d : dict string record) :
  extract_data lines = Ok (bc, d) ->
  exists d0,
    extract_data_without_rule lines = Ok (bc, d0) /\
    keys d = keys d0 /\
    forall route r0, get route d0 = Some r0 ->
      exists r, get route d = Some r /\
                if is_senior_shopper route then halved r0 r else r = r0.
Proof.
  unfold extract_data, extract_data_without_rule. intros H.
  destruct (for_each scan_line lines _) as [st|]; [|discriminate]. simpl in *.
  destruct (update_all finish_route (data st)) as [d'|] eqn:Hd; [|discriminate].
  injection H as <- <-.
  destruct (update_all_without_rule _ _ Hd) as (d0 & -> & Hkeys & Hget).
  exists d0. auto.
Qed.

Lemma senior_shopper_halved_end_to_end :
  exists d0,
    extract_data_without_rule end_to_end_lines = Ok ("4821", d0) /\
    keys [("65 Senior Shopper", end_to_end_record)] = keys d0 /\
    forall route r0, get route d0 = Some r0 ->
      exists r, get route [("65 Senior Shopper", end_to_end_record)] = Some r /\
                if is_senior_shopper route then halved r0 r else r = r0.
Proof.
  apply (senior_shopper_halved end_to_end_lines "4821"
           [("65 Senior Shopper", end_to_end_record)]).
  vm_compute. reflexivity.
Defined.

(** C10 fails on a duration whose hours do not fit in a float: the
    conversion raises OverflowError and [extract_data] does not catch it. *)
Theorem extract_data_overflow :
  extract_data long_duration_lines = Raise OverflowError.
Proof. vm_compute. reflexivity. Qed.

(* ===================================================================== *)
(** * Booking identifier *)
(* ===================================================================== *)

Section Booking.
Import PyStr.

Lemma digit_not_space c : is_digit c = true -> is_space c = false.
Proof.
  unfold is_digit, is_space, in_range. intros [H1 H2]%andb_true_iff.
  apply Z.leb_le in H1, H2. apply orb_false_iff. split; apply andb_false_iff.
  - right. apply Z.leb_gt. lia.
  - right. apply Z.leb_gt. lia.
Qed.

Lemma search_inv p (s : string) gs :
  Re.search p s = Some gs -> exists pre s', s = pre ++ s' /\ Re.match_here p s' = Some gs.
Proof.
  induction s as [|c s IH]; simpl.
  - destruct (Re.match_here p "") eqn:E; [|discriminate]. intros [= <-]. exists "", "". auto.
  - destruct (Re.match_here p (String c s)) eqn:E.
    + intros [= <-]. exists "", (String c s). auto.
    + intros (pre & s' & -> & H)%IH. exists (String c pre), s'. auto.
Qed.

Lemma booking_re_match_inv (s : string) gs :
  Re.match_here booking_re s = Some gs ->
  exists ds, gs = [ds] /\ is_number ds = true.
Proof.
  unfold booking_re, Re.star, Re.group_plus. intros H.
  apply match_here_lit_inv in H as (s1 & -> & H).
  apply match_here_rep_inv in H as (sp & s2 & gs2 & -> & _ & H & _ & ->).
  apply match_here_rep_inv in H as (ds & rest & gs3 & -> & Hds & H & Hne & ->).
  simpl in H. injection H as <-. exists ds. split; [reflexivity|].
  apply is_number_spec. auto.
Qed.

Lemma booking_re_search_number (l : string) gs :
  Re.search booking_re l = Some gs -> is_number (Re.group 1 gs) = true.
Proof.
  intros (pre & s' & -> & H)%search_inv.
  apply booking_re_match_inv in H as (ds & -> & Hds). exact Hds.
Qed.

(** A line that starts with "Booking:", white space and digits gives
    those digits. *)
Lemma booking_re_search_at_start (sp ds rest : string) :
  all_chars is_space sp = true -> is_number ds = true ->
  starts_with is_digit rest = false ->
  Re.search booking_re ("Booking:" ++ sp ++ ds ++ rest) = Some [ds].
Proof.
  intros Hsp Hds Hrest.
  assert (H : Re.match_here booking_re ("Booking:" ++ sp ++ ds ++ rest) = Some [ds]).
  { unfold booking_re, Re.star, Re.group_plus. rewrite match_here_lit_app.
    destruct (is_number_cons _ Hds) as (c & ds' & -> & Hc & Hds').
    apply (match_here_rep_app is_space false false _ sp _ [String c ds']); auto.
    - simpl. now apply digit_not_space.
    - apply (match_here_rep_app is_digit true true [] (String c ds') rest []); auto. }
  remember ("Booking:" ++ sp ++ ds ++ rest) as s eqn:Hs.
  destruct s as [|c s]; simpl; simpl in H; rewrite H; reflexivity.
Qed.

Lemma extract_booking_code_none (lines : list string) :
  Forall no_booking lines -> extract_booking_code lines = "unknown".
Proof.
  induction 1 as [|l lines Hl _ IH]; simpl; [reflexivity|].
  unfold no_booking in Hl. now rewrite Hl.
Qed.

Lemma extract_booking_code_first (before : list string) (l : string) (after : list string) gs :
  Forall no_booking before -> Re.search booking_re l = Some gs ->
  extract_booking_code (before ++ l :: after) = Re.group 1 gs.
Proof.
  intros Hb Hl. induction Hb as [|x before Hx _ IH]; simpl.
  - now rewrite Hl.
  - unfold no_booking in Hx. now rewrite Hx.
Qed.

Lemma extract_booking_code_cases (lines : list string) :
  extract_booking_code lines = "unknown" \/ is_number (extract_booking_code lines) = true.
Proof.
  induction lines as [|l lines IH]; simpl; [now left|].
  destruct (Re.search booking_re l) as [gs|] eqn:E; [|exact IH].
  right. eapply booking_re_search_number, E.
Qed.

Lemma extract_booking_code_lower (lines : list string) :
  String.eqb (lower (extract_booking_code lines)) "unknown"
  = String.eqb (extract_booking_code lines) "unknown".
Proof.
  destruct (extract_booking_code_cases lines) as [-> | [_ H]%is_number_spec].
  - reflexivity.
  - now rewrite (lower_digits _ H).
Qed.

Lemma extract_data_booking (lines : list string) bc d :
  extract_data lines = Ok (bc, d) -> bc = extract_booking_code lines.
Proof.
  unfold extract_data.
  destruct (for_each scan_line lines _) as [st|]; [|discriminate]. simpl.
  destruct (update_all finish_route (data st)); [|discriminate]. simpl.
  now intros [= <- _].
Qed.

Lemma for_each_ingest (files : list (string * list string)) all_data acc all_data' bc' :
  for_each ingest files (all_data, acc) = Ok (all_data', bc') ->
  bc' = if String.eqb acc "unknown" then first_known (booking_codes files) else acc.
Proof.
  revert all_data acc. induction files as [|[name lines] files IH]; simpl; intros all_data acc H.
  - injection H as _ <-. now destruct (String.eqb_spec acc "unknown").
  - destruct (extract_data lines) as [[bc d]|] eqn:Hx; [|discriminate]. simpl in H.
    apply extract_data_booking in Hx as ->.
    rewrite extract_booking_code_lower in H.
    destruct (String.eqb_spec (extract_booking_code lines) "unknown") as [Hbc|Hbc];
      destruct (String.eqb_spec acc "unknown") as [Hacc|Hacc]; simpl in H;
      apply IH in H; rewrite H; subst; simpl; try reflexivity.
    + now apply String.eqb_neq in Hacc as ->.
    + now apply String.eqb_neq in Hbc as ->.
    + now apply String.eqb_neq in Hacc as ->.
Qed.

(** C8.  The booking identifier of a file is "unknown" when no line
    matches "Booking:\s*(\d+)", and otherwise the digits captured in the
    first line that matches; the identifier kept by the upload loop is
    the first one, in input order, that is not "unknown", and "unknown"
    when there is none. *)
Theorem booking_code_first_known :
  (forall lines, Forall no_booking lines -> extract_booking_code lines = "unknown") /\
  (forall before (l : string) after gs,
      Forall no_booking before -> Re.search booking_re l = Some gs ->
      extract_booking_code (before ++ l :: after) = Re.group 1 gs /\
      is_number (Re.group 1 gs) = true) /\
  (forall sp ds rest : string,
      all_chars is_space sp = true -> is_number ds = true ->
      starts_with is_digit rest = false ->
      Re.search booking_re ("Booking:" ++ sp ++ ds ++ rest) = Some [ds]) /\
  (forall files all_data booking_code,
      process_uploads files = Ok (all_data, booking_code) ->
      booking_code = first_known (booking_codes files)).
Proof.
  split; [exact extract_booking_code_none|].
  split; [|split; [exact booking_re_search_at_start|]].
  - intros before l after gs Hb Hl. split.
    + now apply extract_booking_code_first.
    + eapply booking_re_search_number, Hl.
  - intros files all_data booking_code H. apply for_each_ingest in H. exact H.
Qed.

Lemma booking_code_first_known_two_uploads :
  booking_codes two_uploads = ["unknown"; "77"] /\
  "77" = first_known (booking_codes two_uploads).
Proof.
  split; [vm_compute; reflexivity|].
  destruct booking_code_first_known as (_ & _ & _ & H).
  apply (H two_uploads
           [("WDY Stats.prt", [("1 A", set "Blocks" (VInt 2) new_record)]);
            ("SAT Stats.prt", [("1 A", new_record)])]).
  vm_compute. reflexivity.
Defined.

End Booking.

(* ===================================================================== *)
(** * The worksheet: basic facts *)
(* ===================================================================== *)

Lemma set_value_other row col v ws r c :
  r <> row \/ c <> col -> cells (set_value row col v ws) r c = cells ws r c.
Proof.
  intros H. simpl.
  destruct (Z.eqb_spec r row), (Z.eqb_spec c col); simpl; try reflexivity. lia.
Qed.

Lemma set_value_same row col v ws : cell_val (cells (set_value row col v ws) row col) = v.
Proof. simpl. now rewrite !Z.eqb_refl. Qed.

Lemma set_fill_other row col color ws r c :
  r <> row \/ c <> col -> cells (set_fill row col color ws) r c = cells ws r c.
Proof.
  intros H. simpl.
  destruct (Z.eqb_spec r row), (Z.eqb_spec c col); simpl; try reflexivity. lia.
Qed.

Lemma set_fill_val row col color ws r c :
  cell_val (cells (set_fill row col color ws) r c) = cell_val (cells ws r c).
Proof. simpl. now destruct ((r =? row) && (c =? col)). Qed.

Lemma is_taxi_text (s : string) : is_taxi (Text s) = taxi_route s.
Proof. destruct s; reflexivity. Qed.

Lemma n_fields_9 : n_fields = 9.
Proof. reflexivity. Qed.

(** ** One block of a body row *)

Section Block.
Variables (d : dict string record) (route : string) (row_idx col_offset : Z).

Lemma block_step_other ws idx field r c :
  r <> row_idx \/ c <> col_offset + idx ->
  cells (block_step d route row_idx col_offset ws (idx, field)) r c = cells ws r c.
Proof.
  intros H. unfold block_step.
  destruct (String.eqb (fst field) "Revenue Hours").
  - rewrite set_fill_other, set_value_other; auto.
  - rewrite set_value_other; auto.
Qed.

Lemma block_step_same ws idx field :
  cell_val (cells (block_step d route row_idx col_offset ws (idx, field)) row_idx (col_offset + idx))
  = lookup_value d route (fst field).
Proof.
  unfold block_step. destruct (String.eqb (fst field) "Revenue Hours").
  - rewrite set_fill_val. apply set_value_same.
  - apply set_value_same.
Qed.

Lemma block_fold_other fields start ws r c :
  r <> row_idx \/ c < col_offset + start \/ col_offset + start + Z.of_nat (length fields) <= c ->
  cells (fold_left (block_step d route row_idx col_offset) (enumerate start fields) ws) r c = cells ws r c.
Proof.
  revert start ws. induction fields as [|f fields IH]; intros start ws H; [reflexivity|].
  cbn [enumerate fold_left length] in *. rewrite IH by lia.
  apply block_step_other. lia.
Qed.

Lemma block_fold_same fields start ws (j : nat) field :
  fields !! j = Some field ->
  cell_val (cells (fold_left (block_step d route row_idx col_offset) (enumerate start fields) ws)
              row_idx (col_offset + start + Z.of_nat j))
  = lookup_value d route (fst field).
Proof.
  revert start ws j. induction fields as [|f fields IH]; intros start ws j Hj; [discriminate|].
  cbn [enumerate fold_left]. destruct j as [|j]; simpl in Hj.
  - injection Hj as ->. rewrite block_fold_other by lia.
    replace (col_offset + start + Z.of_nat 0) with (col_offset + start) by lia.
    apply block_step_same.
  - replace (col_offset + start + Z.of_nat (S j)) with (col_offset + (start + 1) + Z.of_nat j)
      by lia.
    now apply IH.
Qed.

End Block.

Lemma write_block_fold d route row_idx col_offset ws :
  write_block d route row_idx col_offset ws
  = fold_left (block_step d route row_idx col_offset) (enumerate 0 data_fields) ws.
Proof. reflexivity. Qed.

Lemma write_block_other d route row_idx col_offset ws r c :
  r <> row_idx \/ c < col_offset \/ col_offset + n_fields <= c ->
  cells (write_block d route row_idx col_offset ws) r c = cells ws r c.
Proof.
  intros H. rewrite write_block_fold. apply block_fold_other.
  unfold n_fields in H. lia.
Qed.

Lemma write_block_same d route row_idx col_offset ws (j : nat) field :
  field_names !! j = Some field ->
  cell_val (cells (write_block d route row_idx col_offset ws) row_idx (col_offset + Z.of_nat j))
  = lookup_value d route field.
Proof.
  intros Hj. unfold field_names in Hj.
  change (map fst data_fields) with (fst <$> data_fields) in Hj.
  apply list_lookup_fmap_Some in Hj as (fld & -> & Hj).
  rewrite write_block_fold.
  replace (col_offset + Z.of_nat j) with (col_offset + 0 + Z.of_nat j) by lia.
  now apply block_fold_same.
Qed.

Lemma field_names_lt (j : nat) field : field_names !! j = Some field -> Z.of_nat j < n_fields.
Proof. intros H%lookup_lt_Some. unfold n_fields, field_names in *. rewrite length_map in H. lia. Qed.

(** ** One body row *)

Section Row.
Variables (all_data : dataset) (route : string) (row_idx : Z).

Lemma file_fold_other files start ws r c :
  r <> row_idx \/ c < 2 + start * n_fields
  \/ 2 + (start + Z.of_nat (length files)) * n_fields <= c ->
  cells (fold_left (file_step all_data route row_idx) (enumerate start files) ws) r c = cells ws r c.
Proof.
  revert start ws. induction files as [|f files IH]; intros start ws H; [reflexivity|].
  cbn [enumerate fold_left length] in *. rewrite n_fields_9 in *. rewrite IH by lia.
  unfold file_step. destruct (get f all_data); [|reflexivity].
  apply write_block_other. rewrite n_fields_9. lia.
Qed.

Lemma file_fold_same files start ws (k : nat) f d (j : nat) field :
  files !! k = Some f -> get f all_data = Some d -> field_names !! j = Some field ->
  cell_val (cells (fold_left (file_step all_data route row_idx) (enumerate start files) ws)
              row_idx (2 + (start + Z.of_nat k) * n_fields + Z.of_nat j))
  = lookup_value d route field.
Proof.
  intros Hk Hd Hj. pose proof (field_names_lt _ _ Hj) as Hlt. rewrite n_fields_9 in *.
  revert start ws k Hk. induction files as [|f0 files IH]; intros start ws k Hk; [discriminate|].
  cbn [enumerate fold_left]. destruct k as [|k]; simpl in Hk.
  - injection Hk as ->. rewrite file_fold_other by (rewrite n_fields_9; lia).
    unfold file_step. rewrite Hd, n_fields_9.
    replace (2 + (start + Z.of_nat 0) * 9) with (2 + start * 9) by lia.
    now apply write_block_same.
  - replace (2 + (start + Z.of_nat (S k)) * 9) with (2 + (start + 1 + Z.of_nat k) * 9) by lia.
    now apply IH.
Qed.

End Row.

Lemma write_route_fold all_data ws row_idx route :
  write_route all_data ws row_idx route
  = fold_left (file_step all_data route row_idx) (enumerate 0 file_order)
      (set_value row_idx 1 (Text route) ws).
Proof. reflexivity. Qed.

Lemma write_route_other all_data ws row_idx route r c :
  r <> row_idx -> cells (write_route all_data ws row_idx route) r c = cells ws r c.
Proof.
  intros H. rewrite write_route_fold, file_fold_other by auto.
  apply set_value_other. auto.
Qed.

Lemma write_route_row_of all_data ws row_idx route :
  row_of all_data (write_route all_data ws row_idx route) row_idx route.
Proof.
  split.
  - rewrite write_route_fold, file_fold_other by (rewrite n_fields_9; lia).
    apply set_value_same.
  - intros k f d j field Hk Hd Hj. rewrite write_route_fold. unfold body_column.
    replace (2 + Z.of_nat k * n_fields) with (2 + (0 + Z.of_nat k) * n_fields) by lia.
    now apply file_fold_same with (f := f).
Qed.

Lemma row_of_ext all_data ws ws' row row' route :
  (forall c, cells ws' row' c = cells ws row c) ->
  row_of all_data ws row route -> row_of all_data ws' row' route.
Proof.
  intros Heq [H1 H2]. split.
  - now rewrite Heq.
  - intros k f d j field Hk Hd Hj. rewrite Heq. eauto.
Qed.

(** ** The body rows *)

Lemma write_routes_from all_data (rows : list string) (ws : worksheet) (n0 : Z) ws' n' :
  fold_left (route_step all_data) rows (ws, n0) = (ws', n') ->
  n' = n0 + Z.of_nat (length rows) /\
  (forall r c, r < n0 -> cells ws' r c = cells ws r c) /\
  (forall (i : nat) route, rows !! i = Some route ->
     row_of all_data ws' (n0 + Z.of_nat i) route).
Proof.
  revert ws n0. induction rows as [|x rows IH]; intros ws n0 H.
  - injection H as <- <-. simpl. repeat split; [lia | discriminate..].
  - cbn [fold_left route_step] in H. apply IH in H as (-> & Hframe & Hrows).
    split; [simpl length; lia|]. split.
    + intros r c Hr. rewrite Hframe by lia. apply write_route_other. lia.
    + intros [|i] route Hi; simpl in Hi.
      * injection Hi as ->.
        apply (row_of_ext all_data (write_route all_data ws n0 route) ws' n0).
        -- intros c. replace (n0 + Z.of_nat 0) with n0 by lia. apply Hframe. lia.
        -- apply write_route_row_of.
      * replace (n0 + Z.of_nat (S i)) with (n0 + 1 + Z.of_nat i) by lia. now apply Hrows.
Qed.

(** ** The TAXI row *)

Lemma remove_first_none {A} (p : A -> bool) (l : list A) :
  Forall (fun x => p x = false) l -> remove_first p l = l.
Proof. induction 1 as [|x l Hx _ IH]; simpl; [reflexivity|]. now rewrite Hx, IH. Qed.

Lemma remove_first_split {A} (p : A -> bool) (l1 : list A) (t : A) (l2 : list A) :
  Forall (fun x => p x = false) l1 -> p t = true ->
  remove_first p (l1 ++ t :: l2)%list = (l1 ++ l2)%list.
Proof.
  intros H Ht. induction H as [|x l1 Hx _ IH]; simpl; [now rewrite Ht|]. now rewrite Hx, IH.
Qed.

(** The row found by the TAXI loop is the row of the first route whose
    identifier contains TAXI. *)
Lemma find_taxi_row (ws : worksheet) (rows : list string) (n0 : Z) :
  (forall (i : nat) route, rows !! i = Some route ->
     cell_val (cells ws (n0 + Z.of_nat i) 1) = Text route) ->
  match find (fun row => is_taxi (cell_val (cells ws row 1)))
             (seqZ n0 (Z.of_nat (length rows))) with
  | Some row =>
      exists l1 t l2, rows = (l1 ++ t :: l2)%list /\ Forall (fun r => taxi_route r = false) l1 /\
                      taxi_route t = true /\ row = n0 + Z.of_nat (length l1)
  | None => Forall (fun r => taxi_route r = false) rows
  end.
Proof.
  revert n0. induction rows as [|x rows IH]; intros n0 Hcol; [constructor|].
  rewrite seqZ_cons by (simpl length; lia).
  replace (Z.pred (Z.of_nat (length (x :: rows)))) with (Z.of_nat (length rows))
    by (simpl length; lia).
  cbn [find]. pose proof (Hcol 0%nat x eq_refl) as H0.
  replace (n0 + Z.of_nat 0) with n0 in H0 by lia. rewrite H0, is_taxi_text.
  destruct (taxi_route x) eqn:Hx.
  - exists [], x, rows. repeat split; auto. simpl. lia.
  - specialize (IH (Z.succ n0)).
    destruct (find _ (seqZ (Z.succ n0) _)) as [row|].
    + destruct IH as (l1 & t & l2 & -> & Hl1 & Ht & ->).
      { intros i route Hi. replace (Z.succ n0 + Z.of_nat i) with (n0 + Z.of_nat (S i)) by lia.
        now apply Hcol. }
      exists (x :: l1), t, l2. repeat split; auto. simpl length. lia.
    + constructor; [exact Hx|]. apply IH.
      intros i route Hi. replace (Z.succ n0 + Z.of_nat i) with (n0 + Z.of_nat (S i)) by lia.
      now apply Hcol.
Qed.

Lemma remove_taxi_rows all_data (ws : worksheet) (rows : list string) ws' n' :
  (forall (i : nat) route, rows !! i = Some route ->
     row_of all_data ws (3 + Z.of_nat i) route) ->
  remove_taxi (ws, 3 + Z.of_nat (length rows)) = (ws', n') ->
  n' = 3 + Z.of_nat (length (remove_first taxi_route rows)) /\
  forall (i : nat) route, remove_first taxi_route rows !! i = Some route ->
    row_of all_data ws' (3 + Z.of_nat i) route.
Proof.
  intros Hrows. unfold remove_taxi.
  replace (3 + Z.of_nat (length rows) - 3) with (Z.of_nat (length rows)) by lia.
  assert (Hcol : forall (i : nat) route, rows !! i = Some route ->
                  cell_val (cells ws (3 + Z.of_nat i) 1) = Text route)
    by (intros i route Hi; now apply Hrows).
  pose proof (find_taxi_row ws rows 3 Hcol) as Hfind.
  destruct (find _ _) as [row|].
  - destruct Hfind as (l1 & t & l2 & -> & Hl1 & Ht & ->).
    intros [= <- <-]. rewrite (remove_first_split _ _ _ _ Hl1 Ht). split.
    + rewrite !length_app. simpl length. lia.
    + intros i route Hi. destruct (decide (i < length l1)%nat) as [Hlt|Hge].
      * rewrite lookup_app_l in Hi by exact Hlt.
        apply (row_of_ext all_data ws _ (3 + Z.of_nat i)).
        -- intros c. simpl. destruct (Z.ltb_spec (3 + Z.of_nat i) (3 + Z.of_nat (length l1)));
             [reflexivity | lia].
        -- apply Hrows. now rewrite lookup_app_l.
      * rewrite lookup_app_r in Hi by lia.
        apply (row_of_ext all_data ws _ (3 + Z.of_nat (S i))).
        -- intros c. simpl. destruct (Z.ltb_spec (3 + Z.of_nat i) (3 + Z.of_nat (length l1)));
             [lia|]. f_equal. lia.
        -- apply Hrows. rewrite lookup_app_r by lia.
           replace (S i - length l1)%nat with (S (i - length l1)) by lia. exact Hi.
  - intros [= <- <-]. rewrite (remove_first_none _ _ Hfind). auto.
Qed.

(** ** The totals row *)

Lemma write_totals_other all_data total_row_idx ws r c :
  r <> total_row_idx -> cells (write_totals all_data total_row_idx ws) r c = cells ws r c.
Proof.
  intros Hr. unfold write_totals. cbn [enumerate file_order fold_left].
  repeat match goal with
         | |- context [mem ?f all_data] => destruct (mem f all_data)
         end;
    cbn [enumerate data_fields fold_left];
    repeat (rewrite set_value_other by auto); reflexivity.
Qed.

Lemma write_totals_label all_data total_row_idx ws :
  cell_val (cells (write_totals all_data total_row_idx ws) total_row_idx 1) = Text "Total".
Proof.
  unfold write_totals. cbn [enumerate file_order fold_left].
  repeat match goal with
         | |- context [mem ?f all_data] => destruct (mem f all_data)
         end;
    cbn [enumerate data_fields fold_left];
    repeat (rewrite set_value_other by (right; rewrite n_fields_9; lia));
    apply set_value_same.
Qed.

(** ** The body of the worksheet *)

Lemma write_body_rows (order : list string) all_data ws n :
  write_body order all_data = (ws, n) ->
  n = 3 + Z.of_nat (length (kept_routes order)) /\
  forall (i : nat) route, kept_routes order !! i = Some route ->
    row_of all_data ws (3 + Z.of_nat i) route.
Proof.
  unfold write_body, write_routes, kept_routes. intros H.
  destruct (fold_left (route_step all_data) (all_routes order) _) as [ws1 n1] eqn:Hr.
  apply write_routes_from in Hr as (-> & _ & Hrows).
  eapply remove_taxi_rows; eauto.
Qed.

Lemma write_to_excel_rows (order : list string) all_data booking_code :
  let ws := fst (write_to_excel order all_data booking_code) in
  cell_val (cells ws (3 + Z.of_nat (length (kept_routes order))) 1) = Text "Total" /\
  forall (i : nat) route, kept_routes order !! i = Some route ->
    row_of all_data ws (3 + Z.of_nat i) route.
Proof.
  unfold write_to_excel. destruct (write_body order all_data) as [ws n] eqn:Hb.
  apply write_body_rows in Hb as (-> & Hrows). cbn [fst]. split.
  - apply write_totals_label.
  - intros i route Hi.
    apply (row_of_ext all_data ws _ (3 + Z.of_nat i)); [|now apply Hrows].
    intros c. apply write_totals_other.
    apply lookup_lt_Some in Hi. lia.
Qed.

(* ===================================================================== *)
(** * The grid *)
(* ===================================================================== *)

(** C5.  In the worksheet returned by [write_to_excel] the body rows, from
    row 3 down, carry the sorted routes without the first one whose
    identifier contains TAXI in any case, and the totals row follows them;
    nothing is removed when no identifier contains TAXI, and when several
    do, all but the first stay. *)
Theorem taxi_row_removed (order : list string) (all_data : dataset) (booking_code : string) :
  let ws := fst (write_to_excel order all_data booking_code) in
  let rows := all_routes order in
  (forall (i : nat) route, kept_routes order !! i = Some route ->
     cell_val (cells ws (3 + Z.of_nat i) 1) = Text route) /\
  cell_val (cells ws (3 + Z.of_nat (length (kept_routes order))) 1) = Text "Total" /\
  (Forall (fun r => taxi_route r = false) rows -> kept_routes order = rows) /\
  (forall l1 t l2,
     rows = (l1 ++ t :: l2)%list -> Forall (fun r => taxi_route r = false) l1 ->
     taxi_route t = true -> kept_routes order = (l1 ++ l2)%list).
Proof.
  intros ws rows.
  destruct (write_to_excel_rows order all_data booking_code) as [Htotal Hrows].
  split; [|split; [exact Htotal|split]].
  - intros i route Hi. apply (Hrows i route Hi).
  - apply remove_first_none.
  - intros l1 t l2 E Hl1 Ht. unfold kept_routes. fold rows. rewrite E.
    now apply remove_first_split.
Qed.

(** The two examples of the spec: one TAXI route among three, and two TAXI
    routes. *)
Lemma taxi_row_removed_examples :
  kept_routes ["TAXI LOOP"; "12 Main St"; "3 Elm Ave"] = ["3 Elm Ave"; "12 Main St"] /\
  kept_routes ["9 Taxi West"; "3 Elm Ave"; "4 Taxi East"] = ["3 Elm Ave"; "9 Taxi West"].
Proof. split; vm_compute; reflexivity. Qed.

(** C7.  In the body row of a route, the cell of a field in the block
    written for a file that is present holds the value of that field in
    the route's record of that file, and the empty text when the file has
    no record for the route (or the record lacks the field): never a
    zero put there by default.  The block of the file at position [k] of
    [file_order] is written at columns [2 + 9 k] to [2 + 9 k + 8]. *)
Theorem body_cell_value (order : list string) (all_data : dataset) (booking_code : string)
    (i : nat) (route : string) (k : nat) (f : string) (d : dict string record)
    (j : nat) (field : string) :
  kept_routes order !! i = Some route ->
  file_order !! k = Some f -> get f all_data = Some d ->
  field_names !! j = Some field ->
  let v := cell_val (cells (fst (write_to_excel order all_data booking_code))
                       (3 + Z.of_nat i) (body_column k j)) in
  (forall r x, get route d = Some r -> get field r = Some x -> v = Number x) /\
  (forall r, get route d = Some r -> get field r = None -> v = Text "") /\
  (get route d = None -> v = Text "").
Proof.
  intros Hi Hk Hd Hj v.
  destruct (write_to_excel_rows order all_data booking_code) as [_ Hrows].
  destruct (Hrows i route Hi) as [_ Hcells].
  assert (Hv : v = lookup_value d route field) by (apply (Hcells k f d j field); auto).
  rewrite Hv. unfold lookup_value. repeat split.
  - intros r x -> ->. reflexivity.
  - intros r -> ->. reflexivity.
  - intros ->. reflexivity.
Qed.

(** Route 2 is not in the Saturday file: its Saturday cells are empty
    texts; route 1 is, and its Saturday Blocks cell holds 3. *)
Lemma body_cell_value_example :
  let ws := fst (write_to_excel ["2 B"; "1 A"] weekday_and_saturday "unknown") in
  cell_val (cells ws 4 11) = Text "" /\ cell_val (cells ws 3 11) = Number (VInt 3).
Proof.
  split.
  - apply (body_cell_value ["2 B"; "1 A"] weekday_and_saturday "unknown"
             1 "2 B" 1 "SAT Stats.prt" [("1 A", three_blocks)] 0 "Blocks");
      reflexivity.
  - destruct (body_cell_value ["2 B"; "1 A"] weekday_and_saturday "unknown"
                0 "1 A" 1 "SAT Stats.prt" [("1 A", three_blocks)] 0 "Blocks"
                eq_refl eq_refl eq_refl eq_refl) as (H & _ & _).
    apply (H three_blocks (VInt 3)); reflexivity.
Defined.

(** ** Headers *)

(** The second header row: the nine field names once per file present,
    in the order of [file_order]. *)
Lemma build_headers_blocks (all_data : dataset) :
  build_headers all_data
  = "Route number"
      :: flat_map (fun f => if mem f all_data then field_names else []) file_order.
Proof.
  unfold build_headers. cbn [file_order fold_left flat_map].
  destruct (mem "WDY Stats.prt" all_data), (mem "SAT Stats.prt" all_data),
    (mem "SUN Stats.prt" all_data); reflexivity.
Qed.

(** With a weekday file alone, the header block and the body block are
    both in columns 2 to 10 and nothing is written further right. *)
Lemma weekday_only_grid :
  let ws := fst (write_to_excel ["1 A"] weekday_only "unknown") in
  merged ws = [(1, 1, 2, 1); (1, 2, 1, 10)] /\
  row_values ws 1 12 = [Text "Route number"; Text "WDY"; Blank; Blank; Blank; Blank; Blank;
                        Blank; Blank; Blank; Blank; Blank] /\
  row_values ws 2 12 = [Blank; Text "Blocks"; Text "Trips"; Text "Off Service Duration";
                        Text "In Service Duration"; Text "Loading Duration";
                        Text "Layover Duration"; Text "Platform Hours";
                        Text "In-service Distance (KM)"; Text "Revenue Hours"; Blank; Blank] /\
  row_values ws 3 12 = [Text "1 A"; Number (VInt 3); Number (VInt 0); Number (VInt 0);
                        Number (VInt 0); Number (VInt 0); Number (VInt 0); Number (VInt 0);
                        Number (VInt 0); Number (VFloat PyFloat.zero); Blank; Blank].
Proof. vm_compute. repeat split; reflexivity. Qed.

(** C2 fails when a file earlier in [file_order] is absent.  With a
    Saturday file alone, the header block (label SAT, merged over
    columns 2 to 10, field names below it) is in columns 2 to 10, and the
    values of the body row are in columns 11 to 19, under no header, while
    the cells under the header are empty. *)
Theorem saturday_only_misaligned :
  let ws := fst (write_to_excel ["1 A"] saturday_only "unknown") in
  merged ws = [(1, 1, 2, 1); (1, 2, 1, 10)] /\
  row_values ws 1 20 = [Text "Route number"; Text "SAT"; Blank; Blank; Blank; Blank; Blank;
                        Blank; Blank; Blank; Blank; Blank; Blank; Blank; Blank; Blank; Blank;
                        Blank; Blank; Blank] /\
  row_values ws 2 20 = [Blank; Text "Blocks"; Text "Trips"; Text "Off Service Duration";
                        Text "In Service Duration"; Text "Loading Duration";
                        Text "Layover Duration"; Text "Platform Hours";
                        Text "In-service Distance (KM)"; Text "Revenue Hours"; Blank; Blank;
                        Blank; Blank; Blank; Blank; Blank; Blank; Blank; Blank] /\
  row_values ws 3 20 = [Text "1 A"; Blank; Blank; Blank; Blank; Blank; Blank; Blank; Blank;
                        Blank; Number (VInt 3); Number (VInt 0); Number (VInt 0);
                        Number (VInt 0); Number (VInt 0); Number (VInt 0); Number (VInt 0);
                        Number (VInt 0); Number (VFloat PyFloat.zero); Blank].
Proof. vm_compute. repeat split; reflexivity. Qed.

(** ** Files with other names *)

Lemma get_In_values {K V} `{EqDecision K} (k : K) (d : dict K V) (v : V) :
  get k d = Some v -> In v (values d).
Proof.
  induction d as [|[k' v'] d IH]; simpl; [discriminate|].
  destruct (decide (k = k')); [intros [= ->]; now left | right; auto].
Qed.

Lemma get_In_keys {K V} `{EqDecision K} (k : K) (d : dict K V) (v : V) :
  get k d = Some v -> In k (keys d).
Proof.
  induction d as [|[k' v'] d IH]; simpl; [discriminate|].
  destruct (decide (k = k')) as [->|]; [now left | right; auto].
Qed.

Section SameRecognizedFiles.
Variables all_data1 all_data2 : dataset.
Hypothesis same : forall f, In f file_order -> get f all_data1 = get f all_data2.

Lemma same_wdy : get "WDY Stats.prt" all_data1 = get "WDY Stats.prt" all_data2.
Proof. apply same. simpl. auto. Qed.

Lemma same_sat : get "SAT Stats.prt" all_data1 = get "SAT Stats.prt" all_data2.
Proof. apply same. simpl. auto. Qed.

Lemma same_sun : get "SUN Stats.prt" all_data1 = get "SUN Stats.prt" all_data2.
Proof. apply same. simpl. auto. Qed.

Lemma same_build_headers : build_headers all_data1 = build_headers all_data2.
Proof.
  unfold build_headers, mem. cbn [file_order fold_left].
  now rewrite same_wdy, same_sat, same_sun.
Qed.

Lemma same_label_step st f :
  In f file_order -> label_step all_data1 st f = label_step all_data2 st f.
Proof. intros Hf. unfold label_step, mem. now rewrite (same f Hf). Qed.

Lemma same_write_labels ws : write_labels all_data1 ws = write_labels all_data2 ws.
Proof.
  unfold write_labels. cbn [file_order fold_left].
  rewrite !same_label_step by (simpl; auto). reflexivity.
Qed.

Lemma same_write_route ws row_idx route :
  write_route all_data1 ws row_idx route = write_route all_data2 ws row_idx route.
Proof.
  unfold write_route, file_step. cbn [file_order enumerate fold_left].
  now rewrite same_wdy, same_sat, same_sun.
Qed.

Lemma same_write_routes rows st :
  fold_left (route_step all_data1) rows st = fold_left (route_step all_data2) rows st.
Proof.
  revert st. induction rows as [|x rows IH]; intros [ws n]; [reflexivity|].
  cbn [fold_left route_step]. now rewrite same_write_route, IH.
Qed.

Lemma same_write_totals n ws : write_totals all_data1 n ws = write_totals all_data2 n ws.
Proof.
  unfold write_totals, mem. cbn [file_order enumerate fold_left].
  now rewrite same_wdy, same_sat, same_sun.
Qed.

Lemma same_write_to_excel order booking_code :
  write_to_excel order all_data1 booking_code = write_to_excel order all_data2 booking_code.
Proof.
  unfold write_to_excel, write_body, write_routes.
  rewrite same_build_headers, same_write_labels, same_write_routes.
  destruct (remove_taxi _) as [ws n]. now rewrite same_write_totals.
Qed.

End SameRecognizedFiles.

Lemma ingest_keeps_file (st : dataset * string) (name : string) (lines : list string)
    (all_data' : dataset) (bc' : string) :
  ingest st (name, lines) = Ok (all_data', bc') ->
  exists bc d, extract_data lines = Ok (bc, d) /\ get name all_data' = Some d.
Proof.
  destruct st as [all_data acc]. unfold ingest.
  destruct (extract_data lines) as [[bc d]|]; [|discriminate]. simpl.
  destruct (negb _ && _); intros [= <- _]; exists bc, d; now rewrite get_set_eq.
Qed.

(** C9, as amended.  The upload loop keeps the data of every file under
    the file's name, whatever the name.  A file whose name is not one of
    the three recognized names has no header block, no columns and no cell
    value in the grid: for a given order of the routes, two datasets with
    the same weekday, Saturday and Sunday files give the same worksheet.
    Its route identifiers are nevertheless part of the route universe, so
    each of them is among the sorted routes that get a body row. *)
Theorem unrecognized_file_adds_routes_only (order : list string)
    (all_data1 all_data2 : dataset) (booking_code : string) :
  (forall f, In f file_order -> get f all_data1 = get f all_data2) ->
  write_to_excel order all_data1 booking_code = write_to_excel order all_data2 booking_code /\
  (forall f d route r,
     iterates order (route_universe all_data1) ->
     get f all_data1 = Some d -> get route d = Some r -> In route (all_routes order)) /\
  (forall st name lines all_data' bc',
     ingest st (name, lines) = Ok (all_data', bc') ->
     exists bc d, extract_data lines = Ok (bc, d) /\ get name all_data' = Some d).
Proof.
  intros Hsame. split; [now apply same_write_to_excel|]. split; [|exact ingest_keeps_file].
  intros f d route r Horder Hf Hr.
  apply (In_all_routes all_data1 order route Horder).
  exists d. split; [eapply get_In_values, Hf | eapply get_In_keys, Hr].
Qed.

Lemma unrecognized_file_adds_routes_only_example :
  write_to_excel ["1 A"; "2 B"] weekday_and_other "unknown"
  = write_to_excel ["1 A"; "2 B"] weekday_only "unknown".
Proof.
  apply (unrecognized_file_adds_routes_only ["1 A"; "2 B"] weekday_and_other weekday_only).
  intros f [<- | [<- | [<- | []]]]; reflexivity.
Defined.

(** C9 as stated fails: route 2 is in the file "Other.prt" only, and it has
    a body row, row 4, with empty texts in the weekday block; without that
    file row 4 is the totals row. *)
Lemma unrecognized_file_adds_row :
  iterates ["1 A"; "2 B"] (route_universe weekday_and_other) /\
  iterates ["1 A"] (route_universe weekday_only) /\
  ~ In "Other.prt" file_order /\
  get "Other.prt" weekday_and_other = Some [("2 B", three_blocks)] /\
  get "WDY Stats.prt" weekday_and_other = get "WDY Stats.prt" weekday_only /\
  row_values (fst (write_to_excel ["1 A"; "2 B"] weekday_and_other "unknown")) 4 3
  = [Text "2 B"; Text ""; Text ""] /\
  row_values (fst (write_to_excel ["1 A"] weekday_only "unknown")) 4 3
  = [Text "Total"; SumFormula 2 3 3; SumFormula 3 3 3].
Proof.
  split; [|split].
  - unfold iterates. vm_compute. reflexivity.
  - unfold iterates. vm_compute. reflexivity.
  - split; [|vm_compute; repeat split; reflexivity].
    simpl. intros [H | [H | [H | []]]]; discriminate.
Qed.

(* ===================================================================== *)
(** * More on extraction *)
(* ===================================================================== *)

Lemma for_each_app {S A} (body : S -> A -> result S) (xs ys : list A) (s : S) :
  for_each body (xs ++ ys)%list s
  = match for_each body xs s with
    | Ok s' => for_each body ys s'
    | Raise e => Raise e
    end.
Proof.
  revert s. induction xs as [|x xs IH]; intros s; simpl; [reflexivity|].
  destruct (body s x); [apply IH | reflexivity].
Qed.

(** An invariant of the state of a loop is an invariant of its result,
    and the exceptions of the loop are those of its body. *)
Lemma for_each_invariant {S A} (P : S -> Prop) (Q : exn -> Prop)
    (body : S -> A -> result S) (xs : list A) (s : S) :
  (forall s x, In x xs -> P s ->
     match body s x with Ok s' => P s' | Raise e => Q e end) ->
  P s ->
  match for_each body xs s with Ok s' => P s' | Raise e => Q e end.
Proof.
  revert s. induction xs as [|x xs IH]; intros s Hbody Hs; simpl; [exact Hs|].
  pose proof (Hbody s x (or_introl eq_refl) Hs) as Hx.
  destruct (body s x) as [s'|e]; [|exact Hx].
  apply IH; [|exact Hx]. intros s0 y Hy. apply Hbody. now right.
Qed.

Lemma update_all_invariant {K V} (P P' : K -> V -> Prop) (Q : exn -> Prop)
    (f : K -> V -> result V) (d : dict K V) :
  (forall k v, P k v -> match f k v with Ok v' => P' k v' | Raise e => Q e end) ->
  Forall (fun kv => P (fst kv) (snd kv)) d ->
  match update_all f d with
  | Ok d' => Forall (fun kv => P' (fst kv) (snd kv)) d'
  | Raise e => Q e
  end.
Proof.
  intros Hf. induction 1 as [|[k v] d Hkv _ IH]; simpl; [constructor|].
  specialize (Hf k v Hkv). destruct (f k v) as [v'|e]; [|exact Hf].
  destruct (update_all f d) as [d'|e]; [|exact IH].
  constructor; [exact Hf | exact IH].
Qed.

Section DictMore.
Context {K V : Type} `{EqDecision K}.
Implicit Types (d : dict K V) (k : K) (v : V).

Lemma keys_set_In k v d : In k (keys d) -> keys (set k v d) = keys d.
Proof.
  induction d as [|[k' v'] d IH]; simpl; [tauto|].
  destruct (decide (k = k')) as [->|Hne]; simpl; [reflexivity|].
  intros [Heq | Hin]; [congruence|]. now rewrite IH.
Qed.

Lemma get_In k d v : get k d = Some v -> In (k, v) d.
Proof.
  induction d as [|[k' v'] d IH]; simpl; [discriminate|].
  destruct (decide (k = k')) as [->|]; [intros [= ->]; now left | right; auto].
Qed.

Lemma get_of_keys k d : In k (keys d) -> exists v, get k d = Some v.
Proof.
  induction d as [|[k' v'] d IH]; simpl; [tauto|].
  destruct (decide (k = k')) as [->|Hne]; [eauto|].
  intros [Heq | Hin]; [congruence | auto].
Qed.

Lemma Forall_set (P : K -> V -> Prop) k v d :
  P k v -> Forall (fun kv => P (fst kv) (snd kv)) d ->
  Forall (fun kv => P (fst kv) (snd kv)) (set k v d).
Proof.
  intros Hkv. induction 1 as [|[k' v'] d Hx Hd IH]; simpl.
  - repeat constructor. exact Hkv.
  - destruct (decide (k = k')); constructor; auto.
Qed.

Lemma set_get_id k v d : get k d = Some v -> set k v d = d.
Proof.
  induction d as [|[k' v'] d IH]; simpl; [discriminate|].
  destruct (decide (k = k')) as [->|]; [now intros [= ->] | intros H; now rewrite IH].
Qed.

Lemma set_set k v v' d : set k v (set k v' d) = set k v d.
Proof.
  induction d as [|[k0 v0] d IH]; simpl.
  - now rewrite decide_True.
  - destruct (decide (k = k0)) as [->|Hne]; simpl.
    + now rewrite decide_True.
    + rewrite decide_False by exact Hne. now rewrite IH.
Qed.

End DictMore.

(** ** The exceptions of extraction *)

Lemma of_int_raise n e : PyFloat.of_int n = Raise e -> e = OverflowError.
Proof. unfold PyFloat.of_int. destruct (PyFloat.is_infinite _); congruence. Qed.

Lemma int_truediv_raise a b e :
  b <> 0 -> PyFloat.int_truediv a b = Raise e -> e = OverflowError.
Proof.
  intros Hb. unfold PyFloat.int_truediv.
  destruct (Z.eqb_spec b 0); [contradiction|].
  destruct (PyFloat.is_infinite _); congruence.
Qed.

Lemma int_of_group_raise n gs e : int_of_group n gs = Raise e -> e = ValueError.
Proof. unfold int_of_group. destruct (PyStr.within_int_limit _); congruence. Qed.

Lemma parse_time_string_raise (s : string) e :
  parse_time_string s = Raise e -> conversion_error e.
Proof.
  unfold parse_time_string. destruct (Re.match_ time_re s) as [gs|]; [|discriminate].
  destruct (int_of_group 1 gs) as [hours|e1] eqn:Hhours; simpl;
    [|intros [= <-]; right; eapply int_of_group_raise, Hhours].
  destruct (int_of_group 2 gs) as [minutes|e2] eqn:Hminutes; simpl;
    [|intros [= <-]; right; eapply int_of_group_raise, Hminutes].
  destruct (PyFloat.int_truediv minutes 60) as [q|e3] eqn:Hq; simpl.
  - destruct (PyFloat.of_int hours) as [h|e4] eqn:Hh; simpl; [discriminate|].
    intros [= <-]. left. eapply of_int_raise, Hh.
  - intros [= <-]. left. eapply int_truediv_raise, Hq. lia.
Qed.

Lemma halve_raise v e : halve v = Raise e -> e = OverflowError.
Proof.
  unfold halve, truediv. destruct v as [a|x].
  - destruct (PyFloat.int_truediv a 2) eqn:Hq; simpl; [discriminate|].
    intros [= <-]. eapply int_truediv_raise, Hq. lia.
  - discriminate.
Qed.

Lemma to_float_raise v e : to_float v = Raise e -> e = OverflowError.
Proof. destruct v; simpl; [apply of_int_raise | discriminate]. Qed.

Lemma finish_route_raise route r e : finish_route route r = Raise e -> e = OverflowError.
Proof.
  unfold finish_route, set_revenue_hours.
  destruct (to_float (default (VInt 0) (get "In Service Duration" r))) as [a|] eqn:Ha; simpl;
    [|intros [= <-]; eapply to_float_raise, Ha].
  destruct (to_float (default (VInt 0) (get "Layover Duration" r))) as [b|] eqn:Hb; simpl;
    [|intros [= <-]; eapply to_float_raise, Hb].
  destruct (is_senior_shopper route); [|discriminate].
  intros H.
  pose proof (update_all_invariant (fun _ _ => True) (fun _ _ => True)
                (fun e => e = OverflowError) (fun _ v => halve v)
                (set "Revenue Hours" (VFloat (PyFloat.round2 (PyFloat.add a b))) r)) as Hinv.
  rewrite H in Hinv. apply Hinv.
  - intros _ v _. destruct (halve v) eqn:Hv; [exact I | eapply halve_raise, Hv].
  - apply Forall_forall. auto.
Qed.

Lemma new_record_complete : complete new_record.
Proof. reflexivity. Qed.

Lemma field_name_In (field : string * option Re.pattern) :
  In field data_fields -> In (fst field) field_names.
Proof. intros H. unfold field_names. apply in_map_iff. eauto. Qed.

Lemma complete_set (r : record) (field_name : string) (v : value) :
  complete r -> In field_name field_names -> complete (set field_name v r).
Proof.
  unfold complete. intros Hr Hin. rewrite keys_set_In; [exact Hr|]. now rewrite Hr.
Qed.

(** One field of one line keeps the scan sound and raises nothing but
    OverflowError or ValueError. *)
Lemma scan_field_sound (l route : string) (d : dict string record)
    (field : string * option Re.pattern) :
  In field data_fields ->
  (exists r, get route d = Some r) /\ Forall (fun kv => complete (snd kv)) d ->
  match scan_field l route d field with
  | Ok d' => (exists r, get route d' = Some r) /\ Forall (fun kv => complete (snd kv)) d'
  | Raise e => conversion_error e
  end.
Proof.
  intros Hin [[r Hr] Hd]. destruct field as [field_name [re|]]; simpl; [|eauto].
  destruct (Re.search re l) as [gs|]; [|eauto].
  assert (Hstore : forall v,
    match (match get route d with
           | Some r0 => Ok (set route (set field_name v r0) d)
           | None => Raise KeyError
           end) with
    | Ok d' => (exists r, get route d' = Some r) /\ Forall (fun kv => complete (snd kv)) d'
    | Raise e => conversion_error e
    end).
  { intros v. rewrite Hr. split; [rewrite get_set_eq; eauto|].
    apply (Forall_set (fun _ r0 => complete r0)); [|exact Hd].
    apply complete_set; [|now apply (field_name_In (field_name, Some re))].
    apply get_In in Hr. rewrite Forall_forall in Hd. apply (Hd (route, r)).
    now apply list_elem_of_In. }
  destruct (is_duration_field field_name); simpl.
  - destruct (parse_time_string _) as [x|e] eqn:Hx; simpl; [apply Hstore|].
    eapply parse_time_string_raise, Hx.
  - apply Hstore.
Qed.

Lemma scan_line_sound (st : scan_state) (l : string) :
  scan_sound st ->
  match scan_line st l with
  | Ok st' => scan_sound st'
  | Raise e => conversion_error e
  end.
Proof.
  intros [Hcur Hd]. unfold scan_line.
  destruct (Re.match_ route_re l) as [gs|].
  - split; simpl; [rewrite get_set_eq; eauto|].
    apply (Forall_set (fun _ r0 => complete r0)); [apply new_record_complete | exact Hd].
  - destruct (current_route st) as [route|] eqn:Hroute; [|split; [now rewrite Hroute | exact Hd]].
    destruct (String.eqb route ""); [split; [now rewrite Hroute | exact Hd]|].
    pose proof (for_each_invariant
                  (fun d => (exists r, get route d = Some r) /\
                            Forall (fun kv => complete (snd kv)) d)
                  conversion_error
                  (scan_field l route) data_fields (data st)) as Hinv.
    destruct (for_each (scan_field l route) data_fields (data st)) as [d|e]; simpl.
    + apply Hinv; [|auto]. intros d0 field Hin Hd0. now apply scan_field_sound.
    + apply Hinv; [|auto]. intros d0 field Hin Hd0. now apply scan_field_sound.
Qed.

Lemma scan_lines_sound (lines : list string) :
  match for_each scan_line lines {| data := []; current_route := None |} with
  | Ok st => scan_sound st
  | Raise e => conversion_error e
  end.
Proof.
  apply (for_each_invariant scan_sound conversion_error).
  - intros st l _. apply scan_line_sound.
  - split; simpl; [exact I | constructor].
Qed.

Lemma finish_route_complete route (r r' : record) :
  complete r -> finish_route route r = Ok r' -> complete r'.
Proof.
  intros Hr (r1 & Hr1 & Hfin)%finish_route_ok.
  assert (complete r1).
  { unfold set_revenue_hours in Hr1.
    destruct (to_float (default (VInt 0) (get "In Service Duration" r))); [|discriminate].
    destruct (to_float (default (VInt 0) (get "Layover Duration" r))); [|discriminate].
    simpl in Hr1. injection Hr1 as <-. apply complete_set; [exact Hr|].
    unfold field_names. simpl. tauto. }
  destruct (is_senior_shopper route); [|now subst].
  destruct Hfin as [Hkeys _]. unfold complete. now rewrite Hkeys.
Qed.

Lemma extract_data_sound (lines : list string) :
  match extract_data lines with
  | Ok (_, d) => Forall (fun kv => complete (snd kv)) d
  | Raise e => conversion_error e
  end.
Proof.
  unfold extract_data. pose proof (scan_lines_sound lines) as Hscan.
  destruct (for_each scan_line lines _) as [st|e]; simpl; [|exact Hscan].
  destruct Hscan as [_ Hd].
  pose proof (update_all_invariant (fun _ r => complete r) (fun _ r => complete r)
                conversion_error finish_route (data st)) as Hinv.
  destruct (update_all finish_route (data st)) as [d|e]; simpl; apply Hinv; auto.
  - intros k v Hv. destruct (finish_route k v) eqn:Hf;
      [eapply finish_route_complete; eauto | left; eapply finish_route_raise, Hf].
  - intros k v Hv. destruct (finish_route k v) eqn:Hf;
      [eapply finish_route_complete; eauto | left; eapply finish_route_raise, Hf].
Qed.

(** X1.  Once the lines are read, [extract_data] returns, or raises
    OverflowError (a number too large for a float) or ValueError (a
    duration with more than 4300 digits in its hours or minutes): neither
    the lookup of the current route (KeyError) nor a division
    (ZeroDivisionError) can fail. *)
Theorem extract_data_exceptions (lines : list string) :
  (exists bc d, extract_data lines = Ok (bc, d)) \/
  extract_data lines = Raise OverflowError \/
  extract_data lines = Raise ValueError.
Proof.
  pose proof (extract_data_sound lines) as H.
  destruct (extract_data lines) as [[bc d]|e]; [left; eauto | right].
  destruct H as [-> | ->]; auto.
Qed.

(** Both exceptions occur: ValueError on a duration of 4301 digits of
    hours, OverflowError on a block count of 400 digits that is halved. *)
Lemma extract_data_raises :
  extract_data [ line "Route 1 A";
                 line ("In-service duration: " ++ replicate_char 4300 "0" ++ "3h45") ]
  = Raise ValueError /\
  extract_data [ line "Route 65 Senior Shopper";
                 line ("Number of blocks: " ++ replicate_char 400 "7") ]
  = Raise OverflowError.
Proof. split; vm_compute; reflexivity. Qed.

(** X2.  Every record returned by [extract_data] has exactly the nine
    fields of [data_fields], in that order. *)
Theorem extract_data_records_complete (lines : list string) bc (d : dict string record)
    (route : string) (r : record) :
  extract_data lines = Ok (bc, d) -> get route d = Some r ->
  keys r = field_names /\ forall field, In field field_names -> exists v, get field r = Some v.
Proof.
  intros Hx Hget. pose proof (extract_data_sound lines) as H. rewrite Hx in H.
  rewrite Forall_forall in H. apply get_In, list_elem_of_In in Hget.
  specialize (H _ Hget). simpl in H. split; [exact H|].
  intros field Hin. apply get_of_keys. unfold complete in H. now rewrite H.
Qed.

Lemma extract_data_records_complete_end_to_end :
  keys end_to_end_record = field_names.
Proof.
  apply (extract_data_records_complete end_to_end_lines "4821"
           [("65 Senior Shopper", end_to_end_record)] "65 Senior Shopper" end_to_end_record);
    vm_compute; reflexivity.
Defined.

(** ** Lines before the first route header *)

Lemma scan_preamble (pre : list string) :
  Forall no_route_header pre ->
  for_each scan_line pre {| data := []; current_route := None |}
  = Ok {| data := []; current_route := None |}.
Proof.
  induction 1 as [|l pre Hl _ IH]; simpl; [reflexivity|].
  unfold scan_line at 1. unfold no_route_header in Hl. rewrite Hl. simpl. exact IH.
Qed.

(** X3.  Lines before the first route header add nothing to the records:
    with or without them the result is the same, but for the booking
    identifier, which is looked up in all the lines. *)
Theorem lines_before_first_route_ignored (pre lines : list string) :
  Forall no_route_header pre ->
  extract_data (pre ++ lines)%list
  = match extract_data lines with
    | Ok (_, d) => Ok (extract_booking_code (pre ++ lines)%list, d)
    | Raise e => Raise e
    end.
Proof.
  intros Hpre. unfold extract_data. rewrite for_each_app, (scan_preamble pre Hpre).
  destruct (for_each scan_line lines _) as [st|e]; simpl; [|reflexivity].
  destruct (update_all finish_route (data st)); reflexivity.
Qed.

Lemma lines_before_first_route_ignored_example :
  extract_data (preamble_lines ++ one_route_lines)%list
  = match extract_data one_route_lines with
    | Ok (_, d) => Ok (extract_booking_code (preamble_lines ++ one_route_lines)%list, d)
    | Raise e => Raise e
    end.
Proof.
  apply (lines_before_first_route_ignored preamble_lines one_route_lines).
  repeat constructor.
Defined.

(** ** The block of a route *)

Lemma scan_field_record (l route : string) (d : dict string record) (r : record)
    (field : string * option Re.pattern) :
  get route d = Some r ->
  scan_field l route d field
  = match record_field l r field with
    | Ok r' => Ok (set route r' d)
    | Raise e => Raise e
    end.
Proof.
  intros Hr. destruct field as [field_name [re|]]; simpl;
    [|now rewrite (set_get_id _ _ _ Hr)].
  destruct (Re.search re l) as [gs|]; [|now rewrite (set_get_id _ _ _ Hr)].
  destruct (is_duration_field field_name); simpl.
  - destruct (parse_time_string _); simpl; [now rewrite Hr | reflexivity].
  - now rewrite Hr.
Qed.

Lemma scan_fields_record (l route : string) (fields : list (string * option Re.pattern))
    (d : dict string record) (r : record) :
  get route d = Some r ->
  for_each (scan_field l route) fields d
  = match for_each (record_field l) fields r with
    | Ok r' => Ok (set route r' d)
    | Raise e => Raise e
    end.
Proof.
  revert d r. induction fields as [|field fields IH]; intros d r Hr; simpl.
  - now rewrite (set_get_id _ _ _ Hr).
  - rewrite (scan_field_record _ _ _ _ _ Hr).
    destruct (record_field l r field) as [r1|e]; [|reflexivity].
    rewrite (IH (set route r1 d) r1) by apply get_set_eq.
    destruct (for_each (record_field l) fields r1); [|reflexivity].
    now rewrite set_set.
Qed.

(** Below a header, up to the next one, the lines change the record of
    the current route and nothing else. *)
Lemma scan_block (block : list string) (route : string) (d : dict string record) (r : record) :
  Forall no_route_header block -> route <> "" -> get route d = Some r ->
  for_each scan_line block {| data := d; current_route := Some route |}
  = match for_each record_line block r with
    | Ok r' => Ok {| data := set route r' d; current_route := Some route |}
    | Raise e => Raise e
    end.
Proof.
  intros Hblock Hroute. revert d r.
  induction Hblock as [|l block Hl _ IH]; intros d r Hr; cbn [for_each].
  - now rewrite (set_get_id _ _ _ Hr).
  - unfold scan_line at 1. unfold no_route_header in Hl. rewrite Hl.
    cbn [current_route data]. apply String.eqb_neq in Hroute. rewrite Hroute.
    rewrite (scan_fields_record _ _ _ _ _ Hr). unfold record_line at 1.
    destruct (for_each (record_field l) data_fields r) as [r1|e]; cbn [mbind result_bind];
      [|reflexivity].
    rewrite (IH (set route r1 d) r1) by apply get_set_eq.
    destruct (for_each record_line block r1); [|reflexivity].
    now rewrite set_set.
Qed.

Lemma route_of_groups_nonempty gs : route_of_groups gs <> "".
Proof. unfold route_of_groups. destruct (Re.group 1 gs); discriminate. Qed.

Lemma update_all_single {K V} `{EqDecision K} (f : K -> V -> result V) (d d' : dict K V)
    (k : K) (v : V) :
  update_all f d = Ok d' -> get k d = Some v ->
  exists v', update_all f [(k, v)] = Ok [(k, v')] /\ get k d' = Some v'.
Proof.
  intros Hd Hget. destruct (update_all_get_ok _ _ _ _ _ Hd Hget) as (v' & Hf & Hget').
  exists v'. simpl. now rewrite Hf.
Qed.

(** X4.  The record of the route whose header comes last depends on the
    lines from that header on only: the lines above it, an earlier block
    of the same route included, leave no trace in it. *)
Theorem last_block_alone (above : list string) (header : string) (block : list string)
    gs bc (d : dict string record) :
  Re.match_ route_re header = Some gs -> Forall no_route_header block ->
  extract_data (above ++ header :: block)%list = Ok (bc, d) ->
  exists bc' r,
    extract_data (header :: block) = Ok (bc', [(route_of_groups gs, r)]) /\
    get (route_of_groups gs) d = Some r.
Proof.
  intros Hheader Hblock. unfold extract_data. rewrite for_each_app.
  destruct (for_each scan_line above _) as [st1|]; [|discriminate].
  cbn [for_each]. unfold scan_line at 1 3. rewrite Hheader. fold (route_of_groups gs).
  set (route := route_of_groups gs).
  rewrite (scan_block block route _ new_record Hblock (route_of_groups_nonempty gs)
             (get_set_eq _ _ _)).
  rewrite (scan_block block route _ new_record Hblock (route_of_groups_nonempty gs)
             (get_set_eq _ _ _)).
  destruct (for_each record_line block new_record) as [r'|]; [|discriminate]. simpl.
  rewrite set_set. rewrite decide_True by reflexivity.
  destruct (update_all finish_route (set route r' (data st1))) as [d'|] eqn:Hd; [|discriminate].
  simpl. intros [= _ <-].
  destruct (update_all_single _ _ _ route r' Hd (get_set_eq _ _ _)) as (r & Hone & Hget).
  simpl in Hone. destruct (finish_route route r') as [r0|]; [|discriminate].
  injection Hone as <-. simpl. eauto.
Qed.

Lemma last_block_alone_example :
  exists bc' r,
    extract_data [line "Route 3 Oak"; line "Number of blocks: 1"]
    = Ok (bc', [("3 Oak", r)]) /\
    get "3 Oak" [("7 Elm St", set "Trips" (VInt 8) (set "Blocks" (VInt 4) new_record));
                 ("3 Oak", set "Blocks" (VInt 1) new_record)] = Some r.
Proof.
  apply (last_block_alone
           [line "Route 7 Elm St"; line "Number of blocks: 4"; line "Number of in-service trips: 8"]
           (line "Route 3 Oak") [line "Number of blocks: 1"] ["3"; "Oak"] "unknown").
  - vm_compute. reflexivity.
  - repeat constructor.
  - vm_compute. reflexivity.
Defined.

(** ** Numbers *)

Section Numbers.
Import PyStr.

Lemma count_chars_app p (a b : string) :
  count_chars p (a ++ b) = (count_chars p a + count_chars p b)%nat.
Proof. induction a as [|c a IH]; simpl; [reflexivity|]. rewrite IH. lia. Qed.

Lemma count_chars_le p q (s : string) :
  (forall c, p c = true -> q c = true) -> (count_chars p s <= count_chars q s)%nat.
Proof.
  intros Hpq. induction s as [|c s IH]; simpl; [lia|].
  destruct (p c) eqn:Hp; [rewrite (Hpq c Hp); lia | destruct (q c); lia].
Qed.

Lemma count_chars_none p q (s : string) :
  (forall c, q c = true -> p c = false) -> all_chars q s = true -> count_chars p s = 0%nat.
Proof.
  intros Hqp. induction s as [|c s IH]; simpl; [reflexivity|].
  intros [Hc Hs]%andb_true_iff. now rewrite (Hqp c Hc), IH.
Qed.

Lemma filter_chars_app p (a b : string) :
  filter_chars p (a ++ b) = filter_chars p a ++ filter_chars p b.
Proof.
  induction a as [|c a IH]; simpl; [reflexivity|].
  destruct (p c); simpl; now rewrite IH.
Qed.

Lemma filter_chars_all p (s : string) : all_chars p s = true -> filter_chars p s = s.
Proof.
  induction s as [|c s IH]; simpl; [reflexivity|].
  intros [Hc Hs]%andb_true_iff. now rewrite Hc, IH.
Qed.

Lemma point_not_digit c : is_point c = true -> is_digit c = false.
Proof.
  unfold is_point, is_digit, in_range. intros ->%Z.eqb_eq. reflexivity.
Qed.

Lemma digit_not_point c : is_digit c = true -> is_point c = false.
Proof.
  intros Hd. destruct (is_point c) eqn:Hp; [|reflexivity].
  apply point_not_digit in Hp. congruence.
Qed.

Lemma prefix_point c (s : string) : String.prefix "." (String c s) = is_point c.
Proof.
  change (String.prefix "." (String c s))
    with (if ascii_dec "." c then String.prefix "" s else false).
  destruct (ascii_dec "." c) as [<-|Hne]; [now destruct s|].
  symmetry. apply not_true_is_false. intros Hp. apply Hne.
  unfold is_point, code in Hp. apply Z.eqb_eq in Hp.
  rewrite <- (ascii_N_embedding c). change "."%char with (ascii_of_N 46). f_equal. lia.
Qed.

Lemma contains_point (s : string) :
  contains "." s = negb (count_chars is_point s =? 0)%nat.
Proof.
  induction s as [|c s IH]; [reflexivity|].
  cbn [contains count_chars]. rewrite prefix_point, IH.
  destruct (is_point c); simpl; [reflexivity|]. reflexivity.
Qed.

Lemma after_first_point (a b : string) :
  all_chars is_digit a = true -> after_first is_point (a ++ "." ++ b) = b.
Proof.
  induction a as [|c a IH]; simpl; [reflexivity|].
  intros [Hc Ha]%andb_true_iff. fold is_point. rewrite (digit_not_point c Hc). now apply IH.
Qed.

(** X5.  The conversion of a captured number never raises: a string of at
    most 4300 digits gives that [int]; a string of more than 4300 digits,
    which [int()] refuses, gives zero; digits around one point give the
    nearest float; two points or more, or a point alone, give zero. *)
Theorem parse_number_cases :
  (forall val : string,
      is_number val = true -> Z.of_nat (String.length val) <= max_str_digits ->
      parse_number val = VInt (digits_value 0 val)) /\
  (forall val : string,
      is_number val = true -> max_str_digits < Z.of_nat (String.length val) ->
      parse_number val = VInt 0) /\
  (forall a b : string,
      all_chars is_digit a = true -> all_chars is_digit b = true -> a ++ b <> "" ->
      parse_number (a ++ "." ++ b)
      = VFloat (PyFloat.nearest (digits_value 0 (a ++ b)) (10 ^ Z.of_nat (String.length b)))) /\
  (forall val : string,
      (2 <= count_chars is_point val)%nat -> parse_number val = VInt 0) /\
  parse_number "." = VInt 0.
Proof.
  split; [|split; [|split; [|split; [|reflexivity]]]].
  - intros val Hval Hlen. unfold parse_number. rewrite contains_point.
    apply is_number_spec in Hval as Hval'. destruct Hval' as [_ Hall].
    rewrite (count_chars_none is_point is_digit val digit_not_point Hall). simpl.
    unfold int_of_string, within_int_limit. rewrite Hval.
    destruct (Z.leb_spec (Z.of_nat (String.length val)) max_str_digits); [reflexivity | lia].
  - intros val Hval Hlen. unfold parse_number. rewrite contains_point.
    apply is_number_spec in Hval as Hval'. destruct Hval' as [_ Hall].
    rewrite (count_chars_none is_point is_digit val digit_not_point Hall). simpl.
    unfold int_of_string, within_int_limit. rewrite Hval.
    destruct (Z.leb_spec (Z.of_nat (String.length val)) max_str_digits); [lia | reflexivity].
  - intros a b Ha Hb Hne. unfold parse_number, PyFloat.of_string.
    assert (Hcount : forall p, (forall c, is_digit c = true -> p c = false) -> p "."%char = true ->
                     count_chars p (a ++ "." ++ b) = 1%nat).
    { intros p Hp Hpoint. rewrite !count_chars_app.
      rewrite (count_chars_none p is_digit a Hp Ha), (count_chars_none p is_digit b Hp Hb).
      simpl. now rewrite Hpoint. }
    rewrite contains_point, (Hcount is_point digit_not_point eq_refl).
    rewrite (Hcount (fun c => negb (is_digit c))) by (try reflexivity; now intros c ->).
    rewrite !filter_chars_app, (filter_chars_all _ a Ha), (filter_chars_all _ b Hb).
    simpl (filter_chars is_digit "."). change ("" ++ b) with b.
    destruct (String.eqb_spec (a ++ b) "") as [E|_]; [contradiction|]. simpl.
    change (fun c : ascii => code c =? 46) with is_point.
    change (a ++ String "." b) with (a ++ "." ++ b).
    now rewrite (after_first_point a b Ha).
  - intros val Hval. unfold parse_number. rewrite contains_point.
    destruct (count_chars is_point val =? 0)%nat eqn:E0; [apply Nat.eqb_eq in E0; lia|].
    simpl. unfold PyFloat.of_string.
    pose proof (count_chars_le is_point (fun c => negb (is_digit c)) val) as Hle.
    destruct (count_chars (fun c => negb (is_digit c)) val =? 1)%nat eqn:E1; [|reflexivity].
    apply Nat.eqb_eq in E1. rewrite E1 in Hle.
    assert (count_chars is_point val <= 1)%nat; [|lia].
    apply Hle. intros c Hc. now rewrite (point_not_digit c Hc).
Qed.

Lemma parse_number_cases_example :
  parse_number "12" = VInt 12 /\ parse_number "12.5" = VFloat (decimal 125 1).
Proof.
  destruct parse_number_cases as (Hint & _ & Hfloat & _). split.
  - apply (Hint "12"); [reflexivity | vm_compute; discriminate].
  - apply (Hfloat "12" "5"); [reflexivity | reflexivity | discriminate].
Defined.

(** A block count of 4301 digits is stored as 0, one of 4300 digits as
    written. *)
Lemma parse_number_at_limit :
  parse_number (replicate_char 4301 "7") = VInt 0 /\
  parse_number (replicate_char 4300 "7") = VInt (digits_value 0 (replicate_char 4300 "7")).
Proof. split; vm_compute; reflexivity. Qed.

End Numbers.

(** ** Uploads *)

Lemma app_cons_snoc_inv {A} (before : list A) (x : A) (after fs : list A) (y : A) :
  (before ++ x :: after)%list = (fs ++ [y])%list ->
  (after = [] /\ before = fs /\ x = y) \/
  (exists after', after = (after' ++ [y])%list /\ fs = (before ++ x :: after')%list).
Proof.
  destruct after as [|z after _] using rev_ind.
  - intros H. apply app_inj_tail in H as [-> ->]. now left.
  - intros H. right. exists after.
    change (before ++ x :: after ++ [z])%list with (before ++ (x :: after) ++ [z])%list in H.
    rewrite app_assoc in H. apply app_inj_tail in H as [<- ->]. auto.
Qed.

Lemma for_each_ingest_last (files : list (string * list string)) (all_data : dataset)
    (bc name : string) (d : dict string record) :
  for_each ingest files ([], "unknown") = Ok (all_data, bc) ->
  get name all_data = Some d <->
  exists before lines after c,
    files = (before ++ (name, lines) :: after)%list /\
    Forall (fun f => fst f <> name) after /\
    extract_data lines = Ok (c, d).
Proof.
  revert all_data bc. induction files as [|[n lines] fs IH] using rev_ind; intros all_data bc.
  - simpl. intros [= <- <-]. split; [discriminate|].
    intros (before & lines & after & c & H & _). now destruct before.
  - rewrite for_each_app.
    destruct (for_each ingest fs ([], "unknown")) as [[ad1 bc1]|]; [|discriminate].
    specialize (IH ad1 bc1 eq_refl). cbn [for_each]. unfold ingest.
    destruct (extract_data lines) as [[c0 d0]|] eqn:Hx; [|discriminate]. simpl.
    intros Had.
    assert (all_data = set n d0 ad1) as -> by (destruct (negb _ && _); congruence).
    clear Had. destruct (decide (n = name)) as [->|Hne].
    + rewrite get_set_eq. split.
      * intros [= <-]. exists fs, lines, [], c0. auto.
      * intros (before & l & after & c & Hsplit & Hafter & Hd).
        symmetry in Hsplit. apply app_cons_snoc_inv in Hsplit as [(-> & -> & [= ->]) | (after' & -> & _)].
        -- congruence.
        -- apply Forall_app in Hafter as [_ Hlast]. inversion Hlast; subst. simpl in *.
           congruence.
    + rewrite get_set_ne by exact Hne. rewrite IH. split.
      * intros (before & l & after & c & -> & Hafter & Hd).
        exists before, l, (after ++ [(n, lines)])%list, c. split; [|split; [|exact Hd]].
        -- now rewrite <- app_assoc.
        -- apply Forall_app. split; [exact Hafter|]. repeat constructor. exact Hne.
      * intros (before & l & after & c & Hsplit & Hafter & Hd).
        symmetry in Hsplit. apply app_cons_snoc_inv in Hsplit as [(-> & -> & [= -> _]) | (after' & -> & ->)].
        -- congruence.
        -- apply Forall_app in Hafter as [Hafter _]. eauto 8.
Qed.

(** X6.  After the upload loop, a file name holds the data extracted
    from the last uploaded file of that name (an earlier upload of the
    same name is replaced), and a name that was not uploaded holds
    nothing. *)
Theorem uploads_last_wins (files : list (string * list string)) (all_data : dataset)
    (bc name : string) (d : dict string record) :
  process_uploads files = Ok (all_data, bc) ->
  get name all_data = Some d <->
  exists before lines after c,
    files = (before ++ (name, lines) :: after)%list /\
    Forall (fun f => fst f <> name) after /\
    extract_data lines = Ok (c, d).
Proof. apply for_each_ingest_last. Qed.

Lemma uploads_last_wins_example :
  get "SAT Stats.prt" two_uploads_data = Some [("1 A", new_record)] <->
  exists before lines after c,
    two_uploads = (before ++ ("SAT Stats.prt", lines) :: after)%list /\
    Forall (fun f => fst f <> "SAT Stats.prt") after /\
    extract_data lines = Ok (c, [("1 A", new_record)]).
Proof.
  apply (uploads_last_wins two_uploads two_uploads_data "77").
  vm_compute. reflexivity.
Defined.

(** ** The suggested file name *)

Lemma first_known_shape (codes : list string) :
  Forall booking_code_shape codes -> booking_code_shape (first_known codes).
Proof.
  induction 1 as [|c codes Hc _ IH]; simpl; [now left|].
  destruct (String.eqb_spec c "unknown"); [exact IH | exact Hc].
Qed.

Lemma booking_codes_shape (files : list (string * list string)) :
  Forall booking_code_shape (booking_codes files).
Proof.
  unfold booking_codes. apply Forall_forall. intros c Hc.
  apply list_elem_of_In, in_map_iff in Hc as (f & <- & _).
  apply extract_booking_code_cases.
Qed.

Lemma write_to_excel_name order all_data bc :
  snd (write_to_excel order all_data bc)
  = safe_booking_code bc ++ " - Vehicle Schedule Overview.xlsx".
Proof. unfold write_to_excel. now destruct (write_body order all_data). Qed.

(** X7.  The booking identifier kept by the upload loop is "unknown" or
    a string of digits, and the suggested file name starts with "Unknown"
    in the first case and with the digits in the second. *)
Theorem download_name (files : list (string * list string)) (all_data : dataset)
    (bc : string) (order : list string) :
  process_uploads files = Ok (all_data, bc) ->
  (bc = "unknown" /\
   snd (write_to_excel order all_data bc) = "Unknown - Vehicle Schedule Overview.xlsx") \/
  (PyStr.is_number bc = true /\
   snd (write_to_excel order all_data bc) = bc ++ " - Vehicle Schedule Overview.xlsx").
Proof.
  intros H. apply for_each_ingest in H. simpl in H. rewrite write_to_excel_name.
  destruct (first_known_shape _ (booking_codes_shape files)) as [Hu | Hn]; rewrite <- H in *.
  - left. split; [exact Hu|]. now rewrite Hu.
  - right. split; [exact Hn|]. unfold safe_booking_code.
    apply is_number_spec in Hn as Hn'. destruct Hn' as [_ Hall].
    rewrite (lower_digits _ Hall).
    destruct (String.eqb_spec bc "unknown") as [->|_]; [discriminate | reflexivity].
Qed.

Lemma download_name_example :
  (("77" : string) = "unknown" /\
   snd (write_to_excel ["1 A"] two_uploads_data "77")
   = "Unknown - Vehicle Schedule Overview.xlsx") \/
  (PyStr.is_number "77" = true /\
   snd (write_to_excel ["1 A"] two_uploads_data "77")
   = "77" ++ " - Vehicle Schedule Overview.xlsx").
Proof.
  apply (download_name two_uploads two_uploads_data "77" ["1 A"]).
  vm_compute. reflexivity.
Defined.

(** ** Uploaded data in the grid *)

Lemma ingest_complete (st : dataset * string) (file : string * list string) :
  dataset_complete (fst st) ->
  match ingest st file with
  | Ok st' => dataset_complete (fst st')
  | Raise _ => True
  end.
Proof.
  destruct st as [all_data acc], file as [name lines]. simpl. intros Had.
  pose proof (extract_data_sound lines) as Hx.
  destruct (extract_data lines) as [[c d]|]; simpl; [|exact I].
  assert (dataset_complete (set name d all_data)).
  { apply (Forall_set (fun _ d0 => Forall (fun kr => complete (snd kr)) d0)); assumption. }
  now destruct (negb _ && _).
Qed.

Lemma process_uploads_complete (files : list (string * list string)) all_data bc :
  process_uploads files = Ok (all_data, bc) -> dataset_complete all_data.
Proof.
  unfold process_uploads. intros H.
  pose proof (for_each_invariant (fun st => dataset_complete (fst st)) (fun _ => True)
                ingest files ([], "unknown")) as Hinv.
  rewrite H in Hinv. apply Hinv; [|constructor].
  intros st file _. apply ingest_complete.
Qed.

(** X8.  In a grid built from uploaded files, the cell of a field of a
    route in the block of a file that has the route always holds a
    number, the one of the route's record: the empty text is for routes
    the file does not have. *)
Theorem uploaded_cells_are_numbers (files : list (string * list string)) (all_data : dataset)
    (bc : string) (order : list string) (i : nat) (route : string) (k : nat) (f : string)
    (d : dict string record) (r : record) (j : nat) (field : string) :
  process_uploads files = Ok (all_data, bc) ->
  kept_routes order !! i = Some route ->
  file_order !! k = Some f -> get f all_data = Some d -> get route d = Some r ->
  field_names !! j = Some field ->
  exists x, get field r = Some x /\
            cell_val (cells (fst (write_to_excel order all_data bc))
                        (3 + Z.of_nat i) (body_column k j)) = Number x.
Proof.
  intros Hfiles Hi Hk Hd Hr Hj.
  apply process_uploads_complete in Hfiles. unfold dataset_complete in Hfiles.
  rewrite Forall_forall in Hfiles.
  pose proof (Hfiles (f, d) (proj2 (list_elem_of_In _ _) (get_In _ _ _ Hd))) as Hrecs.
  simpl in Hrecs. rewrite Forall_forall in Hrecs.
  pose proof (Hrecs (route, r) (proj2 (list_elem_of_In _ _) (get_In _ _ _ Hr))) as Hcomplete.
  simpl in Hcomplete. unfold complete in Hcomplete.
  destruct (get_of_keys field r) as [x Hx].
  { rewrite Hcomplete. apply list_elem_of_In. eapply list_elem_of_lookup_2, Hj. }
  exists x. split; [exact Hx|].
  destruct (write_to_excel_rows order all_data bc) as [_ Hrows].
  destruct (Hrows i route Hi) as [_ Hcells].
  rewrite (Hcells k f d j field Hk Hd Hj). unfold lookup_value. now rewrite Hr, Hx.
Qed.

Lemma uploaded_cells_are_numbers_example :
  exists x, get "Blocks" (set "Blocks" (VInt 2) new_record) = Some x /\
            cell_val (cells (fst (write_to_excel ["1 A"] two_uploads_data "77"))
                        (3 + Z.of_nat 0) (body_column 0 0)) = Number x.
Proof.
  apply (uploaded_cells_are_numbers two_uploads two_uploads_data "77" ["1 A"]
           0 "1 A" 0 "WDY Stats.prt" [("1 A", set "Blocks" (VInt 2) new_record)]);
    vm_compute; reflexivity.
Defined.

(* ===================================================================== *)
(** * More on the grid *)
(* ===================================================================== *)

Lemma set_value_cell row col v ws :
  cells (set_value row col v ws) row col = mk_cell v (cell_fill (cells ws row col)).
Proof. simpl. now rewrite !Z.eqb_refl. Qed.

Lemma set_fill_cell row col color ws :
  cells (set_fill row col color ws) row col = mk_cell (cell_val (cells ws row col)) (Some color).
Proof. simpl. now rewrite !Z.eqb_refl. Qed.

(** ** Whole cells of a body row *)

Lemma block_step_cell d route row_idx col_offset ws idx field :
  cells (block_step d route row_idx col_offset ws (idx, field)) row_idx (col_offset + idx)
  = mk_cell (lookup_value d route (fst field))
      (if String.eqb (fst field) "Revenue Hours" then Some revenue_fill
       else cell_fill (cells ws row_idx (col_offset + idx))).
Proof.
  unfold block_step. destruct (String.eqb (fst field) "Revenue Hours").
  - rewrite set_fill_cell, set_value_cell. reflexivity.
  - apply set_value_cell.
Qed.

Lemma block_fold_cell d route row_idx col_offset fields start ws (j : nat) field :
  fields !! j = Some field ->
  cells (fold_left (block_step d route row_idx col_offset) (enumerate start fields) ws)
    row_idx (col_offset + start + Z.of_nat j)
  = mk_cell (lookup_value d route (fst field))
      (if String.eqb (fst field) "Revenue Hours" then Some revenue_fill
       else cell_fill (cells ws row_idx (col_offset + start + Z.of_nat j))).
Proof.
  revert start ws j. induction fields as [|f fields IH]; intros start ws j Hj; [discriminate|].
  cbn [enumerate fold_left]. destruct j as [|j]; simpl in Hj.
  - injection Hj as ->. rewrite block_fold_other by lia.
    replace (col_offset + start + Z.of_nat 0) with (col_offset + start) by lia.
    apply block_step_cell.
  - replace (col_offset + start + Z.of_nat (S j)) with (col_offset + (start + 1) + Z.of_nat j)
      by lia.
    rewrite (IH _ _ _ Hj). rewrite block_step_other by lia. reflexivity.
Qed.

Lemma write_block_cell d route row_idx col_offset ws (j : nat) field :
  field_names !! j = Some field ->
  cells (write_block d route row_idx col_offset ws) row_idx (col_offset + Z.of_nat j)
  = mk_cell (lookup_value d route field)
      (if String.eqb field "Revenue Hours" then Some revenue_fill
       else cell_fill (cells ws row_idx (col_offset + Z.of_nat j))).
Proof.
  intros Hj. unfold field_names in Hj.
  change (map fst data_fields) with (fst <$> data_fields) in Hj.
  apply list_lookup_fmap_Some in Hj as (fld & -> & Hj).
  unfold write_block.
  replace (col_offset + Z.of_nat j) with (col_offset + 0 + Z.of_nat j) by lia.
  now apply block_fold_cell.
Qed.

Lemma file_fold_cell all_data route row_idx files start ws (k : nat) f d (j : nat) field :
  files !! k = Some f -> get f all_data = Some d -> field_names !! j = Some field ->
  cells (fold_left (file_step all_data route row_idx) (enumerate start files) ws)
    row_idx (2 + (start + Z.of_nat k) * n_fields + Z.of_nat j)
  = mk_cell (lookup_value d route field)
      (if String.eqb field "Revenue Hours" then Some revenue_fill
       else cell_fill (cells ws row_idx (2 + (start + Z.of_nat k) * n_fields + Z.of_nat j))).
Proof.
  intros Hk Hd Hj. pose proof (field_names_lt _ _ Hj) as Hlt. rewrite n_fields_9 in *.
  revert start ws k Hk. induction files as [|f0 files IH]; intros start ws k Hk; [discriminate|].
  cbn [enumerate fold_left]. destruct k as [|k]; simpl in Hk.
  - injection Hk as ->. rewrite file_fold_other by (rewrite n_fields_9; lia).
    unfold file_step. rewrite Hd, n_fields_9.
    replace (2 + (start + Z.of_nat 0) * 9) with (2 + start * 9) by lia.
    now apply write_block_cell.
  - replace (2 + (start + Z.of_nat (S k)) * 9) with (2 + (start + 1 + Z.of_nat k) * 9) by lia.
    rewrite (IH _ _ _ Hk). unfold file_step.
    destruct (get f0 all_data); [|reflexivity].
    rewrite write_block_other by (rewrite n_fields_9; lia). reflexivity.
Qed.

Lemma file_fold_absent all_data route row_idx files start ws (k : nat) f (j : nat) :
  files !! k = Some f -> get f all_data = None -> Z.of_nat j < n_fields ->
  cells (fold_left (file_step all_data route row_idx) (enumerate start files) ws)
    row_idx (2 + (start + Z.of_nat k) * n_fields + Z.of_nat j)
  = cells ws row_idx (2 + (start + Z.of_nat k) * n_fields + Z.of_nat j).
Proof.
  intros Hk Hf Hlt. rewrite n_fields_9 in *.
  revert start ws k Hk. induction files as [|f0 files IH]; intros start ws k Hk; [discriminate|].
  cbn [enumerate fold_left]. destruct k as [|k]; simpl in Hk.
  - injection Hk as ->. rewrite file_fold_other by (rewrite n_fields_9; lia).
    unfold file_step. now rewrite Hf.
  - replace (2 + (start + Z.of_nat (S k)) * 9) with (2 + (start + 1 + Z.of_nat k) * 9) by lia.
    rewrite (IH _ _ _ Hk). unfold file_step.
    destruct (get f0 all_data); [|reflexivity].
    apply write_block_other. rewrite n_fields_9. lia.
Qed.

Lemma last_column_28 : last_column = 28.
Proof. reflexivity. Qed.

(** A route written on an empty row. *)
Lemma write_route_full all_data ws row_idx route :
  (forall c, cells ws row_idx c = empty_cell) ->
  full_row_of all_data (write_route all_data ws row_idx route) row_idx route.
Proof.
  intros Hempty. unfold write_route. repeat split.
  - rewrite file_fold_other by (rewrite n_fields_9; lia).
    rewrite set_value_cell, Hempty. reflexivity.
  - intros k f d j field Hk Hd Hj. unfold body_column, body_fill.
    replace (2 + Z.of_nat k * n_fields) with (2 + (0 + Z.of_nat k) * n_fields) by lia.
    rewrite (file_fold_cell _ _ _ _ _ _ _ _ _ _ _ Hk Hd Hj).
    rewrite set_value_other by (right; rewrite n_fields_9; lia). now rewrite Hempty.
  - intros k f j Hk Hf Hj. unfold body_column.
    replace (2 + Z.of_nat k * n_fields) with (2 + (0 + Z.of_nat k) * n_fields) by lia.
    rewrite (file_fold_absent _ _ _ _ _ _ _ _ _ Hk Hf Hj).
    rewrite set_value_other by (right; rewrite n_fields_9; lia). apply Hempty.
  - intros c Hc. rewrite last_column_28 in Hc.
    rewrite file_fold_other by (cbn [file_order length]; rewrite n_fields_9; lia).
    rewrite set_value_other by lia. apply Hempty.
Qed.

Lemma full_row_of_ext all_data ws ws' row row' route :
  (forall c, cells ws' row' c = cells ws row c) ->
  full_row_of all_data ws row route -> full_row_of all_data ws' row' route.
Proof.
  intros Heq (H1 & H2 & H3 & H4). repeat split.
  - now rewrite Heq.
  - intros k f d j field Hk Hd Hj. rewrite Heq. eauto.
  - intros k f j Hk Hf Hj. rewrite Heq. eauto.
  - intros c Hc. rewrite Heq. eauto.
Qed.

Lemma full_row_of_row_of all_data ws row route :
  full_row_of all_data ws row route -> cell_val (cells ws row 1) = Text route.
Proof. intros [H _]. now rewrite H. Qed.

(** ** Merged ranges are left alone below the headers *)

Lemma merged_write_route all_data ws row_idx route :
  merged (write_route all_data ws row_idx route) = merged ws.
Proof.
  unfold write_route, file_step. cbn [file_order enumerate fold_left].
  destruct (get "WDY Stats.prt" all_data), (get "SAT Stats.prt" all_data),
    (get "SUN Stats.prt" all_data); reflexivity.
Qed.

Lemma merged_write_totals all_data total_row_idx ws :
  merged (write_totals all_data total_row_idx ws) = merged ws.
Proof.
  unfold write_totals. cbn [file_order enumerate fold_left].
  destruct (mem "WDY Stats.prt" all_data), (mem "SAT Stats.prt" all_data),
    (mem "SUN Stats.prt" all_data); reflexivity.
Qed.

Lemma merged_remove_taxi st : merged (fst (remove_taxi st)) = merged (fst st).
Proof. destruct st as [ws n]. unfold remove_taxi. now destruct (find _ _). Qed.

(** ** The body rows, cell by cell *)

Lemma write_routes_full all_data (rows : list string) (ws : worksheet) (n0 : Z) ws' n' :
  empty_from ws n0 ->
  fold_left (route_step all_data) rows (ws, n0) = (ws', n') ->
  n' = n0 + Z.of_nat (length rows) /\
  (forall r c, r < n0 -> cells ws' r c = cells ws r c) /\
  empty_from ws' n' /\
  merged ws' = merged ws /\
  (forall (i : nat) route, rows !! i = Some route ->
     full_row_of all_data ws' (n0 + Z.of_nat i) route).
Proof.
  revert ws n0. induction rows as [|x rows IH]; intros ws n0 Hempty H.
  - injection H as <- <-. split; [simpl; lia|]. split; [auto|]. split; [|split].
    + intros r c Hr. apply Hempty. simpl in Hr. lia.
    + reflexivity.
    + intros i route Hi. now rewrite lookup_nil in Hi.
  - cbn [fold_left route_step] in H. apply IH in H as (-> & Hframe & Hempty' & Hmerged & Hrows).
    + split; [simpl length; lia|]. split; [|split; [|split]].
      * intros r c Hr. rewrite Hframe by lia. apply write_route_other. lia.
      * replace (n0 + Z.of_nat (length (x :: rows))) with (n0 + 1 + Z.of_nat (length rows))
          by (simpl length; lia). exact Hempty'.
      * rewrite Hmerged. apply merged_write_route.
      * intros [|i] route Hi; simpl in Hi.
        -- injection Hi as ->.
           apply (full_row_of_ext all_data (write_route all_data ws n0 route) ws' n0).
           ++ intros c. replace (n0 + Z.of_nat 0) with n0 by lia. apply Hframe. lia.
           ++ apply write_route_full. intros c. apply Hempty. lia.
        -- replace (n0 + Z.of_nat (S i)) with (n0 + 1 + Z.of_nat i) by lia. now apply Hrows.
    + intros r c Hr. rewrite write_route_other by lia. apply Hempty. lia.
Qed.

Lemma remove_taxi_full all_data (ws : worksheet) (rows : list string) ws' n' :
  (forall (i : nat) route, rows !! i = Some route ->
     full_row_of all_data ws (3 + Z.of_nat i) route) ->
  empty_from ws (3 + Z.of_nat (length rows)) ->
  remove_taxi (ws, 3 + Z.of_nat (length rows)) = (ws', n') ->
  n' = 3 + Z.of_nat (length (remove_first taxi_route rows)) /\
  (forall r c, r < 3 -> cells ws' r c = cells ws r c) /\
  empty_from ws' n' /\
  (forall (i : nat) route, remove_first taxi_route rows !! i = Some route ->
     full_row_of all_data ws' (3 + Z.of_nat i) route).
Proof.
  intros Hrows Hempty. unfold remove_taxi.
  replace (3 + Z.of_nat (length rows) - 3) with (Z.of_nat (length rows)) by lia.
  assert (Hcol : forall (i : nat) route, rows !! i = Some route ->
                  cell_val (cells ws (3 + Z.of_nat i) 1) = Text route)
    by (intros i route Hi; eapply full_row_of_row_of; eauto).
  pose proof (find_taxi_row ws rows 3 Hcol) as Hfind.
  destruct (find _ _) as [row|].
  - destruct Hfind as (l1 & t & l2 & -> & Hl1 & Ht & ->).
    intros [= <- <-]. rewrite (remove_first_split _ _ _ _ Hl1 Ht).
    rewrite length_app in Hempty. simpl length in Hempty.
    split; [rewrite !length_app; simpl length; lia|]. split; [|split].
    + intros r c Hr. simpl. destruct (Z.ltb_spec r (3 + Z.of_nat (length l1))); [reflexivity|lia].
    + intros r c Hr. rewrite length_app in Hr. simpl length in Hr. simpl.
      destruct (Z.ltb_spec r (3 + Z.of_nat (length l1))); [lia|]. apply Hempty. lia.
    + intros i route Hi. destruct (decide (i < length l1)%nat) as [Hlt|Hge].
      * rewrite lookup_app_l in Hi by exact Hlt.
        apply (full_row_of_ext all_data ws _ (3 + Z.of_nat i)).
        -- intros c. simpl. destruct (Z.ltb_spec (3 + Z.of_nat i) (3 + Z.of_nat (length l1)));
             [reflexivity | lia].
        -- apply Hrows. now rewrite lookup_app_l.
      * rewrite lookup_app_r in Hi by lia.
        apply (full_row_of_ext all_data ws _ (3 + Z.of_nat (S i))).
        -- intros c. simpl. destruct (Z.ltb_spec (3 + Z.of_nat i) (3 + Z.of_nat (length l1)));
             [lia|]. f_equal. lia.
        -- apply Hrows. rewrite lookup_app_r by lia.
           replace (S i - length l1)%nat with (S (i - length l1)) by lia. exact Hi.
  - intros [= <- <-]. rewrite (remove_first_none _ _ Hfind). auto.
Qed.

(** ** Loops that write one cell per element *)

Section EnumerateFold.
Context {X : Type} (step : worksheet -> Z * X -> worksheet) (row off : Z)
        (g : Z -> X -> cell -> cell).
Hypothesis step_other : forall ws idx x r c,
  r <> row \/ c <> off + idx -> cells (step ws (idx, x)) r c = cells ws r c.
Hypothesis step_cell : forall ws idx x,
  cells (step ws (idx, x)) row (off + idx) = g (off + idx) x (cells ws row (off + idx)).
Hypothesis step_merged : forall ws idx x, merged (step ws (idx, x)) = merged ws.

Lemma enumerate_fold_other (xs : list X) start ws r c :
  r <> row \/ c < off + start \/ off + start + Z.of_nat (length xs) <= c ->
  cells (fold_left step (enumerate start xs) ws) r c = cells ws r c.
Proof.
  revert start ws. induction xs as [|x xs IH]; intros start ws H; [reflexivity|].
  cbn [enumerate fold_left length] in *. rewrite IH by lia. apply step_other. lia.
Qed.

Lemma enumerate_fold_cell (xs : list X) start ws (j : nat) x :
  xs !! j = Some x ->
  cells (fold_left step (enumerate start xs) ws) row (off + start + Z.of_nat j)
  = g (off + start + Z.of_nat j) x (cells ws row (off + start + Z.of_nat j)).
Proof.
  revert start ws j. induction xs as [|x0 xs IH]; intros start ws j Hj; [discriminate|].
  cbn [enumerate fold_left]. destruct j as [|j]; simpl in Hj.
  - injection Hj as ->. rewrite enumerate_fold_other by lia.
    replace (off + start + Z.of_nat 0) with (off + start) by lia. apply step_cell.
  - replace (off + start + Z.of_nat (S j)) with (off + (start + 1) + Z.of_nat j) by lia.
    rewrite (IH _ _ _ Hj). rewrite step_other by lia. reflexivity.
Qed.

Lemma enumerate_fold_merged (xs : list X) start ws :
  merged (fold_left step (enumerate start xs) ws) = merged ws.
Proof.
  revert start ws. induction xs as [|x xs IH]; intros start ws; [reflexivity|].
  cbn [enumerate fold_left]. now rewrite IH, step_merged.
Qed.

End EnumerateFold.

(** ** Merged ranges *)

Lemma merge_cells_inside r1 c1 r2 c2 ws r c :
  r1 <= r <= r2 -> c1 <= c <= c2 -> r <> r1 \/ c <> c1 ->
  cells (merge_cells r1 c1 r2 c2 ws) r c = empty_cell.
Proof.
  intros Hr Hc Hne. simpl.
  destruct (Z.leb_spec r1 r), (Z.leb_spec r r2), (Z.leb_spec c1 c), (Z.leb_spec c c2);
    try lia. simpl.
  destruct (Z.eqb_spec r r1), (Z.eqb_spec c c1); simpl; try reflexivity. lia.
Qed.

Lemma merge_cells_other r1 c1 r2 c2 ws r c :
  r < r1 \/ r2 < r \/ c < c1 \/ c2 < c \/ (r = r1 /\ c = c1) ->
  cells (merge_cells r1 c1 r2 c2 ws) r c = cells ws r c.
Proof.
  intros H. simpl.
  destruct (Z.leb_spec r1 r), (Z.leb_spec r r2), (Z.leb_spec c1 c), (Z.leb_spec c c2);
    simpl; try reflexivity.
  destruct (Z.eqb_spec r r1), (Z.eqb_spec c c1); simpl; try reflexivity; lia.
Qed.

(** ** The header rows *)

Lemma write_headers_fold headers ws :
  write_headers headers ws = fold_left header_step (enumerate 1 headers) ws.
Proof. reflexivity. Qed.

Lemma header_step_other ws idx (h : string) r c :
  r <> 2 \/ c <> 0 + idx -> cells (header_step ws (idx, h)) r c = cells ws r c.
Proof.
  intros H. unfold header_step. rewrite set_fill_other, set_value_other by lia. reflexivity.
Qed.

Lemma header_step_cell ws idx (h : string) :
  cells (header_step ws (idx, h)) 2 (0 + idx)
  = (fun _ h _ => mk_cell (Text h) (Some beige_fill)) (0 + idx) h (cells ws 2 (0 + idx)).
Proof.
  unfold header_step. replace (0 + idx) with idx by lia.
  rewrite set_fill_cell, set_value_cell. reflexivity.
Qed.

Lemma write_headers_other headers ws r c :
  r <> 2 \/ c < 1 \/ 1 + Z.of_nat (length headers) <= c ->
  cells (write_headers headers ws) r c = cells ws r c.
Proof.
  intros H. rewrite write_headers_fold.
  apply (enumerate_fold_other header_step 2 0 header_step_other). lia.
Qed.

Lemma write_headers_cell headers ws (j : nat) (h : string) :
  headers !! j = Some h ->
  cells (write_headers headers ws) 2 (1 + Z.of_nat j) = mk_cell (Text h) (Some beige_fill).
Proof.
  intros Hj. rewrite write_headers_fold.
  replace (1 + Z.of_nat j) with (0 + 1 + Z.of_nat j) by lia.
  now rewrite (enumerate_fold_cell header_step 2 0 _ header_step_other header_step_cell
                 headers 1 ws j h Hj).
Qed.

Lemma write_headers_merged headers ws : merged (write_headers headers ws) = merged ws.
Proof.
  rewrite write_headers_fold. apply enumerate_fold_merged. now intros ws0 idx h.
Qed.

(** The labels of row 1, for any list of files and any first column. *)
Lemma label_fold all_data (files : list string) (ws : worksheet) (start_col : Z) ws' start_col' :
  fold_left (label_step all_data) files (ws, start_col) = (ws', start_col') ->
  let present := List.filter (fun f => mem f all_data) files in
  start_col' = start_col + Z.of_nat (length present) * n_fields /\
  (forall r c, r <> 1 \/ c < start_col \/ start_col' <= c -> cells ws' r c = cells ws r c) /\
  (forall (p : nat) f, present !! p = Some f ->
     cells ws' 1 (start_col + Z.of_nat p * n_fields)
     = mk_cell (Text (PyStr.first_word f)) (Some (label_color f)) /\
     forall c, start_col + Z.of_nat p * n_fields < c < start_col + Z.of_nat (S p) * n_fields ->
               cells ws' 1 c = empty_cell) /\
  merged ws'
  = (merged ws
     ++ map (fun p : nat => (1, start_col + Z.of_nat p * n_fields,
                             1, start_col + Z.of_nat p * n_fields + n_fields - 1))
            (seq 0 (length present)))%list.
Proof.
  rewrite n_fields_9. revert ws start_col.
  induction files as [|f0 files IH]; intros ws start_col H.
  - injection H as <- <-. cbn [List.filter length seq map]. cbn zeta.
    split; [lia|]. split; [auto|]. split.
    + intros p f Hp. now rewrite lookup_nil in Hp.
    + now rewrite app_nil_r.
  - cbn [fold_left label_step] in H. cbn [List.filter]. rewrite n_fields_9 in H.
    destruct (mem f0 all_data) eqn:Hf0.
    + apply IH in H as (-> & Hframe & Hlabels & Hmerged). cbn zeta in *.
      set (present := List.filter (fun f => mem f all_data) files) in *.
      split; [simpl length; lia|]. split; [|split].
      * intros r c Hc. simpl length in Hc. rewrite Hframe by lia.
        rewrite set_fill_other, set_value_other by lia.
        apply merge_cells_other. lia.
      * intros [|p] f Hp; simpl in Hp.
        -- injection Hp as ->. split.
           ++ rewrite Hframe by lia. replace (start_col + Z.of_nat 0 * 9) with start_col by lia.
              rewrite set_fill_cell, set_value_cell. reflexivity.
           ++ intros c Hc. rewrite Hframe by lia.
              rewrite set_fill_other, set_value_other by lia.
              apply merge_cells_inside; lia.
        -- destruct (Hlabels p f Hp) as [Hcell Hempty].
           replace (start_col + Z.of_nat (S p) * 9) with (start_col + 9 + Z.of_nat p * 9) by lia.
           split; [exact Hcell|]. intros c Hc. apply Hempty. lia.
      * assert (Hrange : forall a b a' b' : Z,
                  a = a' -> b = b' -> (1, a, 1, b) = (1, a', 1, b'))
          by (intros; subst; reflexivity).
        rewrite Hmerged. simpl merged. rewrite <- app_assoc. f_equal.
        simpl length. cbn [seq map]. change ([?x] ++ ?l)%list with (x :: l). f_equal.
        -- apply Hrange; lia.
        -- rewrite <- seq_shift, map_map. apply map_ext. intros p. apply Hrange; lia.
    + apply IH in H as (-> & Hframe & Hlabels & Hmerged). cbn zeta in *. auto.
Qed.

Lemma header_sheet_empty_from all_data : empty_from (header_sheet all_data) 3.
Proof.
  intros r c Hr. unfold header_sheet, write_labels.
  destruct (fold_left (label_step all_data) file_order _) as [ws sc] eqn:Hl.
  apply label_fold in Hl as (_ & Hframe & _ & _). cbn [fst].
  rewrite Hframe by lia. rewrite set_fill_other, set_value_other by lia.
  rewrite merge_cells_other by lia.
  rewrite write_headers_other by lia. reflexivity.
Qed.

(** ** The totals row, cell by cell *)

Lemma write_totals_fold all_data total_row_idx ws :
  write_totals all_data total_row_idx ws
  = fold_left (totals_file_step all_data total_row_idx) (enumerate 0 file_order)
      (set_value total_row_idx 1 (Text "Total") ws).
Proof. reflexivity. Qed.

Lemma totals_field_step_other t off ws idx (x : string * option Re.pattern) r c :
  r <> t \/ c <> off + idx -> cells (totals_field_step t off ws (idx, x)) r c = cells ws r c.
Proof. intros H. unfold totals_field_step. now rewrite set_value_other. Qed.

Lemma totals_field_step_cell t off ws idx (x : string * option Re.pattern) :
  cells (totals_field_step t off ws (idx, x)) t (off + idx)
  = (fun c (_ : string * option Re.pattern) old =>
       mk_cell (SumFormula c 3 (t - 1)) (cell_fill old))
      (off + idx) x (cells ws t (off + idx)).
Proof. unfold totals_field_step. apply set_value_cell. Qed.

Lemma totals_block_other t off ws r c :
  r <> t \/ c < off \/ off + n_fields <= c ->
  cells (fold_left (totals_field_step t off) (enumerate 0 data_fields) ws) r c = cells ws r c.
Proof.
  intros H. apply (enumerate_fold_other _ t off (totals_field_step_other t off)).
  unfold n_fields in H. lia.
Qed.

Lemma totals_block_cell t off ws (j : nat) :
  Z.of_nat j < n_fields ->
  cells (fold_left (totals_field_step t off) (enumerate 0 data_fields) ws) t (off + Z.of_nat j)
  = mk_cell (SumFormula (off + Z.of_nat j) 3 (t - 1)) (cell_fill (cells ws t (off + Z.of_nat j))).
Proof.
  intros Hj. destruct (lookup_lt_is_Some_2 data_fields j) as [x Hx];
    [unfold n_fields in Hj; lia|].
  replace (off + Z.of_nat j) with (off + 0 + Z.of_nat j) by lia.
  now rewrite (enumerate_fold_cell _ t off _ (totals_field_step_other t off)
                 (totals_field_step_cell t off) data_fields 0 ws j x Hx).
Qed.

Lemma totals_fold_other all_data t files start ws r c :
  r <> t \/ c < 2 + start * n_fields
  \/ 2 + (start + Z.of_nat (length files)) * n_fields <= c ->
  cells (fold_left (totals_file_step all_data t) (enumerate start files) ws) r c = cells ws r c.
Proof.
  revert start ws. induction files as [|f files IH]; intros start ws H; [reflexivity|].
  cbn [enumerate fold_left length] in *. rewrite n_fields_9 in *. rewrite IH by lia.
  unfold totals_file_step. destruct (mem f all_data); [|reflexivity].
  apply totals_block_other. rewrite n_fields_9. lia.
Qed.

Lemma totals_fold_cell all_data t files start ws (k : nat) f (j : nat) :
  files !! k = Some f -> Z.of_nat j < n_fields ->
  let c := 2 + (start + Z.of_nat k) * n_fields + Z.of_nat j in
  cells (fold_left (totals_file_step all_data t) (enumerate start files) ws) t c
  = if mem f all_data then mk_cell (SumFormula c 3 (t - 1)) (cell_fill (cells ws t c))
    else cells ws t c.
Proof.
  intros Hk Hlt c. subst c. rewrite n_fields_9 in *.
  revert start ws k Hk. induction files as [|f0 files IH]; intros start ws k Hk; [discriminate|].
  cbn [enumerate fold_left]. destruct k as [|k]; simpl in Hk.
  - injection Hk as ->. rewrite totals_fold_other by (rewrite n_fields_9; lia).
    unfold totals_file_step. rewrite n_fields_9. destruct (mem f all_data); [|reflexivity].
    replace (2 + (start + Z.of_nat 0) * 9) with (2 + start * 9) by lia.
    apply totals_block_cell. rewrite n_fields_9. lia.
  - replace (2 + (start + Z.of_nat (S k)) * 9) with (2 + (start + 1 + Z.of_nat k) * 9) by lia.
    rewrite (IH _ _ _ Hk).
    assert (Hother : cells (totals_file_step all_data t ws (start, f0)) t
                       (2 + (start + 1 + Z.of_nat k) * 9 + Z.of_nat j)
                     = cells ws t (2 + (start + 1 + Z.of_nat k) * 9 + Z.of_nat j)).
    { unfold totals_file_step. destruct (mem f0 all_data); [|reflexivity].
      apply totals_block_other. rewrite n_fields_9. lia. }
    now rewrite Hother.
Qed.

Lemma write_totals_full all_data t ws :
  (forall c, cells ws t c = empty_cell) -> totals_row_of all_data (write_totals all_data t ws) t.
Proof.
  intros Hempty. rewrite write_totals_fold. repeat split.
  - rewrite totals_fold_other by (rewrite n_fields_9; lia).
    rewrite set_value_cell, Hempty. reflexivity.
  - intros k f j Hk Hf Hj. unfold body_column.
    replace (2 + Z.of_nat k * n_fields) with (2 + (0 + Z.of_nat k) * n_fields) by lia.
    rewrite (totals_fold_cell _ _ _ _ _ _ _ _ Hk Hj), Hf.
    rewrite set_value_other by (right; rewrite n_fields_9 in *; lia). now rewrite Hempty.
  - intros k f j Hk Hf Hj. unfold body_column.
    replace (2 + Z.of_nat k * n_fields) with (2 + (0 + Z.of_nat k) * n_fields) by lia.
    rewrite (totals_fold_cell _ _ _ _ _ _ _ _ Hk Hj), Hf.
    rewrite set_value_other by (right; rewrite n_fields_9 in *; lia). apply Hempty.
  - intros c Hc. rewrite last_column_28 in Hc.
    rewrite totals_fold_other by (cbn [file_order length]; rewrite n_fields_9; lia).
    rewrite set_value_other by lia. apply Hempty.
Qed.

(** ** The whole worksheet *)

Lemma write_body_header_sheet order all_data :
  write_body order all_data
  = remove_taxi (write_routes all_data (all_routes order) (header_sheet all_data)).
Proof. reflexivity. Qed.

(** The worksheet returned by [write_to_excel]: the header rows, the body
    rows, the totals row, and nothing below. *)
Lemma write_to_excel_layout (order : list string) (all_data : dataset) (booking_code : string) :
  let ws := fst (write_to_excel order all_data booking_code) in
  let t := 3 + Z.of_nat (length (kept_routes order)) in
  (forall r c, r < 3 -> cells ws r c = cells (header_sheet all_data) r c) /\
  merged ws = merged (header_sheet all_data) /\
  (forall (i : nat) route, kept_routes order !! i = Some route ->
     full_row_of all_data ws (3 + Z.of_nat i) route) /\
  totals_row_of all_data ws t /\
  empty_from ws (t + 1).
Proof.
  unfold write_to_excel. rewrite write_body_header_sheet. unfold write_routes, kept_routes.
  destruct (fold_left (route_step all_data) (all_routes order) (header_sheet all_data, 3))
    as [ws1 n1] eqn:Hroutes.
  apply write_routes_full in Hroutes as (-> & Hframe1 & Hempty1 & Hmerged1 & Hrows1);
    [|apply header_sheet_empty_from].
  pose proof (merged_remove_taxi (ws1, 3 + Z.of_nat (length (all_routes order)))) as Hmerged2.
  destruct (remove_taxi (ws1, 3 + Z.of_nat (length (all_routes order)))) as [ws2 n2] eqn:Htaxi.
  apply (remove_taxi_full all_data) in Htaxi as (-> & Hframe2 & Hempty2 & Hrows2);
    [|exact Hrows1|exact Hempty1].
  cbn [fst] in *. cbn zeta. split; [|split; [|split; [|split]]].
  - intros r c Hr. rewrite write_totals_other by lia. rewrite Hframe2, Hframe1 by lia.
    reflexivity.
  - now rewrite merged_write_totals, Hmerged2, Hmerged1.
  - intros i route Hi.
    apply (full_row_of_ext all_data ws2 _ (3 + Z.of_nat i)); [|now apply Hrows2].
    intros c. apply write_totals_other. apply lookup_lt_Some in Hi. lia.
  - apply write_totals_full. intros c. apply Hempty2. lia.
  - intros r c Hr. rewrite write_totals_other by lia. apply Hempty2. lia.
Qed.

(** ** The header blocks *)

Lemma flat_map_present (b : string -> bool) (names files : list string)
    (p : nat) f (j : nat) name :
  List.filter b files !! p = Some f -> names !! j = Some name ->
  flat_map (fun f => if b f then names else []) files !! (p * length names + j)%nat = Some name.
Proof.
  intros Hp Hj. revert p Hp. induction files as [|f0 files IH]; intros p Hp; [discriminate|].
  cbn [List.filter flat_map] in *. destruct (b f0).
  - destruct p as [|p]; simpl in Hp.
    + simpl. rewrite lookup_app_l by (eapply lookup_lt_Some, Hj). exact Hj.
    + rewrite lookup_app_r by (simpl; lia).
      replace (S p * length names + j - length names)%nat with (p * length names + j)%nat
        by (simpl; lia).
      now apply IH.
  - now apply IH.
Qed.

Lemma flat_map_present_length (b : string -> bool) (names files : list string) :
  length (flat_map (fun f => if b f then names else []) files)
  = (length (List.filter b files) * length names)%nat.
Proof.
  induction files as [|f0 files IH]; [reflexivity|].
  cbn [List.filter flat_map]. destruct (b f0); [|exact IH].
  rewrite length_app, IH. simpl. lia.
Qed.

Lemma build_headers_length all_data :
  Z.of_nat (length (build_headers all_data))
  = 1 + Z.of_nat (length (present_files all_data)) * n_fields.
Proof.
  rewrite build_headers_blocks. cbn [length]. rewrite flat_map_present_length.
  unfold present_files, n_fields, field_names. rewrite length_map. lia.
Qed.

Lemma header_sheet_layout (all_data : dataset) :
  let ws := header_sheet all_data in
  cells ws 1 1 = mk_cell (Text "Route number") (Some beige_fill) /\
  cells ws 2 1 = empty_cell /\
  (forall (p : nat) f, present_files all_data !! p = Some f ->
     cells ws 1 (header_column p) = mk_cell (Text (PyStr.first_word f)) (Some (label_color f)) /\
     (forall (j : nat) field, field_names !! j = Some field ->
        cells ws 2 (header_column p + Z.of_nat j) = mk_cell (Text field) (Some beige_fill)) /\
     (forall c, header_column p < c < header_column (S p) -> cells ws 1 c = empty_cell)) /\
  (forall c, header_column (length (present_files all_data)) <= c ->
     cells ws 1 c = empty_cell /\ cells ws 2 c = empty_cell) /\
  merged ws = (1, 1, 2, 1) :: map header_range (seq 0 (length (present_files all_data))).
Proof.
  unfold header_sheet, write_labels, header_column.
  destruct (fold_left (label_step all_data) file_order _) as [ws sc] eqn:Hl.
  apply label_fold in Hl as (-> & Hframe & Hlabels & Hmerged). cbn zeta in *. cbn [fst].
  fold (present_files all_data) in *. rewrite n_fields_9 in *.
  split; [|split; [|split; [|split]]].
  - rewrite Hframe by lia. rewrite set_fill_cell, set_value_cell. reflexivity.
  - rewrite Hframe by lia. rewrite set_fill_other, set_value_other by lia.
    apply merge_cells_inside; lia.
  - intros p f Hp. destruct (Hlabels p f Hp) as [Hcell Hempty]. split; [exact Hcell|]. split.
    + intros j field Hj. pose proof (field_names_lt _ _ Hj) as Hlt. rewrite n_fields_9 in Hlt.
      rewrite Hframe by lia. rewrite set_fill_other, set_value_other by lia.
      rewrite merge_cells_other by lia.
      replace (2 + Z.of_nat p * 9 + Z.of_nat j)
        with (1 + Z.of_nat (S (p * length field_names + j))) by (cbn [field_names length map data_fields]; lia).
      apply write_headers_cell. rewrite build_headers_blocks. cbn [lookup list_lookup].
      exact (flat_map_present (fun f => mem f all_data) field_names file_order p f j field Hp Hj).
    + exact Hempty.
  - intros c Hc. split.
    + rewrite Hframe by lia. rewrite set_fill_other, set_value_other by lia.
      rewrite merge_cells_other by lia. rewrite write_headers_other by lia. reflexivity.
    + rewrite Hframe by lia. rewrite set_fill_other, set_value_other by lia.
      rewrite merge_cells_other by lia.
      rewrite write_headers_other; [reflexivity|].
      rewrite build_headers_length, n_fields_9. lia.
  - rewrite Hmerged. simpl merged. rewrite write_headers_merged. simpl merged.
    cbn [app]. f_equal.
Qed.

(** X9.  The two header rows of the worksheet.  "Route number" is in the
    first cell, merged over both rows.  The files present have their
    header blocks side by side from column 2 on, in the order of
    [file_order]: the label of the file, coloured, in the first cell of a
    merged range of nine columns of row 1, and the nine field names in
    row 2.  Nothing is written to the right of the last block. *)
Theorem header_rows (order : list string) (all_data : dataset) (booking_code : string) :
  let ws := fst (write_to_excel order all_data booking_code) in
  cells ws 1 1 = mk_cell (Text "Route number") (Some beige_fill) /\
  cells ws 2 1 = empty_cell /\
  (forall (p : nat) f, present_files all_data !! p = Some f ->
     cells ws 1 (header_column p) = mk_cell (Text (PyStr.first_word f)) (Some (label_color f)) /\
     (forall (j : nat) field, field_names !! j = Some field ->
        cells ws 2 (header_column p + Z.of_nat j) = mk_cell (Text field) (Some beige_fill)) /\
     (forall c, header_column p < c < header_column (S p) -> cells ws 1 c = empty_cell)) /\
  (forall c, header_column (length (present_files all_data)) <= c ->
     cells ws 1 c = empty_cell /\ cells ws 2 c = empty_cell) /\
  merged ws = (1, 1, 2, 1) :: map header_range (seq 0 (length (present_files all_data))).
Proof.
  intros ws.
  destruct (write_to_excel_layout order all_data booking_code) as (Hframe & Hmerged & _).
  fold ws in Hframe, Hmerged.
  destruct (header_sheet_layout all_data) as (H11 & H21 & Hblocks & Hright & Hm).
  rewrite !Hframe by lia. rewrite Hmerged.
  split; [exact H11|]. split; [exact H21|]. split; [|split; [|exact Hm]].
  - intros p f Hp. destruct (Hblocks p f Hp) as (Hlabel & Hnames & Hempty).
    rewrite Hframe by lia. split; [exact Hlabel|]. split.
    + intros j field Hj. rewrite Hframe by lia. now apply Hnames.
    + intros c Hc. rewrite Hframe by lia. now apply Hempty.
  - intros c Hc. rewrite !Hframe by lia. now apply Hright.
Qed.

Lemma filter_take_lookup {A} (b : A -> bool) (l : list A) (k : nat) (x : A) :
  l !! k = Some x -> b x = true ->
  List.filter b l !! length (List.filter b (take k l)) = Some x.
Proof.
  revert k. induction l as [|y l IH]; intros k Hk Hx; [discriminate|].
  destruct k as [|k]; simpl in Hk.
  - injection Hk as ->. simpl. now rewrite Hx.
  - cbn [take List.filter]. destruct (b y); simpl; now apply IH.
Qed.

Lemma filter_take_length {A} (b : A -> bool) (l : list A) (k : nat) :
  (k <= length l)%nat ->
  (length (List.filter b (take k l)) <= k)%nat /\
  (length (List.filter b (take k l)) = k <-> Forall (fun y => b y = true) (take k l)).
Proof.
  revert k. induction l as [|y l IH]; intros k Hk.
  - destruct k; simpl in *; [|lia]. split; [lia|]. split; [constructor | reflexivity].
  - destruct k as [|k]; [simpl; split; [lia|]; split; [constructor | reflexivity]|].
    simpl in Hk. destruct (IH k ltac:(lia)) as [Hle Hiff]. cbn [take List.filter].
    destruct (b y) eqn:Hy; simpl length.
    + split; [lia|]. split.
      * intros H. constructor; [exact Hy|]. apply Hiff. lia.
      * intros H. inversion H; subst. f_equal. now apply Hiff.
    + split; [lia|]. split; [lia|]. intros H. inversion H; subst. congruence.
Qed.

(** X10.  The header block of a file present starts at column
    2 + 9 p, where p counts the files present before it in [file_order],
    and the block of its values in the body rows starts at column
    2 + 9 k, where k is its position in [file_order]: the header is above
    the values exactly when every file before it is present. *)
Theorem header_above_body_iff (order : list string) (all_data : dataset)
    (booking_code : string) (k : nat) (f : string) :
  file_order !! k = Some f -> mem f all_data = true ->
  let ws := fst (write_to_excel order all_data booking_code) in
  let p := present_before all_data k in
  cells ws 1 (header_column p) = mk_cell (Text (PyStr.first_word f)) (Some (label_color f)) /\
  header_column p <= body_column k 0 /\
  (header_column p = body_column k 0 <->
   Forall (fun g => mem g all_data = true) (take k file_order)).
Proof.
  intros Hk Hf ws p.
  destruct (write_to_excel_layout order all_data booking_code) as (Hframe & _).
  destruct (header_sheet_layout all_data) as (_ & _ & Hblocks & _).
  assert (Hp : present_files all_data !! p = Some f)
    by (apply (filter_take_lookup (fun g => mem g all_data)); assumption).
  destruct (Hblocks p f Hp) as [Hlabel _].
  split; [unfold ws; rewrite Hframe by lia; exact Hlabel|].
  destruct (filter_take_length (fun g => mem g all_data) file_order k) as [Hle Hiff].
  { apply lookup_lt_Some in Hk. lia. }
  fold (present_before all_data k) in Hle, Hiff. fold p in Hle, Hiff.
  unfold header_column, body_column. rewrite n_fields_9. split; [lia|].
  rewrite <- Hiff. lia.
Qed.

Lemma header_above_body_iff_saturday_only :
  let ws := fst (write_to_excel ["1 A"] saturday_only "unknown") in
  cells ws 1 (header_column 0) = mk_cell (Text "SAT") (Some "FF0000") /\
  header_column 0 <= body_column 1 0 /\
  (header_column 0 = body_column 1 0 <->
   Forall (fun g => mem g saturday_only = true) (take 1 file_order)).
Proof.
  apply (header_above_body_iff ["1 A"] saturday_only "unknown" 1 "SAT Stats.prt");
    reflexivity.
Defined.

(** X11.  A body row holds the route identifier in its first cell and,
    for every file present, the values written by [lookup_value] in the
    columns of that file, the Revenue Hours cell alone being highlighted;
    the columns of a file that is absent, and the columns outside 1 to 28,
    are empty. *)
Theorem body_row_cells (order : list string) (all_data : dataset) (booking_code : string)
    (i : nat) (route : string) :
  kept_routes order !! i = Some route ->
  full_row_of all_data (fst (write_to_excel order all_data booking_code))
    (3 + Z.of_nat i) route.
Proof.
  intros Hi. destruct (write_to_excel_layout order all_data booking_code) as (_ & _ & Hrows & _).
  now apply Hrows.
Qed.

Lemma body_row_cells_example :
  full_row_of weekday_and_saturday
    (fst (write_to_excel ["2 B"; "1 A"] weekday_and_saturday "unknown")) (3 + Z.of_nat 1) "2 B".
Proof.
  apply (body_row_cells ["2 B"; "1 A"] weekday_and_saturday "unknown" 1 "2 B"). reflexivity.
Defined.

(** X12.  The totals row comes right after the last body row.  It holds
    "Total" in its first cell and, for every field of every file present,
    the sum of the cells of its own column from row 3 to the row above;
    none of its cells is highlighted, the columns of absent files are
    empty, and every row below it is empty. *)
Theorem totals_row (order : list string) (all_data : dataset) (booking_code : string) :
  let ws := fst (write_to_excel order all_data booking_code) in
  let t := 3 + Z.of_nat (length (kept_routes order)) in
  totals_row_of all_data ws t /\ empty_from ws (t + 1).
Proof.
  intros ws t.
  destruct (write_to_excel_layout order all_data booking_code) as (_ & _ & _ & Ht & Hbelow).
  split; assumption.
Qed.

(** ** Ties in the route order *)

Lemma key_lt_irrefl_eqb a b k :
  key_lt a b = true -> key_eqb a k = true -> key_eqb b k = false.
Proof.
  destruct a, b, k; simpl; try congruence.
  intros H1%Z.ltb_lt H2%Z.eqb_eq. apply Z.eqb_neq. lia.
Qed.

Lemma insert_by_with_key (k : sort_key) (x : string) (l : list string) :
  with_key k (insert_by route_sort_key x l) = with_key k (x :: l).
Proof.
  unfold with_key. induction l as [|y l IH]; [reflexivity|].
  cbn [insert_by]. destruct (key_lt (route_sort_key y) (route_sort_key x)) eqn:Hlt;
    [|reflexivity].
  cbn [List.filter] in *. rewrite IH.
  destruct (key_eqb (route_sort_key y) k) eqn:Hy; [|reflexivity].
  now rewrite (key_lt_irrefl_eqb _ _ _ Hlt Hy).
Qed.

(** X13.  Routes with the same sort key (the same leading integer, or no
    leading integer) keep, in the sorted list, the order in which the set
    of routes is iterated. *)
Theorem all_routes_stable (order : list string) (k : sort_key) :
  with_key k (all_routes order) = with_key k order.
Proof.
  unfold all_routes. induction order as [|x order IH]; [reflexivity|].
  cbn [sorted]. rewrite insert_by_with_key. unfold with_key in *. cbn [List.filter].
  now rewrite IH.
Qed.

(* ===================================================================== *)
(** * More on the routes of a report *)
(* ===================================================================== *)

Section DictKeys.
Context {K V : Type} `{EqDecision K}.
Implicit Types (d : dict K V) (k : K) (v : V).

Lemma In_keys_set k k' v d : In k' (keys (set k v d)) <-> k' = k \/ In k' (keys d).
Proof.
  induction d as [|[k0 v0] d IH]; simpl.
  - intuition congruence.
  - destruct (decide (k = k0)) as [->|Hne]; simpl; [intuition congruence|].
    rewrite IH. intuition congruence.
Qed.

Lemma NoDup_keys_set k v d : NoDup (keys d) -> NoDup (keys (set k v d)).
Proof.
  induction d as [|[k0 v0] d IH]; simpl; intros Hd.
  - repeat constructor. intros H0. inversion H0.
  - destruct (decide (k = k0)) as [->|Hne]; simpl; [exact Hd|].
    apply NoDup_cons in Hd as [Hk0 Hd]. apply NoDup_cons. split; [|now apply IH].
    rewrite list_elem_of_In, In_keys_set. rewrite list_elem_of_In in Hk0.
    intuition congruence.
Qed.

End DictKeys.

Lemma scan_line_keys (st st' : scan_state) (l : string) :
  scan_sound st -> scan_line st l = Ok st' ->
  (NoDup (keys (data st)) -> NoDup (keys (data st'))) /\
  forall route, In route (keys (data st')) <-> In route (keys (data st)) \/ header_of route l.
Proof.
  intros [Hcur _]. unfold scan_line, header_of.
  destruct (Re.match_ route_re l) as [gs|] eqn:Hm.
  - intros [= <-]. simpl. fold (route_of_groups gs). split; [apply NoDup_keys_set|].
    intros route. rewrite In_keys_set. split.
    + intros [-> | H]; [right; eauto | now left].
    + intros [H | (gs' & [= <-] & ->)]; [now right | now left].
  - assert (Hsame : data st' = data st ->
                    (NoDup (keys (data st)) -> NoDup (keys (data st'))) /\
                    forall route, In route (keys (data st')) <->
                                  In route (keys (data st)) \/
                                  (exists gs, None = Some gs /\ route = route_of_groups gs)).
    { intros ->. split; [auto|]. intros route. split; [now left|].
      intros [H | (gs & Hgs & _)]; [exact H | discriminate]. }
    destruct (current_route st) as [route|]; [|intros [= <-]; now apply Hsame].
    destruct (String.eqb route ""); [intros [= <-]; now apply Hsame|].
    destruct Hcur as [r Hr]. rewrite (scan_fields_record _ _ _ _ _ Hr).
    destruct (for_each (record_field l) data_fields r) as [r'|]; [|discriminate].
    simpl. intros [= <-]. simpl.
    assert (Hkeys : keys (set route r' (data st)) = keys (data st))
      by (apply keys_set_In; eapply get_In_keys, Hr).
    rewrite Hkeys. split; [auto|]. intros route0. split; [now left|].
    intros [H | (gs & Hgs & _)]; [exact H | discriminate].
Qed.

Lemma scan_lines_keys (lines : list string) (st st' : scan_state) :
  scan_sound st -> for_each scan_line lines st = Ok st' ->
  (NoDup (keys (data st)) -> NoDup (keys (data st'))) /\
  forall route, In route (keys (data st')) <->
                In route (keys (data st)) \/ exists l, In l lines /\ header_of route l.
Proof.
  revert st. induction lines as [|l lines IH]; intros st Hst; simpl.
  - intros [= <-]. split; [auto|]. intros route. split; [now left|].
    intros [H | (l & [] & _)]. exact H.
  - pose proof (scan_line_sound st l Hst) as Hsound.
    destruct (scan_line st l) as [st1|] eqn:Hl; [|discriminate].
    intros Hrest. destruct (scan_line_keys _ _ _ Hst Hl) as [Hnd1 Hk1].
    destruct (IH st1 Hsound Hrest) as [Hnd Hk]. split; [auto|].
    intros route. rewrite Hk, Hk1. split.
    + intros [[H | H] | (l0 & Hin & H)]; [now left | right; eauto | right; eauto].
    + intros [H | (l0 & [<- | Hin] & H)]; [now left; left | left; now right | right; eauto].
Qed.

(** X14.  The routes of the result of [extract_data] are the routes of
    the header lines of the report, each once. *)
Theorem routes_are_headers (lines : list string) bc (d : dict string record) :
  extract_data lines = Ok (bc, d) ->
  NoDup (keys d) /\
  forall route, In route (keys d) <-> exists l, In l lines /\ header_of route l.
Proof.
  unfold extract_data.
  destruct (for_each scan_line lines _) as [st|] eqn:Hscan; [|discriminate]. simpl.
  destruct (update_all finish_route (data st)) as [d'|] eqn:Hd; [|discriminate].
  simpl. intros [= _ <-]. rewrite (update_all_keys _ _ _ Hd).
  assert (Hinit : scan_sound {| data := []; current_route := None |})
    by (split; [exact I | constructor]).
  destruct (scan_lines_keys lines _ st Hinit Hscan) as [Hnd Hk].
  split; [apply Hnd; constructor|].
  intros route. rewrite Hk. simpl. intuition.
Qed.

Lemma routes_are_headers_example :
  NoDup (keys [("65 Senior Shopper", end_to_end_record)]) /\
  forall route, In route (keys [("65 Senior Shopper", end_to_end_record)]) <->
                exists l, In l end_to_end_lines /\ header_of route l.
Proof.
  apply (routes_are_headers end_to_end_lines "4821"). vm_compute. reflexivity.
Defined.

(** ** Lines that match nothing *)

Lemma scan_fields_no_field (l route : string) (d : dict string record) :
  no_field l -> for_each (scan_field l route) data_fields d = Ok d.
Proof.
  intros Hl.
  assert (H : forall fields, (forall x, In x fields -> In x data_fields) ->
                             for_each (scan_field l route) fields d = Ok d).
  { induction fields as [|[field_name [re|]] fields IH]; intros Hin; simpl; [reflexivity| |].
    - rewrite (Hl field_name re) by (apply Hin; now left). apply IH.
      intros x Hx. apply Hin. now right.
    - apply IH. intros x Hx. apply Hin. now right. }
  apply H. auto.
Qed.

Lemma scan_line_no_match (st : scan_state) (l : string) :
  no_route_header l -> no_field l -> scan_line st l = Ok st.
Proof.
  intros Hh Hf. unfold scan_line. unfold no_route_header in Hh. rewrite Hh.
  destruct st as [d [route|]]; cbn [current_route data]; [|reflexivity].
  destruct (String.eqb route ""); [reflexivity|].
  now rewrite (scan_fields_no_field l route d Hf).
Qed.

Lemma extract_booking_code_skip (above : list string) (l : string) (below : list string) :
  no_booking l ->
  extract_booking_code (above ++ l :: below)%list = extract_booking_code (above ++ below)%list.
Proof.
  intros Hl. induction above as [|x above IH]; simpl.
  - unfold no_booking in Hl. now rewrite Hl.
  - now rewrite IH.
Qed.

(** X15.  A line in which neither the route pattern, nor a field
    pattern, nor the booking pattern is found can be dropped from the
    report, wherever it stands: the result is the same. *)
Theorem unmatched_line_skipped (above : list string) (l : string) (below : list string) :
  no_route_header l -> no_field l -> no_booking l ->
  extract_data (above ++ l :: below)%list = extract_data (above ++ below)%list.
Proof.
  intros Hh Hf Hb. unfold extract_data.
  rewrite (extract_booking_code_skip above l below Hb). rewrite !for_each_app.
  destruct (for_each scan_line above _) as [st|]; [|reflexivity].
  cbn [for_each]. now rewrite (scan_line_no_match st l Hh Hf).
Qed.

Lemma unmatched_line_skipped_example :
  extract_data ([line "Route 7 Elm St"] ++ remark_line :: [line "Number of blocks: 4"])%list
  = extract_data ([line "Route 7 Elm St"] ++ [line "Number of blocks: 4"])%list.
Proof.
  apply (unmatched_line_skipped [line "Route 7 Elm St"] remark_line [line "Number of blocks: 4"]).
  - reflexivity.
  - intros field_name re Hin. simpl in Hin.
    repeat (destruct Hin as [[= <- <-] | Hin]; [vm_compute; reflexivity|]).
    destruct Hin as [[=] | []].
  - reflexivity.
Defined.

(** ** Case *)

Section Case.
Import PyStr.

Lemma upper_lower_char c : upper_char (lower_char c) = upper_char c.
Proof. destruct c as [[] [] [] [] [] [] [] []]; reflexivity. Qed.

Lemma upper_upper_char c : upper_char (upper_char c) = upper_char c.
Proof. destruct c as [[] [] [] [] [] [] [] []]; reflexivity. Qed.

Lemma lower_upper_char c : lower_char (upper_char c) = lower_char c.
Proof. destruct c as [[] [] [] [] [] [] [] []]; reflexivity. Qed.

Lemma lower_lower_char c : lower_char (lower_char c) = lower_char c.
Proof. destruct c as [[] [] [] [] [] [] [] []]; reflexivity. Qed.

Lemma is_space_upper_char c : is_space (upper_char c) = is_space c.
Proof. destruct c as [[] [] [] [] [] [] [] []]; reflexivity. Qed.

Lemma is_space_lower_char c : is_space (lower_char c) = is_space c.
Proof. destruct c as [[] [] [] [] [] [] [] []]; reflexivity. Qed.

Lemma map_chars_map_chars f g (s : string) :
  map_chars f (map_chars g s) = map_chars (fun c => f (g c)) s.
Proof. induction s as [|c s IH]; simpl; [reflexivity | now rewrite IH]. Qed.

Lemma map_chars_ext f g (s : string) :
  (forall c, f c = g c) -> map_chars f s = map_chars g s.
Proof. intros H. induction s as [|c s IH]; simpl; [reflexivity | now rewrite H, IH]. Qed.

Lemma lstrip_map_chars f (s : string) :
  (forall c, is_space (f c) = is_space c) -> lstrip (map_chars f s) = map_chars f (lstrip s).
Proof.
  intros Hf. induction s as [|c s IH]; simpl; [reflexivity|].
  rewrite Hf. destruct (is_space c); [exact IH | reflexivity].
Qed.

Lemma rstrip_map_chars f (s : string) :
  (forall c, is_space (f c) = is_space c) -> rstrip (map_chars f s) = map_chars f (rstrip s).
Proof.
  intros Hf. induction s as [|c s IH]; simpl; [reflexivity|].
  rewrite IH, Hf. destruct (rstrip s); simpl; [now destruct (is_space c) | reflexivity].
Qed.

Lemma strip_map_chars f (s : string) :
  (forall c, is_space (f c) = is_space c) -> strip (map_chars f s) = map_chars f (strip s).
Proof. intros Hf. unfold strip. now rewrite lstrip_map_chars, rstrip_map_chars. Qed.

(** X16.  The rule for route 65 and the TAXI test do not depend on the
    case of the letters of the identifier. *)
Theorem case_insensitive (route : string) :
  is_senior_shopper (upper route) = is_senior_shopper route /\
  is_senior_shopper (lower route) = is_senior_shopper route /\
  taxi_route (upper route) = taxi_route route /\
  taxi_route (lower route) = taxi_route route.
Proof.
  unfold is_senior_shopper, taxi_route, upper, lower. repeat split.
  - rewrite (strip_map_chars _ _ is_space_upper_char), map_chars_map_chars.
    now rewrite (map_chars_ext _ lower_char _ lower_upper_char).
  - rewrite (strip_map_chars _ _ is_space_lower_char), map_chars_map_chars.
    now rewrite (map_chars_ext _ lower_char _ lower_lower_char).
  - rewrite map_chars_map_chars.
    now rewrite (map_chars_ext _ upper_char _ upper_upper_char).
  - rewrite map_chars_map_chars.
    now rewrite (map_chars_ext _ upper_char _ upper_lower_char).
Qed.

End Case.
